(** * Attendance lifecycle engine: clock state machine, work-hours
      calculator, clock-out orchestration and payroll calculation.

    Shallow embedding of
      - src/lib/utils.ts                         (time utilities)
      - src/lib/attendance/state-machine.ts      (ClockStateMachine)
      - src/lib/attendance/attendance-service.ts (AttendanceService.clockOut)
      - src/lib/attendance/work-hours-calculator.ts (calculateWorkHours)
      - src/lib/payroll/payroll-service.ts       (PayrollService)

    Conventions.
      - A [Date] is its epoch value in milliseconds, a [Z].  Local
        clock readings ([getHours], [getDay], ...) are taken at a fixed
        offset from UTC, the variable [tz] (minutes; 480 for Asia/Taipei).
      - Integer quantities that the source obtains from [Date]s and
        [Math.floor] are [Z]: epoch values and minute counts stay far
        below 2^53, where the arithmetic of doubles on integers is exact.
      - The minute counts that go through [Number] (scheduled minutes,
        regular and overtime minutes, timing anomalies) are [num]s:
        either [NaN] or a finite value, kept as a rational.  On the
        HH:mm strings of a shift type they are integers.
      - The night minutes and every amount of the payroll (hours, rates,
        pay) are IEEE 754 binary64 doubles, [F64.t], with the operations
        of the standard library's [SpecFloat]: each operation rounds to
        the nearest double, ties to even, as JavaScript does.
      - Nullable columns are [option]s; objects are records.
      - [new Date()] and the ids that storage assigns are read from the
        world a computation runs in; an exception ends the computation. *)

From Stdlib Require Import ZArith QArith Qround Qminmax List String Ascii Bool Lia Lqa.
From Stdlib Require Import SpecFloat.
From Stdlib Require DecimalString.
Import ListNotations.

Local Open Scope string_scope.
Local Open Scope Z_scope.

(* ================================================================== *)
(** * JavaScript numbers *)

Inductive num : Type :=
| NaN
| Fin (q : Q).

Module Num.

Definition ofZ (z : Z) : num := Fin (inject_Z z).

Definition lift2 (f : Q -> Q -> Q) (a b : num) : num :=
  match a, b with
  | Fin x, Fin y => Fin (f x y)
  | _, _ => NaN
  end.

Definition add := lift2 Qplus.
Definition sub := lift2 Qminus.
Definition mul := lift2 Qmult.

(** [a / k] for a non-zero divisor [k], without rounding. *)
Definition divq (a : num) (k : Q) : num :=
  match a with
  | Fin x => Fin (x / k)
  | NaN => NaN
  end.

(** [Math.min] and [Math.max]: [NaN] as soon as one argument is. *)
Definition min := lift2 Qmin.
Definition max := lift2 Qmax.

(** The nearest integer of an exact amount, halves towards plus
    infinity. *)
Definition roundQ (x : Q) : Z := Qfloor (x + (1 # 2)).
Definition round (a : num) : num :=
  match a with
  | Fin x => ofZ (roundQ x)
  | NaN => NaN
  end.

(** [a > b], [a < b], [a <= b]: every comparison with [NaN] is false. *)
Definition gtb (a b : num) : bool :=
  match a, b with
  | Fin x, Fin y => negb (Qle_bool x y)
  | _, _ => false
  end.

Definition ltb (a b : num) : bool := gtb b a.

Definition leb (a b : num) : bool :=
  match a, b with
  | Fin x, Fin y => Qle_bool x y
  | _, _ => false
  end.

(** [a == b] on numbers: [NaN] equals nothing, itself included. *)
Definition eq (a b : num) : Prop :=
  match a, b with
  | Fin x, Fin y => (x == y)%Q
  | _, _ => False
  end.

End Num.

(** ** Doubles

    A JavaScript [number] as the IEEE 754 binary64 value it is: 53 bits
    of precision, exponents up to 1024. *)
Module F64.

Definition t : Type := spec_float.

Definition prec : Z := 53.
Definition emax : Z := 1024.

Definition nan : t := S754_nan.

(** An integer as a double; exact below 2^53. *)
Definition ofZ (z : Z) : t := binary_normalize prec emax z 0 false.

Definition add : t -> t -> t := SFadd prec emax.
Definition sub : t -> t -> t := SFsub prec emax.
Definition mul : t -> t -> t := SFmul prec emax.
Definition div : t -> t -> t := SFdiv prec emax.

(** The double nearest to a rational: a decimal literal of the source,
    or [Number(decimal)] of a Prisma [Decimal].  The quotient of two
    integers below 2^53 is rounded once. *)
Definition ofQ (q : Q) : t :=
  let r := Qred q in div (ofZ (Qnum r)) (ofZ (Zpos (Qden r))).

(** A minute count as the double the source holds. *)
Definition ofNum (a : num) : t :=
  match a with
  | NaN => nan
  | Fin q => ofQ q
  end.

(** [a <= b] and [a < b]: every comparison with [NaN] is false. *)
Definition leb : t -> t -> bool := SFleb.
Definition ltb : t -> t -> bool := SFltb.

(** [Math.min] and [Math.max]: [NaN] as soon as one argument is, and
    [-0] below [+0]. *)
Definition min (a b : t) : t :=
  match SFcompare a b with
  | None => nan
  | Some Lt => a
  | Some Gt => b
  | Some Eq => match a with S754_zero true => a | _ => b end
  end.

Definition max (a b : t) : t :=
  match SFcompare a b with
  | None => nan
  | Some Lt => b
  | Some Gt => a
  | Some Eq => match a with S754_zero false => a | _ => b end
  end.

(** [Math.round]: the integer nearest to the exact value, halves towards
    plus infinity; a double with a non-negative exponent is an integer
    already, and a result of 0 keeps the sign. *)
Definition round (x : t) : t :=
  match x with
  | S754_finite s m e =>
      if 0 <=? e then x
      else
        let n := (cond_Zopp s (Zpos m) + 2 ^ (- e - 1)) / 2 ^ (- e) in
        if n =? 0 then S754_zero s else ofZ n
  | _ => x
  end.

(** Truthiness of a number: neither [0] nor [NaN]. *)
Definition truthy (x : t) : bool :=
  match x with
  | S754_zero _ | S754_nan => false
  | _ => true
  end.

(** The same double, bit for bit. *)
Definition same (a b : t) : bool :=
  match a, b with
  | S754_zero s1, S754_zero s2 => Bool.eqb s1 s2
  | S754_infinity s1, S754_infinity s2 => Bool.eqb s1 s2
  | S754_nan, S754_nan => true
  | S754_finite s1 m1 e1, S754_finite s2 m2 e2 =>
      Bool.eqb s1 s2 && Pos.eqb m1 m2 && Z.eqb e1 e2
  | _, _ => false
  end.

End F64.

(** ** The arithmetic of a function that is run on doubles

    [calculateOvertimePay] is written once over the operations it uses.
    The service runs it on doubles; on rationals the same text gives the
    amounts free of rounding. *)
Module Arith.
Class t (T : Type) : Type := mk {
  ofZ : Z -> T;
  lit : Q -> T;
  add : T -> T -> T;
  sub : T -> T -> T;
  mul : T -> T -> T;
  min : T -> T -> T;
  max : T -> T -> T;
  leb : T -> T -> bool
}.
End Arith.

#[global] Instance num_Arith : Arith.t num :=
  Arith.mk num Num.ofZ Fin Num.add Num.sub Num.mul Num.min Num.max Num.leb.

#[global] Instance F64_Arith : Arith.t F64.t :=
  Arith.mk F64.t F64.ofZ F64.ofQ F64.add F64.sub F64.mul F64.min F64.max F64.leb.


Declare Scope num_scope.
Delimit Scope num_scope with num.
Infix "+" := Num.add : num_scope.
Infix "-" := Num.sub : num_scope.
Infix "*" := Num.mul : num_scope.
Infix "===" := Num.eq (at level 70, no associativity) : num_scope.

(* ================================================================== *)
(** * Time utilities (src/lib/utils.ts and the [Date] readings used) *)

Module Utils.

(** [differenceInMinutes(end, start)]:
    [Math.floor((end.getTime() - start.getTime()) / (1000 * 60))]. *)
Definition differenceInMinutes (end_ start : Z) : Z :=
  (end_ - start) / (1000 * 60).

(** [s.split(":")]: the pieces between the separators, at least one. *)
Fixpoint split (sep : ascii) (s : string) : list string :=
  match s with
  | EmptyString => [EmptyString]
  | String c rest =>
      if Ascii.eqb c sep then EmptyString :: split sep rest
      else match split sep rest with
           | piece :: pieces => String c piece :: pieces
           | [] => [String c EmptyString]
           end
  end.

Section Parsing.

(** The global [Number] applied to a string piece.  It is the
    runtime's conversion; what is proved below holds for every
    such function. *)
Variable Number : string -> num.

(** [const [hours, minutes] = timeStr.split(":").map(Number)].  A piece
    that is absent is [undefined], which every arithmetic use below
    turns into [NaN]. *)
Definition parseTimeString (timeStr : string) : num * num :=
  match List.map Number (split ":" timeStr) with
  | h :: m :: _ => (h, m)
  | [h] => (h, NaN)
  | [] => (NaN, NaN)
  end.

(** [t.hours * 60 + t.minutes] *)
Definition minutesOfDay (t : num * num) : num :=
  (fst t * Num.ofZ 60 + snd t)%num.

End Parsing.

(** [Number] on the strings the shift-type schema admits
    ([/^\d{2}:\d{2}$/]): a run of decimal digits is its value; anything
    else is not a number here. *)
Definition digitValue (c : ascii) : option Z :=
  let n := Z.of_nat (nat_of_ascii c) in
  if (48 <=? n) && (n <=? 57) then Some (n - 48) else None.

Fixpoint digitsValue (acc : Z) (s : string) : option Z :=
  match s with
  | EmptyString => Some acc
  | String c rest =>
      match digitValue c with
      | Some d => digitsValue (10 * acc + d) rest
      | None => None
      end
  end.

Definition NumberOfDigits (s : string) : num :=
  match s with
  | EmptyString => Num.ofZ 0
  | _ => match digitsValue 0 s with
         | Some z => Num.ofZ z
         | None => NaN
         end
  end.

Section LocalTime.

(** Offset of local time from UTC, in minutes. *)
Variable tz : Z.

Definition localMs (d : Z) : Z := d + tz * 60000.

(** [d.getHours()], [d.getMinutes()], [d.getDay()] *)
Definition getHours (d : Z) : Z := (localMs d / 3600000) mod 24.
Definition getMinutes (d : Z) : Z := (localMs d / 60000) mod 60.
Definition localDays (d : Z) : Z := localMs d / 86400000.
Definition getDay (d : Z) : Z := (localDays d + 4) mod 7.

(** Proleptic Gregorian year and month (0-based, as [getMonth]) of a
    count of days since 1970-01-01. *)
Definition civil (days : Z) : Z * Z :=
  let z := days + 719468 in
  let era := z / 146097 in
  let doe := z - era * 146097 in
  let yoe := (doe - doe / 1460 + doe / 36524 - doe / 146096) / 365 in
  let doy := doe - (365 * yoe + yoe / 4 - yoe / 100) in
  let mp := (5 * doy + 2) / 153 in
  let m := if mp <? 10 then mp + 3 else mp - 9 in
  let y := yoe + era * 400 + (if m <=? 2 then 1 else 0) in
  (y, m - 1).

Definition getFullYear (d : Z) : Z := fst (civil (localDays d)).
Definition getMonth (d : Z) : Z := snd (civil (localDays d)).

Definition isLeapYear (y : Z) : bool :=
  ((y mod 4 =? 0) && negb (y mod 100 =? 0)) || (y mod 400 =? 0).

(** [new Date(year, month + 1, 0).getDate()]: the last day of the
    0-based [month] of [year]. *)
Definition daysInMonth (year month : Z) : Z :=
  if month =? 1 then (if isLeapYear year then 29 else 28)
  else if (month =? 3) || (month =? 5) || (month =? 8) || (month =? 10)
       then 30 else 31.

(** [startOfDay(date)]: [setHours(0, 0, 0, 0)] on a copy. *)
Definition startOfDay (d : Z) : Z := localDays d * 86400000 - tz * 60000.

(** [endOfDay(date)]: [setHours(23, 59, 59, 999)] on a copy. *)
Definition endOfDay (d : Z) : Z := startOfDay d + 86399999.

End LocalTime.

End Utils.

(* ================================================================== *)
(** * Data model (the Prisma entities the engine reads and writes) *)

Inductive BreakType : Type := REST | MEAL | PERSONAL | EMERGENCY.

Module Break.
Record t : Type := mk {
  id : string;
  startTime : Z;
  endTime : option Z;          (* null while the break is open *)
  type : BreakType;
  durationMinutes : option Z
}.
End Break.

Module ShiftType.
Record t : Type := mk {
  startTime : string;          (* HH:mm *)
  endTime : string;
  breakDuration : Z;
  maxBreakCount : Z;
  isSplit : bool;
  splitBreakStart : option string;
  splitBreakEnd : option string
}.
End ShiftType.

Module Schedule.
Record t : Type := mk {
  id : string;
  userId : string;
  date : Z;
  shiftType : ShiftType.t      (* include: { shiftType: true } *)
}.
End Schedule.

Module AttendanceStatus.
Inductive t : Type :=
| CLOCKED_IN | ON_BREAK | CLOCKED_OUT | PENDING_REVIEW
| APPROVED | ABSENT | REJECTED.
End AttendanceStatus.

Module Attendance.
Record t : Type := mk {
  id : string;
  userId : string;
  storeId : string;
  date : Z;
  clockIn : option Z;
  clockOut : option Z;
  clockIn2 : option Z;
  clockOut2 : option Z;
  status : AttendanceStatus.t;
  totalMinutes : option Z;
  breakMinutes : option Z;
  netWorkMinutes : option Z;
  overtimeMinutes : option num;
  scheduleId : option string;
  breaks : list Break.t        (* include: { breaks: ... } *)
}.
End Attendance.

(** [!b.endTime]: a [Date] object is truthy, [null] is not. *)
Definition isOpen (b : Break.t) : bool :=
  match Break.endTime b with
  | None => true
  | Some _ => false
  end.

(* ================================================================== *)
(** * Clock state machine (src/lib/attendance/state-machine.ts) *)

Module ClockState.
Inductive t : Type :=
| NOT_CLOCKED_IN | WORKING | ON_BREAK | CLOCKED_OUT | SPLIT_BREAK.

Definition eqb (a b : t) : bool :=
  match a, b with
  | NOT_CLOCKED_IN, NOT_CLOCKED_IN
  | WORKING, WORKING
  | ON_BREAK, ON_BREAK
  | CLOCKED_OUT, CLOCKED_OUT
  | SPLIT_BREAK, SPLIT_BREAK => true
  | _, _ => false
  end.

(** The enum's string value, as a template literal prints it. *)
Definition toString (s : t) : string :=
  match s with
  | NOT_CLOCKED_IN => "NOT_CLOCKED_IN"
  | WORKING => "WORKING"
  | ON_BREAK => "ON_BREAK"
  | CLOCKED_OUT => "CLOCKED_OUT"
  | SPLIT_BREAK => "SPLIT_BREAK"
  end.
End ClockState.

Module ClockAction.
Inductive t : Type :=
| CLOCK_IN | CLOCK_OUT | START_BREAK | END_BREAK
| CLOCK_IN_SEGMENT_2 | CLOCK_OUT_SEGMENT_2.

Definition eqb (a b : t) : bool :=
  match a, b with
  | CLOCK_IN, CLOCK_IN
  | CLOCK_OUT, CLOCK_OUT
  | START_BREAK, START_BREAK
  | END_BREAK, END_BREAK
  | CLOCK_IN_SEGMENT_2, CLOCK_IN_SEGMENT_2
  | CLOCK_OUT_SEGMENT_2, CLOCK_OUT_SEGMENT_2 => true
  | _, _ => false
  end.

Definition toString (a : t) : string :=
  match a with
  | CLOCK_IN => "CLOCK_IN"
  | CLOCK_OUT => "CLOCK_OUT"
  | START_BREAK => "START_BREAK"
  | END_BREAK => "END_BREAK"
  | CLOCK_IN_SEGMENT_2 => "CLOCK_IN_SEGMENT_2"
  | CLOCK_OUT_SEGMENT_2 => "CLOCK_OUT_SEGMENT_2"
  end.
End ClockAction.

Module ClockContext.
Record t : Type := mk {
  userId : string;
  storeId : string;
  attendanceId : option string;
  currentBreakId : option string;
  schedule : option Schedule.t;
  attendance : option Attendance.t;
  timestamp : Z
}.
End ClockContext.

(** [{ allowed: boolean; reason?: string }] *)
Module Verdict.
Record t : Type := mk {
  allowed : bool;
  reason : option string
}.
End Verdict.

Module StateTransition.
Record t : Type := mk {
  from : list ClockState.t;
  to : ClockState.t;
  action : ClockAction.t;
  guard : option (ClockContext.t -> Verdict.t)
}.
End StateTransition.

(** [ctx.attendance?.breaks] *)
Definition contextBreaks (ctx : ClockContext.t) : option (list Break.t) :=
  option_map Attendance.breaks (ClockContext.attendance ctx).

(** [ctx.schedule?.shiftType] *)
Definition contextShiftType (ctx : ClockContext.t) : option ShiftType.t :=
  option_map Schedule.shiftType (ClockContext.schedule ctx).

(** A number inside a template literal. *)
Definition showZ (z : Z) : string :=
  DecimalString.NilZero.string_of_int (Z.to_int z).

(** START_BREAK guard *)
Definition guardStartBreak (ctx : ClockContext.t) : Verdict.t :=
  let breakCount :=
    match contextBreaks ctx with
    | Some bs => Z.of_nat (List.length bs)
    | None => 0
    end in
  let maxBreaks :=
    match contextShiftType ctx with
    | Some st => ShiftType.maxBreakCount st
    | None => 3
    end in
  if breakCount >=? maxBreaks
  then Verdict.mk false (Some ("已達到最大休息次數 (" ++ showZ maxBreaks ++ ")"))
  else Verdict.mk true None.

(** CLOCK_OUT guard from WORKING: an unended break blocks the action. *)
Definition guardClockOut (ctx : ClockContext.t) : Verdict.t :=
  let unendedBreak :=
    match contextBreaks ctx with
    | Some bs => List.find isOpen bs
    | None => None
    end in
  match unendedBreak with
  | Some _ => Verdict.mk false (Some "請先結束休息再下班打卡")
  | None => Verdict.mk true None
  end.

(** CLOCK_OUT guard from CLOCKED_OUT (split entry) *)
Definition guardSplitEntry (ctx : ClockContext.t) : Verdict.t :=
  match contextShiftType ctx with
  | Some st =>
      if ShiftType.isSplit st then Verdict.mk true None
      else Verdict.mk false (Some "非分段班制")
  | None => Verdict.mk false (Some "非分段班制")
  end.

(** CLOCK_OUT_SEGMENT_2 guard *)
Definition guardClockOutSegment2 (ctx : ClockContext.t) : Verdict.t :=
  match ClockContext.attendance ctx with
  | Some att =>
      match Attendance.clockIn2 att with
      | Some _ => Verdict.mk true None
      | None => Verdict.mk false (Some "尚未開始第二段班")
      end
  | None => Verdict.mk false (Some "尚未開始第二段班")
  end.

Definition transitions : list StateTransition.t :=
  [ StateTransition.mk [ClockState.NOT_CLOCKED_IN] ClockState.WORKING
      ClockAction.CLOCK_IN None;
    StateTransition.mk [ClockState.WORKING] ClockState.ON_BREAK
      ClockAction.START_BREAK (Some guardStartBreak);
    StateTransition.mk [ClockState.ON_BREAK] ClockState.WORKING
      ClockAction.END_BREAK None;
    StateTransition.mk [ClockState.WORKING] ClockState.CLOCKED_OUT
      ClockAction.CLOCK_OUT (Some guardClockOut);
    StateTransition.mk [ClockState.CLOCKED_OUT] ClockState.SPLIT_BREAK
      ClockAction.CLOCK_OUT (Some guardSplitEntry);
    StateTransition.mk [ClockState.SPLIT_BREAK] ClockState.WORKING
      ClockAction.CLOCK_IN_SEGMENT_2 None;
    StateTransition.mk [ClockState.WORKING] ClockState.CLOCKED_OUT
      ClockAction.CLOCK_OUT_SEGMENT_2 (Some guardClockOutSegment2) ].

Module ClockStateMachine.

Record t : Type := mk {
  state : ClockState.t;
  context : ClockContext.t
}.

(** What [fromAttendance] receives besides the record: the caller's
    [{ userId, storeId, schedule }]. *)
Record Base : Type := mkBase {
  userId : string;
  storeId : string;
  schedule : option Schedule.t
}.

(** [ctx.schedule?.shiftType?.isSplit] as a condition *)
Definition scheduleIsSplit (sched : option Schedule.t) : bool :=
  match sched with
  | Some s => ShiftType.isSplit (Schedule.shiftType s)
  | None => false
  end.

Definition deriveState (attendance : option Attendance.t)
    (sched : option Schedule.t) : ClockState.t :=
  match attendance with
  | None => ClockState.NOT_CLOCKED_IN
  | Some att =>
      match Attendance.status att with
      | AttendanceStatus.ON_BREAK => ClockState.ON_BREAK
      | AttendanceStatus.CLOCKED_OUT =>
          if scheduleIsSplit sched &&
             (match Attendance.clockIn2 att with None => true | Some _ => false end)
          then ClockState.SPLIT_BREAK
          else ClockState.CLOCKED_OUT
      | AttendanceStatus.CLOCKED_IN => ClockState.WORKING
      | _ => ClockState.CLOCKED_OUT
      end
  end.

(** [static fromAttendance(attendance, ctx)]; [now] is the [new Date()]
    stored as the context's timestamp. *)
Definition fromAttendance (attendance : option Attendance.t) (ctx : Base)
    (now : Z) : t :=
  mk (deriveState attendance (schedule ctx))
     (ClockContext.mk (userId ctx) (storeId ctx)
        (option_map Attendance.id attendance)
        (match attendance with
         | Some att => option_map Break.id (List.find isOpen (Attendance.breaks att))
         | None => None
         end)
        (schedule ctx)
        attendance
        now).

(** [transitions.find((t) => t.action === action && t.from.includes(state))] *)
Definition findTransition (s : ClockState.t) (action : ClockAction.t)
  : option StateTransition.t :=
  List.find
    (fun tr => ClockAction.eqb (StateTransition.action tr) action
               && List.existsb (ClockState.eqb s) (StateTransition.from tr))
    transitions.

Definition canTransition (m : t) (action : ClockAction.t) : Verdict.t :=
  match findTransition (state m) action with
  | None =>
      Verdict.mk false
        (Some ("無法從 " ++ ClockState.toString (state m)
               ++ " 狀態執行 " ++ ClockAction.toString action))
  | Some tr =>
      match StateTransition.guard tr with
      | Some g => g (context m)
      | None => Verdict.mk true None
      end
  end.

Definition getNextState (m : t) (action : ClockAction.t) : option ClockState.t :=
  option_map StateTransition.to (findTransition (state m) action).

Module Available.
Record t : Type := mk {
  action : ClockAction.t;
  allowed : bool;
  reason : option string
}.
End Available.

Definition getAvailableActions (m : t) : list Available.t :=
  List.map
    (fun tr =>
       let result :=
         match StateTransition.guard tr with
         | Some g => g (context m)
         | None => Verdict.mk true None
         end in
       Available.mk (StateTransition.action tr)
         (Verdict.allowed result) (Verdict.reason result))
    (List.filter
       (fun tr => List.existsb (ClockState.eqb (state m)) (StateTransition.from tr))
       transitions).

End ClockStateMachine.

(* ================================================================== *)
(** * Work-hours calculator: its input and result *)

Module BreakInput.
Record t : Type := mk {
  startTime : Z;
  endTime : option Z;
  type : BreakType
}.
End BreakInput.

Module BreakDetail.
Record t : Type := mk {
  startTime : Z;
  endTime : option Z;
  durationMinutes : Z;
  type : BreakType
}.
End BreakDetail.

Module WorkHoursInput.
Record t : Type := mk {
  clockIn : Z;
  clockOut : Z;
  clockIn2 : option Z;
  clockOut2 : option Z;
  breaks : list BreakInput.t;
  shiftType : option ShiftType.t
}.
End WorkHoursInput.

Module WorkHoursResult.
Record t : Type := mk {
  totalMinutes : Z;
  breakMinutes : Z;
  netWorkMinutes : Z;
  regularMinutes : num;
  overtimeMinutes : num;
  segment1Minutes : Z;
  segment2Minutes : Z;
  splitBreakMinutes : Z;
  earlyClockIn : num;
  lateClockIn : num;
  earlyClockOut : num;
  lateClockOut : num;
  hasUnendedBreak : bool;
  exceedsMaxBreakTime : bool;
  requiresReview : bool;
  breakDetails : list BreakDetail.t
}.
End WorkHoursResult.

Module TimingAnomalies.
Record t : Type := mk {
  earlyClockIn : num;
  lateClockIn : num;
  earlyClockOut : num;
  lateClockOut : num
}.
End TimingAnomalies.

(* ================================================================== *)
(** * The world the service runs in: storage and the wall clock *)

Module EmploymentType.
Inductive t : Type := FULL_TIME | PART_TIME.
End EmploymentType.

Module User.
Record t : Type := mk {
  id : string;
  name : string;
  employeeId : string;
  employmentType : option EmploymentType.t;
  hourlyRate : option Q;       (* Decimal? *)
  monthlySalary : option Q     (* Decimal? *)
}.
End User.

Module AuditLog.
Record t : Type := mk {
  userId : string;
  action : string;
  entityType : string;
  entityId : string
}.
End AuditLog.

Module Db.
Record t : Type := mk {
  attendances : list Attendance.t;   (* unique on (userId, date) and on id *)
  schedules : list Schedule.t;       (* unique on (userId, date) and on id *)
  users : list User.t;               (* unique on id *)
  auditLogs : list AuditLog.t
}.
End Db.

(** [clock k] is what the [k]-th [new Date()] of a run reads and [reads]
    counts the readings made so far; [ids k] is the id the storage gives
    to the [k]-th row created and [made] counts the rows created so far. *)
Module World.
Record t : Type := mk {
  db : Db.t;
  clock : nat -> Z;
  reads : nat;
  ids : nat -> string;
  made : nat
}.

Definition atRead (w : t) (n : nat) : t := mk (db w) (clock w) n (ids w) (made w).
Definition withDb (w : t) (d : Db.t) : t := mk d (clock w) (reads w) (ids w) (made w).
Definition atMade (w : t) (n : nat) : t := mk (db w) (clock w) (reads w) (ids w) n.
End World.

(** A computation either returns a value and a new world, or throws. *)
Inductive Outcome (A : Type) : Type :=
| Returned (a : A) (w : World.t)
| Thrown (error : string) (w : World.t).
Arguments Returned {A} a w.
Arguments Thrown {A} error w.

Definition IO (A : Type) : Type := World.t -> Outcome A.

Definition ret {A : Type} (a : A) : IO A := fun w => Returned a w.

Definition bind {A B : Type} (c : IO A) (k : A -> IO B) : IO B :=
  fun w =>
    match c w with
    | Returned a w' => k a w'
    | Thrown e w' => Thrown e w'
    end.

Definition throw {A : Type} (e : string) : IO A := fun w => Thrown e w.

Notation "x <- c ;; k" := (bind c (fun x => k))
  (at level 61, c at next level, right associativity).
Notation "c ;;; k" := (bind c (fun _ => k))
  (at level 61, right associativity).

(** [new Date()] *)
Definition newDate : IO Z :=
  fun w =>
    Returned (World.clock w (World.reads w))
             (World.atRead w (S (World.reads w))).

(** The id of a row being created. *)
Definition newId : IO string :=
  fun w =>
    Returned (World.ids w (World.made w))
             (World.atMade w (S (World.made w))).

Definition getDb : IO Db.t := fun w => Returned (World.db w) w.

Definition putDb (d : Db.t) : IO unit :=
  fun w => Returned tt (World.withDb w d).

Module ClockResult.
Record t : Type := mk {
  success : bool;
  message : string;
  attendance : option Attendance.t;
  newState : option ClockState.t
}.
End ClockResult.

(* ================================================================== *)
(** * Payroll: the rows read and the line item computed *)

(** An attendance row as [findMany] returns it with
    [include: { user, schedule: { include: { shiftType } }, breaks }]. *)
Module PayrollRow.
Record t : Type := mk {
  attendance : Attendance.t;
  user : User.t;
  schedule : option Schedule.t
}.
End PayrollRow.

Module PayrollDetail.
Record t : Type := mk {
  date : Z;                    (* printed by the source as an ISO date *)
  regularMinutes : num;
  overtimeMinutes : num;
  isHoliday : bool;
  nightMinutes : F64.t
}.
End PayrollDetail.

Module PayrollCalculation.
Record t : Type := mk {
  userId : string;
  userName : string;
  employeeId : string;
  employmentType : EmploymentType.t;
  regularHours : F64.t;
  overtimeHours : F64.t;
  holidayHours : F64.t;
  nightShiftHours : F64.t;
  basePay : F64.t;
  overtimePay : F64.t;
  holidayPay : F64.t;
  nightShiftPay : F64.t;
  grossPay : F64.t;
  workDays : Z;
  hourlyRate : option F64.t;
  monthlySalary : option F64.t;
  details : list PayrollDetail.t
}.
End PayrollCalculation.

(** The running totals of the per-attendance loop.  Regular, overtime
    and holiday minutes are sums of integers; the night minutes can be
    fractions of a minute and are added up as the doubles they are. *)
Module Totals.
Record t : Type := mk {
  totalRegularMinutes : num;
  totalOvertimeMinutes : num;
  totalHolidayMinutes : num;
  totalNightMinutes : F64.t;
  details : list PayrollDetail.t
}.
End Totals.

(** The pay amounts before they are rounded into the line item. *)
Module Pay.
Record t : Type := mk {
  basePay : F64.t;
  overtimePay : F64.t;
  holidayPay : F64.t;
  nightShiftPay : F64.t
}.
End Pay.

(** [OVERTIME_RATES] and [NIGHT_SHIFT_ALLOWANCE] *)
Module OVERTIME_RATES.
Definition WEEKDAY_FIRST_2_HOURS : Q := 134 # 100.
Definition WEEKDAY_AFTER_2_HOURS : Q := 167 # 100.
Definition HOLIDAY : Q := 2.
Definition NATIONAL_HOLIDAY : Q := 2.
End OVERTIME_RATES.

Definition NIGHT_SHIFT_ALLOWANCE : Q := 50.

(** One operation run in the world the one before it left. *)
Definition andThen {A B : Type} (o : Outcome A) (next : IO B) : Outcome B :=
  match o with
  | Returned _ w => next w
  | Thrown e w => Thrown e w
  end.

(** [minutesToHoursMinutes(minutes)] of src/lib/utils.ts:
    [`${Math.floor(minutes / 60)}h ${minutes % 60}m`]; the remainder of
    JavaScript takes the sign of the dividend. *)
Definition minutesToHoursMinutes (minutes : Z) : string :=
  let hours := minutes / 60 in
  let mins := Z.rem minutes 60 in
  showZ hours ++ "h " ++ showZ mins ++ "m".

(** [formatWorkHours(minutes)] of work-hours-calculator.ts *)
Definition formatWorkHours (minutes : Z) : string :=
  let hours := Z.abs minutes / 60 in
  let mins := Z.rem (Z.abs minutes) 60 in
  let sign := if minutes <? 0 then "-" else EmptyString in
  if hours =? 0 then sign ++ showZ mins ++ "分鐘"
  else if mins =? 0 then sign ++ showZ hours ++ "小時"
  else sign ++ showZ hours ++ "小時" ++ showZ mins ++ "分鐘".

(** What [getCurrentState] of attendance-service.ts returns. *)
Module CurrentState.
Record t : Type := mk {
  state : ClockState.t;
  availableActions : list ClockStateMachine.Available.t;
  attendance : option Attendance.t;
  schedule : option Schedule.t
}.
End CurrentState.

(* ================================================================== *)
(** * Sample data: one store in Asia/Taipei, December 2024 *)

Module Sample.

(** UTC+8, no daylight saving. *)
Definition TZ : Z := 480.

(** Local wall-clock time on 2024-12-[day] as an epoch value; the 16th is
    a Monday, the 21st a Saturday. *)
Definition dec2024 (day hours minutes : Z) : Z :=
  1734278400000 + (day - 16) * 86400000 + hours * 3600000 + minutes * 60000.

(** 2024-04-[day] 00:00 local; April has 30 days. *)
Definition apr2024 (day : Z) : Z := 1711900800000 + (day - 1) * 86400000.

Definition dayShift : ShiftType.t :=
  ShiftType.mk "09:00" "18:00" 60 3 false None None.

Definition splitShift : ShiftType.t :=
  ShiftType.mk "10:00" "21:00" 30 3 true (Some "14:00") (Some "17:00").

(** [Number] on the digit strings of the shift times. *)
Definition Number : string -> num := Utils.NumberOfDigits.

(** A clock that reads the same instant at every [new Date()]. *)
Definition worldAt (d : Db.t) (now : Z) : World.t :=
  World.mk d (fun _ => now) 0 (fun k => "row-" ++ showZ (Z.of_nat k)) 0.

(** Monday the 16th of employee emp-1, scheduled on the day shift.  The
    clock reads 09:00 during the first operation of the day, 12:00 during
    the second, 18:00 during the third, 18:05 during the fourth and 18:10
    from then on. *)
Definition mondaySchedule : Schedule.t :=
  Schedule.mk "sch-1" "emp-1" (dec2024 16 0 0) dayShift.

Definition mondayClock (k : nat) : Z :=
  if (k <? 3)%nat then dec2024 16 9 0
  else if (k <? 6)%nat then dec2024 16 12 0
  else if (k <? 8)%nat then dec2024 16 18 0
  else if (k <? 11)%nat then dec2024 16 18 5
  else dec2024 16 18 10.

Definition newIds (k : nat) : string := "new-" ++ showZ (Z.of_nat k).

Definition mondayMorning : World.t :=
  World.mk (Db.mk [] [mondaySchedule] [] []) mondayClock 0 newIds 0.

(** The evening: clocked in at 09:00, on a MEAL break since 12:00 that
    has not been ended. *)
Definition mealBreak : Break.t :=
  Break.mk "new-1" (dec2024 16 12 0) None MEAL None.

Definition onMealBreak : Attendance.t :=
  Attendance.mk "new-0" "emp-1" "store-1" (dec2024 16 0 0)
    (Some (dec2024 16 9 0)) None None None
    AttendanceStatus.ON_BREAK None None None None (Some "sch-1")
    [mealBreak].

Definition onBreakContext : ClockContext.t :=
  ClockContext.mk "emp-1" "store-1" (Some "new-0") (Some "new-1")
    (Some mondaySchedule) (Some onMealBreak) (dec2024 16 18 0).

Definition mondayEvening : World.t :=
  World.mk
    (Db.mk [onMealBreak] [mondaySchedule] []
       [AuditLog.mk "emp-1" "CLOCK_IN" "Attendance" "new-0";
        AuditLog.mk "emp-1" "START_BREAK" "Attendance" "new-0"])
    mondayClock 6 newIds 2.

(** The same Monday with the break ended at 12:30 and the clock at 18:00
    from the fourth operation on. *)
Definition roundTripClock (k : nat) : Z :=
  if (k <? 3)%nat then dec2024 16 9 0
  else if (k <? 6)%nat then dec2024 16 12 0
  else if (k <? 9)%nat then dec2024 16 12 30
  else dec2024 16 18 0.

Definition roundTripMorning : World.t :=
  World.mk (Db.mk [] [mondaySchedule] [] []) roundTripClock 0 newIds 0.

(** A split-shift day whose row is CLOCKED_OUT after segment 2 has begun,
    with a break row still open. *)
Definition splitDay : Attendance.t :=
  Attendance.mk "att-2" "emp-2" "store-1" (dec2024 16 0 0)
    (Some (dec2024 16 10 0)) (Some (dec2024 16 14 0))
    (Some (dec2024 16 17 0)) None
    AttendanceStatus.CLOCKED_OUT (Some 240) (Some 0) (Some 240) (Some (Num.ofZ 0))
    (Some "sch-2")
    [Break.mk "brk-2" (dec2024 16 18 0) None REST None].

Definition splitSchedule : Schedule.t :=
  Schedule.mk "sch-2" "emp-2" (dec2024 16 0 0) splitShift.

Definition splitEvening : World.t :=
  worldAt (Db.mk [splitDay] [splitSchedule] [] []) (dec2024 16 21 0).

(** A split-shift day whose segment-1 clock-out went to review. *)
Definition splitInReview : Attendance.t :=
  Attendance.mk "att-3" "emp-3" "store-1" (dec2024 16 0 0)
    (Some (dec2024 16 10 30)) (Some (dec2024 16 14 0)) None None
    AttendanceStatus.PENDING_REVIEW (Some 210) (Some 0) (Some 210)
    (Some (Num.ofZ 0)) (Some "sch-3") [].

(** A day on a shift with a one-hour split break: at work since 10:00
    when segment 1 ends at 14:00, and the reviewed row that clock-out
    leaves, looked at again at 21:00, the end of the shift. *)
Definition shortSplitShift : ShiftType.t :=
  ShiftType.mk "10:00" "21:00" 30 3 true (Some "14:00") (Some "15:00").

Definition workingSplitDay : Attendance.t :=
  Attendance.mk "att-4" "emp-6" "store-1" (dec2024 16 0 0)
    (Some (dec2024 16 10 0)) None None None
    AttendanceStatus.CLOCKED_IN None None None None (Some "sch-4") [].

Definition reviewedSplitDay : Attendance.t :=
  Attendance.mk "att-4" "emp-6" "store-1" (dec2024 16 0 0)
    (Some (dec2024 16 10 0)) (Some (dec2024 16 14 0)) None None
    AttendanceStatus.PENDING_REVIEW (Some 240) (Some 0) (Some 240)
    (Some (Num.ofZ 0)) (Some "sch-4") [].

Definition shortSplitSchedule : Schedule.t :=
  Schedule.mk "sch-4" "emp-6" (dec2024 16 0 0) shortSplitShift.

Definition endOfSegment1 : World.t :=
  worldAt (Db.mk [workingSplitDay] [shortSplitSchedule] [] []) (dec2024 16 14 0).

Definition endOfSplitShift : World.t :=
  worldAt (Db.mk [reviewedSplitDay] [shortSplitSchedule] [] []) (dec2024 16 21 0).

(** The round trip of 09:00-18:00 with a MEAL break 12:00-12:30. *)
Definition roundTrip : WorkHoursInput.t :=
  WorkHoursInput.mk (dec2024 16 9 0) (dec2024 16 18 0) None None
    [BreakInput.mk (dec2024 16 12 0) (Some (dec2024 16 12 30)) MEAL]
    (Some dayShift).

(** Half an hour at work, of which a recorded break takes a full hour. *)
Definition breakOutlastsWork : WorkHoursInput.t :=
  WorkHoursInput.mk (dec2024 16 9 0) (dec2024 16 9 30) None None
    [BreakInput.mk (dec2024 16 9 0) (Some (dec2024 16 10 0)) REST]
    (Some dayShift).

Definition emptyWorld : World.t := worldAt (Db.mk [] [] [] []) (dec2024 16 18 0).

(** Employees. *)
Definition hourly200 : User.t :=
  User.mk "emp-1" "Lin" "E001" (Some EmploymentType.PART_TIME) (Some 200%Q) None.

Definition hourlyDefault : User.t :=
  User.mk "emp-4" "Chen" "E004" (Some EmploymentType.PART_TIME) None None.


(** A finalized day without a schedule: [net] minutes between the two
    clock times given. *)
Definition finalized (id userId : string) (day inH inM outDay outH outM net : Z)
  : Attendance.t :=
  Attendance.mk id userId "store-1" (dec2024 day 0 0)
    (Some (dec2024 day inH inM)) (Some (dec2024 outDay outH outM)) None None
    AttendanceStatus.CLOCKED_OUT (Some net) (Some 0) (Some net) None None [].

Definition row (user : User.t) (a : Attendance.t) : PayrollRow.t :=
  PayrollRow.mk a user None.

(** Monday 09:00-20:00, 11 hours net: 3 hours over the default 8. *)
Definition elevenHours : Attendance.t :=
  finalized "att-10" "emp-1" 16 9 0 16 20 0 660.

(** Monday and Tuesday, 10 hours net each: 2 hours over on each day. *)
Definition tenHoursMonday : Attendance.t :=
  finalized "att-11" "emp-1" 16 9 0 16 19 0 600.
Definition tenHoursTuesday : Attendance.t :=
  finalized "att-12" "emp-1" 17 9 0 17 19 0 600.

(** Monday 22:00 to Tuesday 02:00: four hours, all inside the window. *)
Definition nightShift : Attendance.t :=
  finalized "att-13" "emp-1" 16 22 0 17 2 0 240.

(** Saturday 22:00 to Sunday 02:00. *)
Definition saturdayNight : Attendance.t :=
  finalized "att-14" "emp-1" 21 22 0 22 2 0 240.

(** Monday 22:15-22:45. *)
Definition halfHourLate : Attendance.t :=
  finalized "att-15" "emp-4" 16 22 15 16 22 45 30.

(** Monday noon: at work since 09:00, no break yet. *)
Definition atWork : Attendance.t :=
  Attendance.mk "new-0" "emp-1" "store-1" (dec2024 16 0 0)
    (Some (dec2024 16 9 0)) None None None
    AttendanceStatus.CLOCKED_IN None None None None (Some "sch-1") [].

Definition mondayNoon : World.t :=
  World.mk
    (Db.mk [atWork] [mondaySchedule] []
       [AuditLog.mk "emp-1" "CLOCK_IN" "Attendance" "new-0"])
    mondayClock 3 newIds 1.

(** The state machine at work with the meal break still open. *)
Definition workingWithOpenBreak : ClockStateMachine.t :=
  ClockStateMachine.mk ClockState.WORKING onBreakContext.

(** A split-shift day clocked out at the end of segment 1, looked at
    during the split break. *)
Definition clockedOutSplitDay : Attendance.t :=
  Attendance.mk "att-4" "emp-6" "store-1" (dec2024 16 0 0)
    (Some (dec2024 16 10 0)) (Some (dec2024 16 14 0)) None None
    AttendanceStatus.CLOCKED_OUT (Some 240) (Some 0) (Some 240)
    (Some (Num.ofZ 0)) (Some "sch-4") [].

Definition duringSplitBreak : World.t :=
  worldAt (Db.mk [clockedOutSplitDay] [shortSplitSchedule] [] []) (dec2024 16 14 30).

(** 09:00-20:00 on the day shift without a break: 11 hours net. *)
Definition longDay : WorkHoursInput.t :=
  WorkHoursInput.mk (dec2024 16 9 0) (dec2024 16 20 0) None None [] (Some dayShift).

(** 09:00-18:00 with an hour's MEAL break and no shift definition. *)
Definition noShift : WorkHoursInput.t :=
  WorkHoursInput.mk (dec2024 16 9 0) (dec2024 16 18 0) None None
    [BreakInput.mk (dec2024 16 12 0) (Some (dec2024 16 13 0)) MEAL]
    None.

Definition fullTimeNoSalary : User.t :=
  User.mk "emp-7" "Hsu" "E007" (Some EmploymentType.FULL_TIME) None None.

(** 2023-02-[day] 00:00 local; February 2023 has 28 days. *)
Definition feb2023 (day : Z) : Z := 1675180800000 + (day - 1) * 86400000.

Definition hourly150 : User.t :=
  User.mk "emp-8" "Tsai" "E008" (Some EmploymentType.PART_TIME) (Some 150%Q) None.

Definition salaried20026 : User.t :=
  User.mk "emp-9" "Kuo" "E009" (Some EmploymentType.FULL_TIME) None (Some 20026%Q).

(** Tuesday 22:15-22:45. *)
Definition lateTuesday : Attendance.t :=
  finalized "att-16" "emp-1" 17 22 15 17 22 45 30.

(** Wednesday 09:00-17:00. *)
Definition wednesdayDay : Attendance.t :=
  finalized "att-17" "emp-1" 18 9 0 18 17 0 480.

(** Thursday 22:00-23:09. *)
Definition thursdayLate : Attendance.t :=
  finalized "att-18" "emp-1" 19 22 0 19 23 9 69.

(** Monday 08:00-20:20, 740 minutes net: 260 over the default 480. *)
Definition longMonday : Attendance.t :=
  finalized "att-19" "emp-8" 16 8 0 16 20 20 740.


(** Monday morning in a store that holds records of other employees and
    of other days. *)
Definition busyMorning : World.t :=
  World.mk (Db.mk [splitDay; tenHoursTuesday; halfHourLate] [mondaySchedule] [] [])
    mondayClock 0 newIds 0.

(** The store with two finalized days of emp-1 and one of emp-4. *)
Definition payrollWorld : World.t :=
  worldAt
    (Db.mk [tenHoursTuesday; halfHourLate; tenHoursMonday] []
       [hourly200; hourlyDefault] [])
    (dec2024 18 9 0).

End Sample.

(* ================================================================== *)
(** * The engine, for a given time zone and [Number] conversion *)

Section Engine.

Variable tz : Z.
Variable Number : string -> num.

(** A string used as a condition: present and not empty. *)
Definition truthyString (s : option string) : bool :=
  match s with
  | Some EmptyString => false
  | Some _ => true
  | None => false
  end.

(* ------------------------------------------------------------------ *)
(** ** Work-hours calculator (work-hours-calculator.ts) *)

Definition calculateScheduledMinutes (shiftType : ShiftType.t) : num :=
  let start := Utils.parseTimeString Number (ShiftType.startTime shiftType) in
  let end_ := Utils.parseTimeString Number (ShiftType.endTime shiftType) in
  let totalMinutes := (Utils.minutesOfDay end_ - Utils.minutesOfDay start)%num in
  (* Handle overnight shifts *)
  let totalMinutes :=
    if Num.ltb totalMinutes (Num.ofZ 0)
    then (totalMinutes + Num.ofZ (24 * 60))%num
    else totalMinutes in
  (* Subtract split break for split shifts *)
  let totalMinutes :=
    if ShiftType.isSplit shiftType
       && truthyString (ShiftType.splitBreakStart shiftType)
       && truthyString (ShiftType.splitBreakEnd shiftType)
    then
      match ShiftType.splitBreakStart shiftType, ShiftType.splitBreakEnd shiftType with
      | Some sbs, Some sbe =>
          let splitStart := Utils.parseTimeString Number sbs in
          let splitEnd := Utils.parseTimeString Number sbe in
          let splitMinutes :=
            (Utils.minutesOfDay splitEnd - Utils.minutesOfDay splitStart)%num in
          (totalMinutes - splitMinutes)%num
      | _, _ => totalMinutes
      end
    else totalMinutes in
  (* Subtract expected break time *)
  (totalMinutes - Num.ofZ (ShiftType.breakDuration shiftType))%num.

Definition calculateTimingAnomalies (clockIn clockOut : Z)
    (shiftType : option ShiftType.t) : TimingAnomalies.t :=
  match shiftType with
  | None => TimingAnomalies.mk (Num.ofZ 0) (Num.ofZ 0) (Num.ofZ 0) (Num.ofZ 0)
  | Some st =>
      let scheduledStart := Utils.parseTimeString Number (ShiftType.startTime st) in
      let scheduledEnd := Utils.parseTimeString Number (ShiftType.endTime st) in
      let clockInMinutes :=
        Num.ofZ (Utils.getHours tz clockIn * 60 + Utils.getMinutes tz clockIn) in
      let clockOutMinutes :=
        Num.ofZ (Utils.getHours tz clockOut * 60 + Utils.getMinutes tz clockOut) in
      let schedStartMinutes := Utils.minutesOfDay scheduledStart in
      let schedEndMinutes := Utils.minutesOfDay scheduledEnd in
      TimingAnomalies.mk
        (Num.max (Num.ofZ 0) (schedStartMinutes - clockInMinutes)%num)
        (Num.max (Num.ofZ 0) (clockInMinutes - schedStartMinutes)%num)
        (Num.max (Num.ofZ 0) (schedEndMinutes - clockOutMinutes)%num)
        (Num.max (Num.ofZ 0) (clockOutMinutes - schedEndMinutes)%num)
  end.

(** The variables the loop over the breaks updates. *)
Record BreakTotals : Type := mkBreakTotals {
  sumBreakMinutes : Z;
  sawUnendedBreak : bool;
  detailsSoFar : list BreakDetail.t
}.

(** One iteration of [for (const brk of breaks)]. *)
Definition breakStep (acc : BreakTotals) (brk : BreakInput.t) : IO BreakTotals :=
  match BreakInput.endTime brk with
  | Some endTime =>
      let durationMinutes :=
        Utils.differenceInMinutes endTime (BreakInput.startTime brk) in
      ret (mkBreakTotals
             (sumBreakMinutes acc + durationMinutes)
             (sawUnendedBreak acc)
             (detailsSoFar acc ++
                [BreakDetail.mk (BreakInput.startTime brk) (BreakInput.endTime brk)
                   durationMinutes (BreakInput.type brk)]))
  | None =>
      now <- newDate ;;
      let durationMinutes :=
        Utils.differenceInMinutes now (BreakInput.startTime brk) in
      ret (mkBreakTotals
             (sumBreakMinutes acc + durationMinutes)
             true
             (detailsSoFar acc ++
                [BreakDetail.mk (BreakInput.startTime brk) (BreakInput.endTime brk)
                   durationMinutes (BreakInput.type brk)]))
  end.

Fixpoint breakLoop (breaks : list BreakInput.t) (acc : BreakTotals)
  : IO BreakTotals :=
  match breaks with
  | [] => ret acc
  | brk :: rest => acc' <- breakStep acc brk ;; breakLoop rest acc'
  end.

Definition calculateWorkHours (input : WorkHoursInput.t) : IO WorkHoursResult.t :=
  let clockIn := WorkHoursInput.clockIn input in
  let clockOut := WorkHoursInput.clockOut input in
  let clockIn2 := WorkHoursInput.clockIn2 input in
  let clockOut2 := WorkHoursInput.clockOut2 input in
  let shiftType := WorkHoursInput.shiftType input in
  (* 1. Calculate raw segment times *)
  let segment1Minutes := Utils.differenceInMinutes clockOut clockIn in
  let segment2Minutes :=
    match clockIn2, clockOut2 with
    | Some in2, Some out2 => Utils.differenceInMinutes out2 in2
    | _, _ => 0
    end in
  (* 2. Calculate total break time *)
  acc <- breakLoop (WorkHoursInput.breaks input) (mkBreakTotals 0 false []) ;;
  let breakMinutes := sumBreakMinutes acc in
  let hasUnendedBreak := sawUnendedBreak acc in
  (* 3. Calculate split break time *)
  let splitBreakMinutes :=
    match shiftType, clockIn2 with
    | Some st, Some in2 =>
        if ShiftType.isSplit st then Utils.differenceInMinutes in2 clockOut else 0
    | _, _ => 0
    end in
  (* 4. Calculate totals *)
  let totalMinutes := segment1Minutes + segment2Minutes in
  let netWorkMinutes := totalMinutes - breakMinutes in
  (* 5. Calculate overtime (if shiftType exists) *)
  let '(regularMinutes, overtimeMinutes) :=
    match shiftType with
    | Some st =>
        let scheduledMinutes := calculateScheduledMinutes st in
        if Num.gtb (Num.ofZ netWorkMinutes) scheduledMinutes
        then (scheduledMinutes, (Num.ofZ netWorkMinutes - scheduledMinutes)%num)
        else (Num.ofZ netWorkMinutes, Num.ofZ 0)
    | None => (Num.ofZ netWorkMinutes, Num.ofZ 0)
    end in
  (* 6. Calculate timing anomalies *)
  let anomalies := calculateTimingAnomalies clockIn clockOut shiftType in
  let lateClockIn := TimingAnomalies.lateClockIn anomalies in
  let earlyClockOut := TimingAnomalies.earlyClockOut anomalies in
  (* 7. Check for issues requiring review *)
  let maxBreakMinutes :=
    match shiftType with
    | Some st => ShiftType.breakDuration st
    | None => 30
    end in
  let exceedsMaxBreakTime :=
    Num.gtb (Num.ofZ breakMinutes) (Num.ofZ maxBreakMinutes * Fin (3 # 2))%num in
  let requiresReview :=
    hasUnendedBreak
    || exceedsMaxBreakTime
    || Num.gtb lateClockIn (Num.ofZ 15)
    || Num.gtb earlyClockOut (Num.ofZ 0)
    || Num.gtb overtimeMinutes (Num.ofZ 120) in
  ret (WorkHoursResult.mk
         totalMinutes breakMinutes netWorkMinutes
         regularMinutes overtimeMinutes
         segment1Minutes segment2Minutes splitBreakMinutes
         (TimingAnomalies.earlyClockIn anomalies) lateClockIn
         earlyClockOut (TimingAnomalies.lateClockOut anomalies)
         hasUnendedBreak exceedsMaxBreakTime requiresReview
         (detailsSoFar acc)).

(* ------------------------------------------------------------------ *)
(** ** Attendance service (attendance-service.ts) *)

(** [orderBy: { startTime: "desc" }] on the included breaks *)
Fixpoint insertBreakDesc (b : Break.t) (sorted : list Break.t) : list Break.t :=
  match sorted with
  | [] => [b]
  | x :: rest =>
      if Break.startTime x <=? Break.startTime b
      then b :: x :: rest
      else x :: insertBreakDesc b rest
  end.

Definition breaksByStartDesc (bs : list Break.t) : list Break.t :=
  List.fold_right insertBreakDesc [] bs.

Definition withBreaks (a : Attendance.t) (bs : list Break.t) : Attendance.t :=
  Attendance.mk (Attendance.id a) (Attendance.userId a) (Attendance.storeId a)
    (Attendance.date a) (Attendance.clockIn a) (Attendance.clockOut a)
    (Attendance.clockIn2 a) (Attendance.clockOut2 a) (Attendance.status a)
    (Attendance.totalMinutes a) (Attendance.breakMinutes a)
    (Attendance.netWorkMinutes a) (Attendance.overtimeMinutes a)
    (Attendance.scheduleId a) bs.

(** [prisma.attendance.findUnique({ where: { userId_date }, include })] *)
Definition findAttendanceForDay (d : Db.t) (userId : string) (day : Z)
  : option Attendance.t :=
  option_map (fun a => withBreaks a (breaksByStartDesc (Attendance.breaks a)))
    (List.find
       (fun a => String.eqb (Attendance.userId a) userId
                 && (Attendance.date a =? day))
       (Db.attendances d)).

(** [prisma.schedule.findUnique({ where: { userId_date }, include })] *)
Definition findScheduleForDay (d : Db.t) (userId : string) (day : Z)
  : option Schedule.t :=
  List.find
    (fun s => String.eqb (Schedule.userId s) userId && (Schedule.date s =? day))
    (Db.schedules d).

Definition getTodayAttendance (userId storeId : string)
  : IO (option Attendance.t * option Schedule.t) :=
  today <- newDate ;;
  d <- getDb ;;
  let attendance := findAttendanceForDay d userId (Utils.startOfDay tz today) in
  (* Get today's schedule if no attendance yet *)
  let schedule := findScheduleForDay d userId (Utils.startOfDay tz today) in
  ret (attendance, schedule).

(** The [data] of the clock-out update. *)
Definition clockedOut (a : Attendance.t) (now : Z) (status : AttendanceStatus.t)
    (workHours : WorkHoursResult.t) : Attendance.t :=
  Attendance.mk (Attendance.id a) (Attendance.userId a) (Attendance.storeId a)
    (Attendance.date a) (Attendance.clockIn a)
    (Some now)
    (Attendance.clockIn2 a) (Attendance.clockOut2 a)
    status
    (Some (WorkHoursResult.totalMinutes workHours))
    (Some (WorkHoursResult.breakMinutes workHours))
    (Some (WorkHoursResult.netWorkMinutes workHours))
    (Some (WorkHoursResult.overtimeMinutes workHours))
    (Attendance.scheduleId a) (Attendance.breaks a).

Definition hasId (id : string) (a : Attendance.t) : bool :=
  String.eqb (Attendance.id a) id.

(** [prisma.attendance.update({ where: { id }, data, include })]: writes the
    row and returns it; rejects when no row has the id. *)
Definition updateAttendance (id : string) (data : Attendance.t -> Attendance.t)
  : IO Attendance.t :=
  d <- getDb ;;
  match List.find (hasId id) (Db.attendances d) with
  | None => throw "PrismaClientKnownRequestError: record to update not found"
  | Some row =>
      putDb (Db.mk
               (List.map (fun a => if hasId id a then data a else a)
                         (Db.attendances d))
               (Db.schedules d) (Db.users d) (Db.auditLogs d)) ;;;
      ret (data row)
  end.

Definition createAuditLog (userId action entityType entityId : string) : IO unit :=
  d <- getDb ;;
  putDb (Db.mk (Db.attendances d) (Db.schedules d) (Db.users d)
           (Db.auditLogs d ++ [AuditLog.mk userId action entityType entityId])).

(** [reason || fallback] *)
Definition reasonOr (reason : option string) (fallback : string) : string :=
  match reason with
  | Some EmptyString => fallback
  | Some r => r
  | None => fallback
  end.

Definition breakInput (b : Break.t) : BreakInput.t :=
  BreakInput.mk (Break.startTime b) (Break.endTime b) (Break.type b).

Definition clockOut (userId storeId : string) : IO ClockResult.t :=
  found <- getTodayAttendance userId storeId ;;
  let '(attendance, schedule) := found in
  match attendance with
  | None => ret (ClockResult.mk false "尚未打卡上班" None None)
  | Some att =>
      timestamp <- newDate ;;
      let stateMachine :=
        ClockStateMachine.fromAttendance (Some att)
          (ClockStateMachine.mkBase userId storeId schedule) timestamp in
      let canTransition :=
        ClockStateMachine.canTransition stateMachine ClockAction.CLOCK_OUT in
      if negb (Verdict.allowed canTransition)
      then ret (ClockResult.mk false
                  (reasonOr (Verdict.reason canTransition) "無法下班打卡")
                  None None)
      else
        now <- newDate ;;
        match Attendance.clockIn att with
        | None => throw "TypeError: Cannot read properties of null (reading 'getTime')"
        | Some clockIn =>
            (* Calculate work hours *)
            workHours <- calculateWorkHours
              (WorkHoursInput.mk clockIn now
                 (Attendance.clockIn2 att) (Attendance.clockOut2 att)
                 (List.map breakInput (Attendance.breaks att))
                 (option_map Schedule.shiftType schedule)) ;;
            (* Determine if review is needed *)
            let status :=
              if WorkHoursResult.requiresReview workHours
              then AttendanceStatus.PENDING_REVIEW
              else AttendanceStatus.CLOCKED_OUT in
            updatedAttendance <- updateAttendance (Attendance.id att)
              (fun a => clockedOut a now status workHours) ;;
            createAuditLog userId "CLOCK_OUT" "Attendance" (Attendance.id att) ;;;
            ret (ClockResult.mk true
                   (match status with
                    | AttendanceStatus.PENDING_REVIEW => "下班打卡成功，需主管審核"
                    | _ => "下班打卡成功"
                    end)
                   (Some updatedAttendance)
                   (Some ClockState.CLOCKED_OUT))
        end
  end.

Definition withStatus (a : Attendance.t) (status : AttendanceStatus.t)
  : Attendance.t :=
  Attendance.mk (Attendance.id a) (Attendance.userId a) (Attendance.storeId a)
    (Attendance.date a) (Attendance.clockIn a) (Attendance.clockOut a)
    (Attendance.clockIn2 a) (Attendance.clockOut2 a) status
    (Attendance.totalMinutes a) (Attendance.breakMinutes a)
    (Attendance.netWorkMinutes a) (Attendance.overtimeMinutes a)
    (Attendance.scheduleId a) (Attendance.breaks a).

(** [prisma.attendance.create({ data, include })]: the storage assigns the
    id and rejects a second row for the same user and day. *)
Definition createAttendance (userId storeId : string) (date clockIn : Z)
    (scheduleId : option string) : IO Attendance.t :=
  d <- getDb ;;
  match findAttendanceForDay d userId date with
  | Some _ =>
      throw "PrismaClientKnownRequestError: unique constraint failed on (userId, date)"
  | None =>
      id <- newId ;;
      let created :=
        Attendance.mk id userId storeId date (Some clockIn) None None None
          AttendanceStatus.CLOCKED_IN None None None None scheduleId [] in
      putDb (Db.mk (Db.attendances d ++ [created])
               (Db.schedules d) (Db.users d) (Db.auditLogs d)) ;;;
      ret created
  end.

(** [prisma.attendance.findUnique({ where: { id }, include })] *)
Definition findAttendanceById (id : string) : IO (option Attendance.t) :=
  d <- getDb ;;
  ret (List.find (hasId id) (Db.attendances d)).

Definition clockIn (userId storeId : string) : IO ClockResult.t :=
  found <- getTodayAttendance userId storeId ;;
  let '(attendance, schedule) := found in
  timestamp <- newDate ;;
  let stateMachine :=
    ClockStateMachine.fromAttendance attendance
      (ClockStateMachine.mkBase userId storeId schedule) timestamp in
  let canTransition :=
    ClockStateMachine.canTransition stateMachine ClockAction.CLOCK_IN in
  if negb (Verdict.allowed canTransition)
  then ret (ClockResult.mk false
              (reasonOr (Verdict.reason canTransition) "無法上班打卡")
              None None)
  else
    now <- newDate ;;
    newAttendance <- createAttendance userId storeId (Utils.startOfDay tz now) now
                       (option_map Schedule.id schedule) ;;
    createAuditLog userId "CLOCK_IN" "Attendance" (Attendance.id newAttendance) ;;;
    ret (ClockResult.mk true "上班打卡成功" (Some newAttendance)
           (Some ClockState.WORKING)).

(** The transaction of [startBreak]: create the break row and set the
    status, both or neither. *)
Definition startBreakTransaction (attendanceId : string) (now : Z)
    (breakType : BreakType) : IO unit :=
  d <- getDb ;;
  match List.find (hasId attendanceId) (Db.attendances d) with
  | None => throw "PrismaClientKnownRequestError: record to update not found"
  | Some _ =>
      id <- newId ;;
      putDb (Db.mk
               (List.map
                  (fun a =>
                     if hasId attendanceId a
                     then withStatus
                            (withBreaks a
                               (Attendance.breaks a
                                ++ [Break.mk id now None breakType None]))
                            AttendanceStatus.ON_BREAK
                     else a)
                  (Db.attendances d))
               (Db.schedules d) (Db.users d) (Db.auditLogs d))
  end.

(** [breakType] defaults to REST at the call. *)
Definition startBreak (userId storeId : string) (breakType : BreakType)
  : IO ClockResult.t :=
  found <- getTodayAttendance userId storeId ;;
  let '(attendance, schedule) := found in
  match attendance with
  | None => ret (ClockResult.mk false "尚未打卡上班" None None)
  | Some att =>
      timestamp <- newDate ;;
      let stateMachine :=
        ClockStateMachine.fromAttendance (Some att)
          (ClockStateMachine.mkBase userId storeId schedule) timestamp in
      let canTransition :=
        ClockStateMachine.canTransition stateMachine ClockAction.START_BREAK in
      if negb (Verdict.allowed canTransition)
      then ret (ClockResult.mk false
                  (reasonOr (Verdict.reason canTransition) "無法開始休息")
                  None None)
      else
        now <- newDate ;;
        (* Create break record and update attendance status *)
        startBreakTransaction (Attendance.id att) now breakType ;;;
        updatedAttendance <- findAttendanceById (Attendance.id att) ;;
        createAuditLog userId "START_BREAK" "Attendance" (Attendance.id att) ;;;
        ret (ClockResult.mk true "開始休息" updatedAttendance
               (Some ClockState.ON_BREAK))
  end.

(** The transaction of [endBreak]: close the break row and set the
    status, both or neither. *)
Definition endBreakTransaction (attendanceId breakId : string)
    (now durationMinutes : Z) : IO unit :=
  d <- getDb ;;
  match List.find (hasId attendanceId) (Db.attendances d) with
  | None => throw "PrismaClientKnownRequestError: record to update not found"
  | Some _ =>
      let closeBreak (b : Break.t) :=
        if String.eqb (Break.id b) breakId
        then Break.mk (Break.id b) (Break.startTime b) (Some now) (Break.type b)
               (Some durationMinutes)
        else b in
      putDb (Db.mk
               (List.map
                  (fun a =>
                     let a' := withBreaks a (List.map closeBreak (Attendance.breaks a)) in
                     if hasId attendanceId a
                     then withStatus a' AttendanceStatus.CLOCKED_IN
                     else a')
                  (Db.attendances d))
               (Db.schedules d) (Db.users d) (Db.auditLogs d))
  end.

Definition endBreak (userId storeId : string) : IO ClockResult.t :=
  found <- getTodayAttendance userId storeId ;;
  let '(attendance, schedule) := found in
  match attendance with
  | None => ret (ClockResult.mk false "尚未打卡上班" None None)
  | Some att =>
      timestamp <- newDate ;;
      let stateMachine :=
        ClockStateMachine.fromAttendance (Some att)
          (ClockStateMachine.mkBase userId storeId schedule) timestamp in
      let canTransition :=
        ClockStateMachine.canTransition stateMachine ClockAction.END_BREAK in
      if negb (Verdict.allowed canTransition)
      then ret (ClockResult.mk false
                  (reasonOr (Verdict.reason canTransition) "無法結束休息")
                  None None)
      else
        (* Find the unended break *)
        match List.find isOpen (Attendance.breaks att) with
        | None => ret (ClockResult.mk false "找不到進行中的休息記錄" None None)
        | Some currentBreak =>
            now <- newDate ;;
            let durationMinutes :=
              (now - Break.startTime currentBreak) / (1000 * 60) in
            (* Update break and attendance status *)
            endBreakTransaction (Attendance.id att) (Break.id currentBreak)
              now durationMinutes ;;;
            updatedAttendance <- findAttendanceById (Attendance.id att) ;;
            createAuditLog userId "END_BREAK" "Attendance" (Attendance.id att) ;;;
            ret (ClockResult.mk true
                   ("結束休息 (" ++ showZ durationMinutes ++ " 分鐘)")
                   updatedAttendance
                   (Some ClockState.WORKING))
        end
  end.

(* ------------------------------------------------------------------ *)
(** ** Payroll service (payroll-service.ts) *)

Definition calculateOvertimePay {T : Type} {A : Arith.t T} (hours hourlyRate : T)
  : T :=
  if Arith.leb hours (Arith.ofZ 0) then Arith.ofZ 0
  else
    let first2Hours := Arith.min hours (Arith.ofZ 2) in
    let afterHours := Arith.max (Arith.ofZ 0) (Arith.sub hours (Arith.ofZ 2)) in
    Arith.add
      (Arith.mul (Arith.mul first2Hours hourlyRate)
         (Arith.lit OVERTIME_RATES.WEEKDAY_FIRST_2_HOURS))
      (Arith.mul (Arith.mul afterHours hourlyRate)
         (Arith.lit OVERTIME_RATES.WEEKDAY_AFTER_2_HOURS)).

(** Night hours 22:00 - 06:00, by the source's simplified calculation: it
    looks at the hour of the clock-in and at the hour of the clock-out
    only. *)
Definition calculateNightMinutes (clockIn : Z) (clockOut : option Z) : F64.t :=
  match clockOut with
  | None => F64.ofZ 0
  | Some end_ =>
      let start := clockIn in
      let startHour := Utils.getHours tz start in
      let endHour := Utils.getHours tz end_ in
      let nightMinutes := F64.ofZ 0 in
      let nightMinutes :=
        if (startHour >=? 22) || (startHour <? 6)
        then F64.add nightMinutes
               (F64.min (F64.ofZ (60 - Utils.getMinutes tz start))
                        (F64.div (F64.ofZ (end_ - start)) (F64.ofZ 60000)))
        else nightMinutes in
      let nightMinutes :=
        if (endHour >=? 22) || (endHour <? 6)
        then F64.add nightMinutes (F64.ofZ (Utils.getMinutes tz end_))
        else nightMinutes in
      F64.max (F64.ofZ 0) nightMinutes
  end.

Definition getScheduledMinutes (shiftType : ShiftType.t) : num :=
  let '(startHour, startMin) :=
    Utils.parseTimeString Number (ShiftType.startTime shiftType) in
  let '(endHour, endMin) :=
    Utils.parseTimeString Number (ShiftType.endTime shiftType) in
  let minutes :=
    ((endHour * Num.ofZ 60 + endMin) - (startHour * Num.ofZ 60 + startMin))%num in
  if Num.ltb minutes (Num.ofZ 0) then (minutes + Num.ofZ (24 * 60))%num (* Overnight shift *)
  else minutes.

(** One iteration of [for (const att of userAtts)]. *)
Definition payrollStep (acc : Totals.t) (row : PayrollRow.t) : Totals.t :=
  let att := PayrollRow.attendance row in
  match Attendance.clockIn att, Attendance.netWorkMinutes att with
  | Some clockIn, Some netWorkMinutes =>
      if netWorkMinutes =? 0 then acc
      else
        let dayOfWeek := Utils.getDay tz (Attendance.date att) in
        let isWeekend := (dayOfWeek =? 0) || (dayOfWeek =? 6) in
        (* Calculate night shift minutes (22:00-06:00) *)
        let nightMinutes := calculateNightMinutes clockIn (Attendance.clockOut att) in
        if isWeekend then
          (* Weekend work is all holiday pay *)
          Totals.mk
            (Totals.totalRegularMinutes acc)
            (Totals.totalOvertimeMinutes acc)
            (Totals.totalHolidayMinutes acc + Num.ofZ netWorkMinutes)%num
            (Totals.totalNightMinutes acc)
            (Totals.details acc ++
               [PayrollDetail.mk (Attendance.date att) (Num.ofZ 0) (Num.ofZ 0)
                  true nightMinutes])
        else
          (* Weekday: split into regular and overtime *)
          let scheduledMinutes :=
            match PayrollRow.schedule row with
            | Some s => getScheduledMinutes (Schedule.shiftType s)
            | None => Num.ofZ 480 (* Default 8 hours *)
            end in
          let regularMinutes := Num.min (Num.ofZ netWorkMinutes) scheduledMinutes in
          let overtimeMinutes :=
            Num.max (Num.ofZ 0) (Num.ofZ netWorkMinutes - scheduledMinutes)%num in
          Totals.mk
            (Totals.totalRegularMinutes acc + regularMinutes)%num
            (Totals.totalOvertimeMinutes acc + overtimeMinutes)%num
            (Totals.totalHolidayMinutes acc)
            (F64.add (Totals.totalNightMinutes acc) nightMinutes)
            (Totals.details acc ++
               [PayrollDetail.mk (Attendance.date att) regularMinutes overtimeMinutes
                  false nightMinutes])
  | _, _ => acc
  end.

Definition payrollTotals (userAtts : list PayrollRow.t) : Totals.t :=
  List.fold_left payrollStep userAtts
    (Totals.mk (Num.ofZ 0) (Num.ofZ 0) (Num.ofZ 0) (F64.ofZ 0) []).

Definition employmentTypeOf (user : User.t) : EmploymentType.t :=
  match User.employmentType user with
  | Some e => e
  | None => EmploymentType.PART_TIME
  end.

Definition isFullTime (user : User.t) : bool :=
  match employmentTypeOf user with
  | EmploymentType.FULL_TIME => true
  | EmploymentType.PART_TIME => false
  end.

(** [user.hourlyRate ? Number(user.hourlyRate) : 183] *)
Definition hourlyRateOf (user : User.t) : F64.t :=
  match User.hourlyRate user with
  | Some r => F64.ofQ r
  | None => F64.ofZ 183
  end.

(** [user.monthlySalary ? Number(user.monthlySalary) : null] *)
Definition monthlySalaryOf (user : User.t) : option F64.t :=
  option_map F64.ofQ (User.monthlySalary user).

(** [isFullTime && monthlySalary] as a condition: the salary when it is
    set and not zero. *)
Definition salaried (user : User.t) : option F64.t :=
  match monthlySalaryOf user with
  | Some s => if isFullTime user && F64.truthy s then Some s else None
  | None => None
  end.

Definition effectiveHourlyRate (user : User.t) : F64.t :=
  match salaried user with
  | Some monthlySalary => F64.div (F64.div monthlySalary (F64.ofZ 30)) (F64.ofZ 8)
  | None => hourlyRateOf user
  end.

(** [Math.ceil((periodEnd - periodStart) / (1000 * 60 * 60 * 24)) + 1] *)
Definition periodDays (periodStart periodEnd : Z) : Z :=
  - ((- (periodEnd - periodStart)) / (1000 * 60 * 60 * 24)) + 1.

(** [new Date(periodStart.getFullYear(), periodStart.getMonth() + 1, 0).getDate()] *)
Definition monthDays (periodStart : Z) : Z :=
  Utils.daysInMonth (Utils.getFullYear tz periodStart) (Utils.getMonth tz periodStart).

(** The four amounts as the source holds them before rounding. *)
Definition payOf (periodStart periodEnd : Z) (user : User.t) (totals : Totals.t)
  : Pay.t :=
  let regularHours :=
    F64.div (F64.ofNum (Totals.totalRegularMinutes totals)) (F64.ofZ 60) in
  let overtimeHours :=
    F64.div (F64.ofNum (Totals.totalOvertimeMinutes totals)) (F64.ofZ 60) in
  let holidayHours :=
    F64.div (F64.ofNum (Totals.totalHolidayMinutes totals)) (F64.ofZ 60) in
  let nightShiftHours := F64.div (Totals.totalNightMinutes totals) (F64.ofZ 60) in
  let basePay :=
    match salaried user with
    | Some monthlySalary =>
        F64.mul (F64.div monthlySalary (F64.ofZ (monthDays periodStart)))
          (F64.min (F64.ofZ (periodDays periodStart periodEnd))
                   (F64.ofZ (monthDays periodStart)))
    | None => F64.mul regularHours (hourlyRateOf user)
    end in
  let overtimePay := calculateOvertimePay overtimeHours (effectiveHourlyRate user) in
  let holidayPay :=
    F64.mul (F64.mul holidayHours (effectiveHourlyRate user))
      (F64.ofQ OVERTIME_RATES.HOLIDAY) in
  let nightShiftPay := F64.mul nightShiftHours (F64.ofQ NIGHT_SHIFT_ALLOWANCE) in
  Pay.mk basePay overtimePay holidayPay nightShiftPay.

(** [Math.round(x * 100) / 100] *)
Definition round2 (x : F64.t) : F64.t :=
  F64.div (F64.round (F64.mul x (F64.ofZ 100))) (F64.ofZ 100).

(** The body of [for (const [userId, userAtts] of userAttendances)];
    [user] is [userAtts[0].user]. *)
Definition payrollOfUser (periodStart periodEnd : Z) (userId : string)
    (user : User.t) (userAtts : list PayrollRow.t) : PayrollCalculation.t :=
  let totals := payrollTotals userAtts in
  let pay := payOf periodStart periodEnd user totals in
  PayrollCalculation.mk
    userId (User.name user) (User.employeeId user) (employmentTypeOf user)
    (round2 (F64.div (F64.ofNum (Totals.totalRegularMinutes totals)) (F64.ofZ 60)))
    (round2 (F64.div (F64.ofNum (Totals.totalOvertimeMinutes totals)) (F64.ofZ 60)))
    (round2 (F64.div (F64.ofNum (Totals.totalHolidayMinutes totals)) (F64.ofZ 60)))
    (round2 (F64.div (Totals.totalNightMinutes totals) (F64.ofZ 60)))
    (F64.round (Pay.basePay pay))
    (F64.round (Pay.overtimePay pay))
    (F64.round (Pay.holidayPay pay))
    (F64.round (Pay.nightShiftPay pay))
    (F64.round (F64.add (F64.add (F64.add (Pay.basePay pay) (Pay.overtimePay pay))
                           (Pay.holidayPay pay))
                  (Pay.nightShiftPay pay)))
    (Z.of_nat (List.length userAtts))
    (if isFullTime user then None else Some (hourlyRateOf user))
    (if isFullTime user then monthlySalaryOf user else None)
    (Totals.details totals).

(** [where]: store, period, finalized status and, when given and not
    empty, the user ids. *)
Definition payrollWhere (storeId : string) (periodStart periodEnd : Z)
    (userIds : option (list string)) (a : Attendance.t) : bool :=
  String.eqb (Attendance.storeId a) storeId
  && (Utils.startOfDay tz periodStart <=? Attendance.date a)
  && (Attendance.date a <=? Utils.endOfDay tz periodEnd)
  && (match Attendance.status a with
      | AttendanceStatus.CLOCKED_OUT | AttendanceStatus.APPROVED => true
      | _ => false
      end)
  && (match userIds with
      | Some (u :: us) => List.existsb (String.eqb (Attendance.userId a)) (u :: us)
      | _ => true
      end).

(** [include]: the user and the schedule of a row.  The foreign key makes
    the user exist. *)
Definition payrollInclude (d : Db.t) (a : Attendance.t) : option PayrollRow.t :=
  match List.find (fun u => String.eqb (User.id u) (Attendance.userId a)) (Db.users d) with
  | Some user =>
      Some (PayrollRow.mk a user
              (match Attendance.scheduleId a with
               | Some sid =>
                   List.find (fun s => String.eqb (Schedule.id s) sid) (Db.schedules d)
               | None => None
               end))
  | None => None
  end.

(** [orderBy: [{ userId: "asc" }, { date: "asc" }]] *)
Definition rowLeb (r1 r2 : PayrollRow.t) : bool :=
  match String.compare (Attendance.userId (PayrollRow.attendance r1))
                       (Attendance.userId (PayrollRow.attendance r2)) with
  | Lt => true
  | Gt => false
  | Eq => Attendance.date (PayrollRow.attendance r1)
          <=? Attendance.date (PayrollRow.attendance r2)
  end.

Fixpoint insertRow (r : PayrollRow.t) (sorted : list PayrollRow.t)
  : list PayrollRow.t :=
  match sorted with
  | [] => [r]
  | x :: rest => if rowLeb r x then r :: x :: rest else x :: insertRow r rest
  end.

Fixpoint filterMap {A B : Type} (f : A -> option B) (l : list A) : list B :=
  match l with
  | [] => []
  | x :: rest =>
      match f x with
      | Some y => y :: filterMap f rest
      | None => filterMap f rest
      end
  end.

Definition findManyForPayroll (d : Db.t) (storeId : string)
    (periodStart periodEnd : Z) (userIds : option (list string))
  : list PayrollRow.t :=
  List.fold_right insertRow []
    (filterMap (payrollInclude d)
       (List.filter (payrollWhere storeId periodStart periodEnd userIds)
          (Db.attendances d))).

(** Group by user: a [Map] keeps its keys in insertion order. *)
Fixpoint groupInsert (groups : list (string * list PayrollRow.t))
    (r : PayrollRow.t) : list (string * list PayrollRow.t) :=
  match groups with
  | [] => [(Attendance.userId (PayrollRow.attendance r), [r])]
  | (k, rows) :: rest =>
      if String.eqb k (Attendance.userId (PayrollRow.attendance r))
      then (k, (rows ++ [r])%list) :: rest
      else (k, rows) :: groupInsert rest r
  end.

Definition groupByUser (rows : list PayrollRow.t)
  : list (string * list PayrollRow.t) :=
  List.fold_left groupInsert rows [].

Definition calculatePayroll (storeId : string) (periodStart periodEnd : Z)
    (userIds : option (list string)) : IO (list PayrollCalculation.t) :=
  d <- getDb ;;
  let attendances := findManyForPayroll d storeId periodStart periodEnd userIds in
  let userAttendances := groupByUser attendances in
  ret (filterMap
         (fun group : string * list PayrollRow.t =>
            let '(userId, userAtts) := group in
            match userAtts with
            | first :: _ =>
                Some (payrollOfUser periodStart periodEnd userId
                        (PayrollRow.user first) userAtts)
            | [] => None
            end)
         userAttendances).

(** [getCurrentState]: the state derived from today's record and the
    actions the table lists from it. *)
Definition getCurrentState (userId storeId : string) : IO CurrentState.t :=
  found <- getTodayAttendance userId storeId ;;
  let '(attendance, schedule) := found in
  timestamp <- newDate ;;
  let stateMachine :=
    ClockStateMachine.fromAttendance attendance
      (ClockStateMachine.mkBase userId storeId schedule) timestamp in
  ret (CurrentState.mk
         (ClockStateMachine.state stateMachine)
         (ClockStateMachine.getAvailableActions stateMachine)
         attendance schedule).

(* ------------------------------------------------------------------ *)
(** ** Vocabulary of the properties *)

Definition isOpenInput (b : BreakInput.t) : bool :=
  match BreakInput.endTime b with
  | None => true
  | Some _ => false
  end.

(** A world that differs from [w] by clock readings only. *)
Definition sameStore (w w' : World.t) : Prop :=
  World.db w' = World.db w /\ World.clock w' = World.clock w.

(** The transition table has no entry for [(s, action)]. *)
Definition noEntry (s : ClockState.t) (action : ClockAction.t) : Prop :=
  forall tr, In tr transitions ->
    ~ (StateTransition.action tr = action /\ In s (StateTransition.from tr)).

(** The day [getTodayAttendance] looks up when it runs in [w]. *)
Definition today (w : World.t) : Z :=
  Utils.startOfDay tz (World.clock w (World.reads w)).

(** The operation returns a failure and leaves storage as it was. *)
Definition blocked (userId storeId : string) (w : World.t) : Prop :=
  exists res w',
    clockOut userId storeId w = Returned res w'
    /\ ClockResult.success res = false
    /\ ClockResult.attendance res = None
    /\ World.db w' = World.db w.

(** The operation succeeds and the day's row is stored with [status]. *)
Definition clockedOutWith (userId storeId : string) (w : World.t)
    (id : string) (status : AttendanceStatus.t) : Prop :=
  exists res w' updated,
    clockOut userId storeId w = Returned res w'
    /\ ClockResult.success res = true
    /\ ClockResult.attendance res = Some updated
    /\ Attendance.status updated = status
    /\ In updated (Db.attendances (World.db w'))
    /\ forall a, In a (Db.attendances (World.db w')) ->
         Attendance.id a = id -> Attendance.status a = status.

(** A row the loop does not skip: clock-in present, net minutes neither
    null nor zero. *)
Definition counted (row : PayrollRow.t) : bool :=
  match Attendance.clockIn (PayrollRow.attendance row),
        Attendance.netWorkMinutes (PayrollRow.attendance row) with
  | Some _, Some n => negb (n =? 0)
  | _, _ => false
  end.

Definition onWeekend (row : PayrollRow.t) : bool :=
  let dayOfWeek := Utils.getDay tz (Attendance.date (PayrollRow.attendance row)) in
  (dayOfWeek =? 0) || (dayOfWeek =? 6).

(** The counted rows of weekdays, in order. *)
Definition weekdayRows (rows : list PayrollRow.t) : list PayrollRow.t :=
  List.filter (fun row => counted row && negb (onWeekend row)) rows.

Definition rowNet (row : PayrollRow.t) : num :=
  match Attendance.netWorkMinutes (PayrollRow.attendance row) with
  | Some n => Num.ofZ n
  | None => Num.ofZ 0
  end.

Definition rowScheduled (row : PayrollRow.t) : num :=
  match PayrollRow.schedule row with
  | Some s => getScheduledMinutes (Schedule.shiftType s)
  | None => Num.ofZ 480
  end.

(** A weekday's overtime minutes: [max(0, net - scheduled)]. *)
Definition rowOvertime (row : PayrollRow.t) : num :=
  Num.max (Num.ofZ 0) (rowNet row - rowScheduled row)%num.

(** A day's night minutes, as [calculateNightMinutes] estimates them. *)
Definition rowNight (row : PayrollRow.t) : F64.t :=
  match Attendance.clockIn (PayrollRow.attendance row) with
  | Some clockIn =>
      calculateNightMinutes clockIn (Attendance.clockOut (PayrollRow.attendance row))
  | None => F64.ofZ 0
  end.

Definition sumFrom (start : num) (l : list num) : num :=
  List.fold_left Num.add l start.

(** Doubles added up one after the other, as [+=] does. *)
Definition sumDoubles (start : F64.t) (l : list F64.t) : F64.t :=
  List.fold_left F64.add l start.

(** The number of days of the 0-based [month] of [year], from the
    calendar: February has 29 days in the years divisible by 4 but not
    by 100, or by 400, and 28 otherwise; April, June, September and
    November have 30. *)
Definition calendarDays (year month : Z) : Z :=
  match month with
  | 1 =>
      if ((year mod 4 =? 0) && negb (year mod 100 =? 0)) || (year mod 400 =? 0)
      then 29 else 28
  | 3 | 5 | 8 | 10 => 30
  | _ => 31
  end.

(** The two readings of the spec that the code is compared with.

    Per-day tiering: of each day's overtime hours the first 2 at 1.34
    times the rate and the rest at 1.67 times, the period's overtime pay
    being the sum of the days' amounts. *)
Definition overtimeTier (hours rate : num) : num :=
  (Num.min hours (Num.ofZ 2) * rate * Fin (134 # 100)
   + Num.max (Num.ofZ 0) (hours - Num.ofZ 2) * rate * Fin (167 # 100))%num.

Definition overtimePayPerDay (rate : num) (rows : list PayrollRow.t) : num :=
  sumFrom (Num.ofZ 0)
    (List.map (fun row => overtimeTier (Num.divq (rowOvertime row) 60) rate)
       (weekdayRows rows)).

(** The minutes of a record inside the 22:00-06:00 window: the whole
    minutes from clock-in to clock-out whose local hour is in the window. *)
Definition inNightWindow (t : Z) : bool :=
  (22 <=? Utils.getHours tz t) || (Utils.getHours tz t <? 6).

Fixpoint countNightMinutes (minutes : nat) (t : Z) : Z :=
  match minutes with
  | O => 0
  | S k => (if inNightWindow t then 1 else 0) + countNightMinutes k (t + 60000)
  end.

Definition nightWindowMinutes (clockIn clockOut : Z) : Z :=
  countNightMinutes (Z.to_nat ((clockOut - clockIn) / 60000)) clockIn.

(** What the loop over the breaks computes, given the clock: the
    duration of each break, an open one measured against the clock's next
    reading. *)
Fixpoint durationsFrom (clock : nat -> Z) (k : nat) (breaks : list BreakInput.t)
  : list Z :=
  match breaks with
  | [] => []
  | brk :: rest =>
      match BreakInput.endTime brk with
      | Some e =>
          Utils.differenceInMinutes e (BreakInput.startTime brk)
          :: durationsFrom clock k rest
      | None =>
          Utils.differenceInMinutes (clock k) (BreakInput.startTime brk)
          :: durationsFrom clock (S k) rest
      end
  end.

Definition openCount (breaks : list BreakInput.t) : nat :=
  List.length (List.filter isOpenInput breaks).

Fixpoint detailsOf (breaks : list BreakInput.t) (durations : list Z)
  : list BreakDetail.t :=
  match breaks, durations with
  | brk :: rest, d :: ds =>
      BreakDetail.mk (BreakInput.startTime brk) (BreakInput.endTime brk) d
        (BreakInput.type brk)
      :: detailsOf rest ds
  | _, _ => []
  end.

Definition sumZ (l : list Z) : Z := List.fold_right Z.add 0 l.

(** The world after [n] more readings of the clock. *)
Definition afterReads (w : World.t) (n : nat) : World.t :=
  World.atRead w (World.reads w + n).

(** The triples (from, action, to) of the transition table. *)
Definition transitionTriples : list (ClockState.t * ClockAction.t * ClockState.t) :=
  [ (ClockState.NOT_CLOCKED_IN, ClockAction.CLOCK_IN, ClockState.WORKING);
    (ClockState.WORKING, ClockAction.START_BREAK, ClockState.ON_BREAK);
    (ClockState.ON_BREAK, ClockAction.END_BREAK, ClockState.WORKING);
    (ClockState.WORKING, ClockAction.CLOCK_OUT, ClockState.CLOCKED_OUT);
    (ClockState.CLOCKED_OUT, ClockAction.CLOCK_OUT, ClockState.SPLIT_BREAK);
    (ClockState.SPLIT_BREAK, ClockAction.CLOCK_IN_SEGMENT_2, ClockState.WORKING);
    (ClockState.WORKING, ClockAction.CLOCK_OUT_SEGMENT_2, ClockState.CLOCKED_OUT) ].

(** A detail that reports its break: the same start, end and type, and
    for an ended break the floored minutes between start and end. *)
Definition reportsBreak (brk : BreakInput.t) (d : BreakDetail.t) : Prop :=
  BreakDetail.startTime d = BreakInput.startTime brk
  /\ BreakDetail.endTime d = BreakInput.endTime brk
  /\ BreakDetail.type d = BreakInput.type brk
  /\ forall e, BreakInput.endTime brk = Some e ->
       BreakDetail.durationMinutes d
       = Utils.differenceInMinutes e (BreakInput.startTime brk).

(** The character of a decimal digit. *)
Definition digitChar (d : Z) : ascii := ascii_of_nat (Z.to_nat (48 + d)).

(** The string has no colon. *)
Definition noColon (s : string) : Prop :=
  forall c, In c (list_ascii_of_string s) -> c <> ":"%char.

(** The net minutes of the rows the payroll loop counts, added up. *)
Definition countedNet (rows : list PayrollRow.t) : Z :=
  sumZ (List.map
          (fun row =>
             match Attendance.netWorkMinutes (PayrollRow.attendance row) with
             | Some n => n
             | None => 0
             end)
          (List.filter counted rows)).

(** The minutes a running total has put into its three paid buckets. *)
Definition paidMinutes (totals : Totals.t) : num :=
  (Totals.totalRegularMinutes totals + Totals.totalOvertimeMinutes totals
   + Totals.totalHolidayMinutes totals)%num.

(** Every counted weekday row has scheduled minutes that are a number. *)
Definition scheduledAreNumbers (rows : list PayrollRow.t) : Prop :=
  forall row, In row rows -> counted row = true -> onWeekend row = false ->
    exists s, rowScheduled row = Fin s.

(** The user a row belongs to, and a row being in one of the groups. *)
Definition rowUser (r : PayrollRow.t) : string :=
  Attendance.userId (PayrollRow.attendance r).

Definition grouped (r : PayrollRow.t) (groups : list (string * list PayrollRow.t))
  : Prop :=
  exists k rows, In (k, rows) groups /\ In r rows.

(** Groups as the grouping loop keeps them: one per user, none empty,
    each holding rows of its user that satisfy [P]. *)
Definition wellGrouped (P : PayrollRow.t -> Prop)
    (groups : list (string * list PayrollRow.t)) : Prop :=
  NoDup (List.map fst groups)
  /\ forall k rows, In (k, rows) groups ->
       rows <> [] /\ forall r, In r rows -> rowUser r = k /\ P r.

(** What the payroll query selects: a finalized attendance of the store
    inside the period, of one of the users asked for when a non-empty list
    of users is given. *)
Definition selected (storeId : string) (periodStart periodEnd : Z)
    (userIds : option (list string)) (a : Attendance.t) : Prop :=
  Attendance.storeId a = storeId
  /\ Utils.startOfDay tz periodStart <= Attendance.date a <= Utils.endOfDay tz periodEnd
  /\ (Attendance.status a = AttendanceStatus.CLOCKED_OUT
      \/ Attendance.status a = AttendanceStatus.APPROVED)
  /\ (forall u us, userIds = Some (u :: us) -> In (Attendance.userId a) (u :: us)).

(** The world an operation leaves, whether it returned or threw. *)
Definition worldOf {A : Type} (o : Outcome A) : World.t :=
  match o with
  | Returned _ w => w
  | Thrown _ w => w
  end.

(** The operation returned a result that reports success. *)
Definition succeeded (o : Outcome ClockResult.t) : bool :=
  match o with
  | Returned res _ => ClockResult.success res
  | Thrown _ _ => false
  end.

(** The row [clockIn] creates in [w]: the id is the next one of the
    storage, the times come from the third clock reading. *)
Definition clockInRow (userId storeId : string) (w : World.t) : Attendance.t :=
  let now := World.clock w (S (S (World.reads w))) in
  Attendance.mk (World.ids w (World.made w)) userId storeId
    (Utils.startOfDay tz now) (Some now) None None None
    AttendanceStatus.CLOCKED_IN None None None None
    (option_map Schedule.id (findScheduleForDay (World.db w) userId (today w)))
    [].

(** [ctx.schedule?.shiftType?.maxBreakCount ?? 3] *)
Definition maxBreaksOf (sched : option Schedule.t) : Z :=
  match sched with
  | Some s => ShiftType.maxBreakCount (Schedule.shiftType s)
  | None => 3
  end.

(** The operation returns a failure and leaves storage as it was. *)
Definition refused (op : IO ClockResult.t) (w : World.t) : Prop :=
  exists res w',
    op w = Returned res w'
    /\ ClockResult.success res = false
    /\ ClockResult.attendance res = None
    /\ World.db w' = World.db w.

(** The break row [startBreak] creates in [w]. *)
Definition startedBreak (breakType : BreakType) (w : World.t) : Break.t :=
  Break.mk (World.ids w (World.made w)) (World.clock w (S (S (World.reads w))))
    None breakType None.

(** The update [endBreak] makes to the break with id [breakId]. *)
Definition closedBreak (breakId : string) (now durationMinutes : Z) (b : Break.t)
  : Break.t :=
  if String.eqb (Break.id b) breakId
  then Break.mk (Break.id b) (Break.startTime b) (Some now) (Break.type b)
         (Some durationMinutes)
  else b.

(** Breaks listed from the latest start to the earliest. *)
Fixpoint startsDescending (bs : list Break.t) : Prop :=
  match bs with
  | [] => True
  | b :: rest =>
      (forall b', In b' rest -> Break.startTime b' <= Break.startTime b)
      /\ startsDescending rest
  end.

(** The four operations of the service that write, each with the action
    it asks the state machine for and logs by name. *)
Inductive serviceCall (userId storeId : string)
  : ClockAction.t -> IO ClockResult.t -> Prop :=
| CallClockIn :
    serviceCall userId storeId ClockAction.CLOCK_IN (clockIn userId storeId)
| CallClockOut :
    serviceCall userId storeId ClockAction.CLOCK_OUT (clockOut userId storeId)
| CallStartBreak (breakType : BreakType) :
    serviceCall userId storeId ClockAction.START_BREAK
      (startBreak userId storeId breakType)
| CallEndBreak :
    serviceCall userId storeId ClockAction.END_BREAK (endBreak userId storeId).

(** The unique key [userId_date] of an attendance row. *)
Definition dayKey (a : Attendance.t) : string * Z :=
  (Attendance.userId a, Attendance.date a).

Definition oneRecordPerDay (d : Db.t) : Prop :=
  NoDup (List.map dayKey (Db.attendances d)).

(** What an operation may have done to storage: nothing, when it did not
    succeed; otherwise one audit entry appended and either the rows
    updated in place, keys and ids kept, or one row with a fresh key
    appended. *)
Definition storedStep (userId action : string) (w : World.t)
    (o : Outcome ClockResult.t) : Prop :=
  (succeeded o = false /\ World.db (worldOf o) = World.db w)
  \/ (succeeded o = true
      /\ exists (f : Attendance.t -> Attendance.t) (extra : list Attendance.t)
                (id : string),
           (forall a, dayKey (f a) = dayKey a
                      /\ Attendance.id (f a) = Attendance.id a)
           /\ World.db (worldOf o)
              = Db.mk (List.map f (Db.attendances (World.db w)) ++ extra)
                  (Db.schedules (World.db w)) (Db.users (World.db w))
                  (Db.auditLogs (World.db w)
                   ++ [AuditLog.mk userId action "Attendance" id])
           /\ (extra = []
               \/ exists row,
                    extra = [row]
                    /\ (forall a, In a (Db.attendances (World.db w)) ->
                          dayKey a <> dayKey row)
                    /\ forall a, f a = a)).

(** [getCurrentState] lists [action] as allowed. *)
Definition offered (action : ClockAction.t) (cs : CurrentState.t) : Prop :=
  exists item,
    In item (CurrentState.availableActions cs)
    /\ ClockStateMachine.Available.action item = action
    /\ ClockStateMachine.Available.allowed item = true.

(** The night estimate on whole minutes, checked on every case: with
    [a] minutes left of the clock-in hour (0 when it does not count) and
    [m] minutes into the clock-out hour, the doubles added up and capped
    below by 0 are the double of [a + m]. *)
Definition wholeMinuteRange (n : nat) : list Z := List.map Z.of_nat (List.seq 0 n).

Definition wholeMinutesAddUp : bool :=
  List.forallb
    (fun a =>
       F64.same (F64.max (F64.ofZ 0) (F64.add (F64.ofZ 0) (F64.ofZ a))) (F64.ofZ a)
       && List.forallb
            (fun m =>
               F64.same
                 (F64.max (F64.ofZ 0)
                    (F64.add (F64.add (F64.ofZ 0) (F64.ofZ a)) (F64.ofZ m)))
                 (F64.ofZ (a + m)))
            (wholeMinuteRange 60))
    (wholeMinuteRange 61).

(** The doubles of 1 to 60 are finite and not 0. *)
Definition restIsFinite : bool :=
  List.forallb
    (fun a => match F64.ofZ (a + 1) with S754_finite _ _ _ => true | _ => false end)
    (wholeMinuteRange 60).

(* ================================================================== *)
(** * Properties *)

(* ------------------------------------------------------------------ *)
(** ** The work-hours calculator *)

Lemma sameStore_refl (w : World.t) : sameStore w w.
Proof. split; reflexivity. Qed.

Lemma sameStore_trans (w1 w2 w3 : World.t) :
  sameStore w1 w2 -> sameStore w2 w3 -> sameStore w1 w3.
Proof.
  intros [Hd Hc] [Hd' Hc']. split; congruence.
Qed.

Lemma newDate_returns (w : World.t) :
  exists w', newDate w = Returned (World.clock w (World.reads w)) w' /\ sameStore w w'.
Proof.
  unfold newDate. eexists. split; [reflexivity | split; reflexivity].
Qed.

Lemma breakStep_returns (acc : BreakTotals) (brk : BreakInput.t) (w : World.t) :
  exists acc' w',
    breakStep acc brk w = Returned acc' w'
    /\ sameStore w w'
    /\ sawUnendedBreak acc' = sawUnendedBreak acc || isOpenInput brk.
Proof.
  unfold breakStep, isOpenInput.
  destruct (BreakInput.endTime brk) as [e|].
  - eexists _, w. unfold ret. split; [reflexivity|].
    split; [apply sameStore_refl|]. cbn. now rewrite orb_false_r.
  - unfold bind, newDate, ret. eexists _, _. split; [reflexivity|].
    split; [split; reflexivity|]. cbn. now rewrite orb_true_r.
Qed.

Lemma breakLoop_returns (breaks : list BreakInput.t) :
  forall (acc : BreakTotals) (w : World.t),
  exists acc' w',
    breakLoop breaks acc w = Returned acc' w'
    /\ sameStore w w'
    /\ sawUnendedBreak acc' = sawUnendedBreak acc || List.existsb isOpenInput breaks.
Proof.
  induction breaks as [|brk rest IH]; intros acc w.
  - exists acc, w. cbn. split; [reflexivity|].
    split; [apply sameStore_refl|]. now rewrite orb_false_r.
  - destruct (breakStep_returns acc brk w) as (acc1 & w1 & E1 & S1 & U1).
    destruct (IH acc1 w1) as (acc2 & w2 & E2 & S2 & U2).
    exists acc2, w2. cbn [breakLoop]. unfold bind at 1. rewrite E1.
    split; [exact E2|]. split; [eapply sameStore_trans; eassumption|].
    rewrite U2, U1. cbn. now rewrite orb_assoc.
Qed.

(** The calculator always returns; what it reads is the clock only. *)
Lemma calculateWorkHours_returns (input : WorkHoursInput.t) (w : World.t) :
  exists r w',
    calculateWorkHours input w = Returned r w'
    /\ sameStore w w'
    /\ WorkHoursResult.hasUnendedBreak r
       = List.existsb isOpenInput (WorkHoursInput.breaks input)
    /\ WorkHoursResult.netWorkMinutes r
       = WorkHoursResult.totalMinutes r - WorkHoursResult.breakMinutes r
    /\ (WorkHoursResult.hasUnendedBreak r = true ->
        WorkHoursResult.requiresReview r = true)
    /\ match WorkHoursInput.shiftType input with
       | Some st =>
           if Num.gtb (Num.ofZ (WorkHoursResult.netWorkMinutes r))
                      (calculateScheduledMinutes st)
           then WorkHoursResult.regularMinutes r = calculateScheduledMinutes st
                /\ WorkHoursResult.overtimeMinutes r
                   = (Num.ofZ (WorkHoursResult.netWorkMinutes r)
                      - calculateScheduledMinutes st)%num
           else WorkHoursResult.regularMinutes r
                = Num.ofZ (WorkHoursResult.netWorkMinutes r)
                /\ WorkHoursResult.overtimeMinutes r = Num.ofZ 0
       | None =>
           WorkHoursResult.regularMinutes r
           = Num.ofZ (WorkHoursResult.netWorkMinutes r)
           /\ WorkHoursResult.overtimeMinutes r = Num.ofZ 0
       end.
Proof.
  unfold calculateWorkHours.
  destruct (breakLoop_returns (WorkHoursInput.breaks input)
              (mkBreakTotals 0 false []) w) as (acc & w' & E & S & U).
  cbn [sawUnendedBreak orb] in U.
  unfold bind. rewrite E. unfold ret. cbv zeta.
  destruct (WorkHoursInput.shiftType input) as [st|].
  - destruct (Num.gtb _ (calculateScheduledMinutes st)) eqn:G;
      (eexists _, w'; split; [reflexivity|]; split; [exact S|];
       cbn [WorkHoursResult.hasUnendedBreak WorkHoursResult.netWorkMinutes
            WorkHoursResult.totalMinutes WorkHoursResult.breakMinutes
            WorkHoursResult.requiresReview WorkHoursResult.regularMinutes
            WorkHoursResult.overtimeMinutes];
       split; [exact U|]; split; [reflexivity|]; split;
       [intros ->; reflexivity | rewrite G; split; reflexivity]).
  - eexists _, w'. split; [reflexivity|]. split; [exact S|].
    cbn [WorkHoursResult.hasUnendedBreak WorkHoursResult.netWorkMinutes
         WorkHoursResult.totalMinutes WorkHoursResult.breakMinutes
         WorkHoursResult.requiresReview WorkHoursResult.regularMinutes
         WorkHoursResult.overtimeMinutes].
    split; [exact U|]. split; [reflexivity|]. split;
      [intros ->; reflexivity | split; reflexivity].
Qed.

Lemma gtb_true_inv (a b : num) :
  Num.gtb a b = true -> exists x y, a = Fin x /\ b = Fin y /\ (y < x)%Q.
Proof.
  destruct a as [|x], b as [|y]; cbn; try discriminate.
  intros H. exists x, y. repeat split.
  apply negb_true_iff in H. apply Qnot_le_lt. intros L.
  apply Qle_bool_iff in L. congruence.
Qed.

Lemma leb_true_gtb_false (a b : num) :
  Num.leb a b = true -> Num.gtb a b = false.
Proof.
  destruct a, b; cbn; try discriminate. now intros ->.
Qed.

(** C2: for every input the calculator returns a result, and in it
    netWorkMinutes is exactly totalMinutes minus breakMinutes. *)
Theorem calculateWorkHours_net_is_total_minus_break
    (input : WorkHoursInput.t) (w : World.t) :
  exists r w',
    calculateWorkHours input w = Returned r w'
    /\ WorkHoursResult.netWorkMinutes r
       = WorkHoursResult.totalMinutes r - WorkHoursResult.breakMinutes r.
Proof.
  destruct (calculateWorkHours_returns input w) as (r & w' & E & _ & _ & N & _).
  exists r, w'. split; assumption.
Qed.

(** C3: whenever a shift definition is supplied, the calculator returns a
    result in which regularMinutes + overtimeMinutes equals
    netWorkMinutes. *)
Theorem calculateWorkHours_regular_plus_overtime
    (input : WorkHoursInput.t) (w : World.t) (st : ShiftType.t) :
  WorkHoursInput.shiftType input = Some st ->
  exists r w',
    calculateWorkHours input w = Returned r w'
    /\ (WorkHoursResult.regularMinutes r + WorkHoursResult.overtimeMinutes r
        === Num.ofZ (WorkHoursResult.netWorkMinutes r))%num.
Proof.
  intros Hst.
  destruct (calculateWorkHours_returns input w) as (r & w' & E & _ & _ & _ & _ & O).
  exists r, w'. split; [exact E|].
  rewrite Hst in O.
  destruct (Num.gtb _ (calculateScheduledMinutes st)) eqn:G.
  - destruct O as [-> ->].
    destruct (gtb_true_inv _ _ G) as (x & y & Hx & -> & _).
    unfold Num.ofZ in *. injection Hx as <-. cbn. ring.
  - destruct O as [-> ->]. unfold Num.ofZ. cbn. ring.
Qed.

(** C10: the calculator does not clamp net or regular minutes at zero.
    When the summed break minutes exceed the total minutes, netWorkMinutes
    is negative; and with a shift whose scheduled minutes are at least
    netWorkMinutes, regularMinutes is that same negative value and
    overtimeMinutes is 0. *)
Theorem calculateWorkHours_negative_net_not_clamped
    (input : WorkHoursInput.t) (w : World.t) :
  exists r w',
    calculateWorkHours input w = Returned r w'
    /\ (WorkHoursResult.totalMinutes r < WorkHoursResult.breakMinutes r ->
        WorkHoursResult.netWorkMinutes r < 0
        /\ forall st,
            WorkHoursInput.shiftType input = Some st ->
            Num.leb (Num.ofZ (WorkHoursResult.netWorkMinutes r))
                    (calculateScheduledMinutes st) = true ->
            WorkHoursResult.regularMinutes r
            = Num.ofZ (WorkHoursResult.netWorkMinutes r)
            /\ WorkHoursResult.overtimeMinutes r = Num.ofZ 0
            /\ Num.ltb (WorkHoursResult.regularMinutes r) (Num.ofZ 0) = true).
Proof.
  destruct (calculateWorkHours_returns input w) as (r & w' & E & _ & _ & N & _ & O).
  exists r, w'. split; [exact E|].
  intros Hlt. split; [lia|].
  intros st Hst Hle. rewrite Hst in O.
  rewrite (leb_true_gtb_false _ _ Hle) in O. destruct O as [HR HO].
  split; [exact HR|]. split; [exact HO|].
  rewrite HR. unfold Num.ltb, Num.gtb, Num.ofZ.
  apply negb_true_iff. destruct (Qle_bool _ _) eqn:L; [|reflexivity].
  apply Qle_bool_iff in L. rewrite <- Zle_Qle in L. lia.
Qed.

(* ------------------------------------------------------------------ *)
(** ** The clock state machine *)

Lemma ClockState_eqb_eq (a b : ClockState.t) :
  ClockState.eqb a b = true <-> a = b.
Proof. destruct a, b; cbn; split; congruence. Qed.

Lemma ClockAction_eqb_eq (a b : ClockAction.t) :
  ClockAction.eqb a b = true <-> a = b.
Proof. destruct a, b; cbn; split; congruence. Qed.

Lemma findTransition_none (s : ClockState.t) (action : ClockAction.t) :
  noEntry s action -> ClockStateMachine.findTransition s action = None.
Proof.
  intros No. unfold ClockStateMachine.findTransition.
  destruct (List.find _ transitions) as [tr|] eqn:F; [|reflexivity].
  apply List.find_some in F. destruct F as [Hin Hb].
  apply andb_true_iff in Hb. destruct Hb as [Ha Hs].
  apply ClockAction_eqb_eq in Ha.
  apply List.existsb_exists in Hs. destruct Hs as (s' & Hs' & Heq).
  apply ClockState_eqb_eq in Heq. subst s'.
  exfalso. apply (No tr Hin). split; assumption.
Qed.

(** C4: a (state, action) pair without an entry in the transition table
    is denied with a reason, by a total function; in particular CLOCK_IN
    from WORKING is denied in every context. *)
Theorem canTransition_denies_without_entry :
  (forall (m : ClockStateMachine.t) (action : ClockAction.t),
      noEntry (ClockStateMachine.state m) action ->
      Verdict.allowed (ClockStateMachine.canTransition m action) = false
      /\ exists reason,
           Verdict.reason (ClockStateMachine.canTransition m action) = Some reason
           /\ reason <> "")
  /\ (forall ctx : ClockContext.t,
        Verdict.allowed
          (ClockStateMachine.canTransition
             (ClockStateMachine.mk ClockState.WORKING ctx) ClockAction.CLOCK_IN)
        = false).
Proof.
  split.
  - intros m action No. unfold ClockStateMachine.canTransition.
    rewrite (findTransition_none _ _ No). cbn. split; [reflexivity|].
    eexists. split; [reflexivity|]. discriminate.
  - intros ctx. reflexivity.
Qed.

(* ------------------------------------------------------------------ *)
(** ** Clock-out *)

Lemma existsb_find {A : Type} (f : A -> bool) (l : list A) :
  List.existsb f l = true -> exists x, List.find f l = Some x.
Proof.
  induction l as [|a l IH]; cbn; [discriminate|].
  destruct (f a); [eexists; reflexivity | exact IH].
Qed.

Lemma existsb_breakInput (bs : list Break.t) :
  List.existsb isOpenInput (List.map breakInput bs) = List.existsb isOpen bs.
Proof.
  induction bs as [|b bs IH]; [reflexivity|].
  cbn. now rewrite IH.
Qed.

Lemma findAttendanceForDay_row (d : Db.t) (userId : string) (day : Z)
    (att : Attendance.t) :
  findAttendanceForDay d userId day = Some att ->
  exists row, List.find (hasId (Attendance.id att)) (Db.attendances d) = Some row.
Proof.
  unfold findAttendanceForDay. intros H.
  destruct (List.find _ (Db.attendances d)) as [a0|] eqn:F; [|discriminate].
  cbn in H. injection H as <-. cbn [withBreaks Attendance.id].
  apply List.find_some in F. destruct F as [Hin _].
  apply existsb_find. apply List.existsb_exists. exists a0.
  split; [exact Hin|]. unfold hasId. apply String.eqb_refl.
Qed.

(** With an open break, CLOCK_OUT is allowed from one state only:
    CLOCKED_OUT on a split shift. *)
Lemma canTransition_clockOut_open_break (att : Attendance.t)
    (base : ClockStateMachine.Base) (now : Z) :
  List.existsb isOpen (Attendance.breaks att) = true ->
  Verdict.allowed
    (ClockStateMachine.canTransition
       (ClockStateMachine.fromAttendance (Some att) base now)
       ClockAction.CLOCK_OUT)
  = match ClockStateMachine.deriveState (Some att) (ClockStateMachine.schedule base) with
    | ClockState.CLOCKED_OUT =>
        ClockStateMachine.scheduleIsSplit (ClockStateMachine.schedule base)
    | _ => false
    end.
Proof.
  intros Hopen. destruct (existsb_find _ _ Hopen) as (b & Hb).
  unfold ClockStateMachine.canTransition, ClockStateMachine.fromAttendance.
  cbn [ClockStateMachine.state ClockStateMachine.context].
  destruct (ClockStateMachine.deriveState _ _); cbn; try reflexivity.
  - unfold guardClockOut, contextBreaks. cbn. rewrite Hb. reflexivity.
  - unfold guardSplitEntry, contextShiftType, ClockStateMachine.scheduleIsSplit.
    cbn. destruct (ClockStateMachine.schedule base) as [s|]; cbn; [|reflexivity].
    destruct (ShiftType.isSplit _); reflexivity.
Qed.

Ltac world_simpl :=
  unfold World.atRead, World.withDb, World.atMade;
  cbn [World.db World.clock World.reads World.ids World.made].

Lemma clockOut_denied (userId storeId : string) (w : World.t) (att : Attendance.t) :
  findAttendanceForDay (World.db w) userId (today w) = Some att ->
  Verdict.allowed
    (ClockStateMachine.canTransition
       (ClockStateMachine.fromAttendance (Some att)
          (ClockStateMachine.mkBase userId storeId
             (findScheduleForDay (World.db w) userId (today w)))
          (World.clock w (S (World.reads w))))
       ClockAction.CLOCK_OUT) = false ->
  blocked userId storeId w.
Proof.
  intros Hfind Hdeny. unfold blocked, clockOut, getTodayAttendance.
  unfold bind at 1. unfold bind at 1. cbn [newDate].
  unfold bind at 1. cbn [getDb]. world_simpl. unfold ret at 1.
  fold (today w). rewrite Hfind.
  unfold bind at 1. cbn [newDate]. world_simpl.
  rewrite Hdeny. cbn [negb]. unfold ret.
  eexists _, _. repeat split.
Qed.

Lemma clockOut_allowed (userId storeId : string) (w : World.t)
    (att : Attendance.t) (clockIn : Z) :
  findAttendanceForDay (World.db w) userId (today w) = Some att ->
  Verdict.allowed
    (ClockStateMachine.canTransition
       (ClockStateMachine.fromAttendance (Some att)
          (ClockStateMachine.mkBase userId storeId
             (findScheduleForDay (World.db w) userId (today w)))
          (World.clock w (S (World.reads w))))
       ClockAction.CLOCK_OUT) = true ->
  Attendance.clockIn att = Some clockIn ->
  exists workHours w1,
    calculateWorkHours
      (WorkHoursInput.mk clockIn (World.clock w (S (S (World.reads w))))
         (Attendance.clockIn2 att) (Attendance.clockOut2 att)
         (List.map breakInput (Attendance.breaks att))
         (option_map Schedule.shiftType
            (findScheduleForDay (World.db w) userId (today w))))
      (World.atRead w (S (S (S (World.reads w)))))
    = Returned workHours w1
    /\ clockedOutWith userId storeId w (Attendance.id att)
         (if WorkHoursResult.requiresReview workHours
          then AttendanceStatus.PENDING_REVIEW
          else AttendanceStatus.CLOCKED_OUT).
Proof.
  intros Hfind Hallow Hin.
  destruct (findAttendanceForDay_row _ _ _ _ Hfind) as (row & Hrow).
  match goal with
  | |- exists _ _, calculateWorkHours ?i ?w3 = _ /\ _ =>
      destruct (calculateWorkHours_returns i w3) as (r & w4 & E & [Sd Sc] & _)
  end.
  unfold World.atRead in Sd, Sc. cbn [World.db World.clock] in Sd, Sc.
  exists r, w4. split; [exact E|]. unfold World.atRead in E.
  unfold clockedOutWith, clockOut, getTodayAttendance.
  unfold bind at 1. unfold bind at 1. cbn [newDate].
  unfold bind at 1. cbn [getDb]. world_simpl. unfold ret at 1.
  fold (today w). rewrite Hfind.
  unfold bind at 1. cbn [newDate]. world_simpl.
  rewrite Hallow. cbn [negb].
  unfold bind at 1. cbn [newDate]. world_simpl.
  rewrite Hin.
  unfold bind at 1. rewrite E.
  unfold updateAttendance, createAuditLog, putDb, getDb, bind, ret.
  rewrite Sd, Hrow.
  eexists _, _, _. split; [reflexivity|].
  cbn [ClockResult.success ClockResult.attendance World.db Db.attendances].
  split; [reflexivity|]. split; [reflexivity|].
  split; [reflexivity|]. split.
  - apply List.find_some in Hrow. destruct Hrow as [Hrin Hid].
    apply List.in_map_iff. exists row. rewrite Hid. split; [reflexivity|exact Hrin].
  - intros a Ha Hida. apply List.in_map_iff in Ha. destruct Ha as (a0 & Ha0 & _).
    destruct (hasId (Attendance.id att) a0) eqn:Hh.
    + subst a. reflexivity.
    + subst a. unfold hasId in Hh. rewrite Hida in Hh.
      rewrite String.eqb_refl in Hh. discriminate.
Qed.

(** C1 (amended): with an open break on the day's record, clock-out is
    decided by the state machine.  From every derived state but
    CLOCKED_OUT on a split shift it is blocked: the operation returns a
    failure and stores nothing.  From CLOCKED_OUT on a split shift it
    proceeds, and then the stored status is PENDING_REVIEW.  The
    calculator, given a break list with an open break, always sets
    hasUnendedBreak and requiresReview. *)
Theorem clockOut_with_open_break (userId storeId : string) (w : World.t)
    (att : Attendance.t) :
  findAttendanceForDay (World.db w) userId (today w) = Some att ->
  List.existsb isOpen (Attendance.breaks att) = true ->
  let schedule := findScheduleForDay (World.db w) userId (today w) in
  match ClockStateMachine.deriveState (Some att) schedule with
   | ClockState.CLOCKED_OUT =>
       if ClockStateMachine.scheduleIsSplit schedule
       then forall clockIn, Attendance.clockIn att = Some clockIn ->
            clockedOutWith userId storeId w (Attendance.id att)
              AttendanceStatus.PENDING_REVIEW
       else blocked userId storeId w
   | _ => blocked userId storeId w
   end
  /\ forall (input : WorkHoursInput.t) (w0 : World.t),
       List.existsb isOpenInput (WorkHoursInput.breaks input) = true ->
       exists r w',
         calculateWorkHours input w0 = Returned r w'
         /\ WorkHoursResult.hasUnendedBreak r = true
         /\ WorkHoursResult.requiresReview r = true.
Proof.
  intros Hfind Hopen schedule.
  assert (Hflags : forall (input : WorkHoursInput.t) (w0 : World.t),
             List.existsb isOpenInput (WorkHoursInput.breaks input) = true ->
             exists r w',
               calculateWorkHours input w0 = Returned r w'
               /\ WorkHoursResult.hasUnendedBreak r = true
               /\ WorkHoursResult.requiresReview r = true).
  { intros input w0 Hin.
    destruct (calculateWorkHours_returns input w0) as (r & w' & E & _ & U & _ & R & _).
    exists r, w'. rewrite Hin in U. auto. }
  split; [|exact Hflags].
  pose proof (canTransition_clockOut_open_break att
                (ClockStateMachine.mkBase userId storeId schedule)
                (World.clock w (S (World.reads w))) Hopen) as Hcan.
  cbn [ClockStateMachine.schedule] in Hcan.
  destruct (ClockStateMachine.deriveState (Some att) schedule);
    try (apply (clockOut_denied _ _ _ _ Hfind Hcan)).
  destruct (ClockStateMachine.scheduleIsSplit schedule);
    [|apply (clockOut_denied _ _ _ _ Hfind Hcan)].
  intros clockIn Hin.
  destruct (clockOut_allowed _ _ _ _ _ Hfind Hcan Hin) as (r & w1 & E & Hout).
  match type of E with
  | calculateWorkHours ?i ?w3 = _ =>
      destruct (Hflags i w3 (eq_trans (existsb_breakInput _) Hopen))
        as (r' & w1' & E' & _ & R)
  end.
  rewrite E in E'. injection E' as <- <-. rewrite R in Hout. exact Hout.
Qed.

(* ------------------------------------------------------------------ *)
(** ** Payroll *)

Lemma payrollStep_weekday (acc : Totals.t) (row : PayrollRow.t) :
  counted row && negb (onWeekend row) = true ->
  Totals.totalOvertimeMinutes (payrollStep acc row)
  = (Totals.totalOvertimeMinutes acc + rowOvertime row)%num
  /\ Totals.totalNightMinutes (payrollStep acc row)
     = F64.add (Totals.totalNightMinutes acc) (rowNight row).
Proof.
  unfold counted, onWeekend, payrollStep, rowOvertime, rowNight, rowNet, rowScheduled.
  destruct (Attendance.clockIn _) as [ci|]; [|discriminate].
  destruct (Attendance.netWorkMinutes _) as [n|]; [|discriminate].
  destruct (n =? 0); [discriminate|]. cbn [negb andb].
  destruct (_ || _); [discriminate|]. intros _. split; reflexivity.
Qed.

Lemma payrollStep_other (acc : Totals.t) (row : PayrollRow.t) :
  counted row && negb (onWeekend row) = false ->
  Totals.totalOvertimeMinutes (payrollStep acc row) = Totals.totalOvertimeMinutes acc
  /\ Totals.totalNightMinutes (payrollStep acc row) = Totals.totalNightMinutes acc.
Proof.
  unfold counted, onWeekend, payrollStep.
  destruct (Attendance.clockIn _) as [ci|]; [|split; reflexivity].
  destruct (Attendance.netWorkMinutes _) as [n|]; [|split; reflexivity].
  destruct (n =? 0); [split; reflexivity|]. cbn [negb andb].
  destruct (_ || _); [|discriminate]. intros _. split; reflexivity.
Qed.

Lemma payrollTotals_from (rows : list PayrollRow.t) :
  forall acc : Totals.t,
    Totals.totalOvertimeMinutes (List.fold_left payrollStep rows acc)
    = sumFrom (Totals.totalOvertimeMinutes acc)
        (List.map rowOvertime (weekdayRows rows))
    /\ Totals.totalNightMinutes (List.fold_left payrollStep rows acc)
       = sumDoubles (Totals.totalNightMinutes acc)
           (List.map rowNight (weekdayRows rows)).
Proof.
  induction rows as [|row rows IH]; intros acc; [split; reflexivity|].
  cbn [List.fold_left weekdayRows List.filter].
  destruct (IH (payrollStep acc row)) as [IHo IHn]. fold (weekdayRows rows).
  destruct (counted row && negb (onWeekend row)) eqn:C.
  - destruct (payrollStep_weekday acc row C) as [Ho Hn].
    cbn [List.map sumFrom sumDoubles List.fold_left]. unfold sumFrom, sumDoubles in *.
    rewrite IHo, IHn, Ho, Hn. split; reflexivity.
  - destruct (payrollStep_other acc row C) as [Ho Hn].
    rewrite IHo, IHn, Ho, Hn. split; reflexivity.
Qed.

Lemma payrollOfUser_overtime_minutes (userAtts : list PayrollRow.t) :
  Totals.totalOvertimeMinutes (payrollTotals userAtts)
  = sumFrom (Num.ofZ 0) (List.map rowOvertime (weekdayRows userAtts)).
Proof. exact (proj1 (payrollTotals_from userAtts _)). Qed.

Lemma payrollOfUser_night_minutes (userAtts : list PayrollRow.t) :
  Totals.totalNightMinutes (payrollTotals userAtts)
  = sumDoubles (F64.ofZ 0) (List.map rowNight (weekdayRows userAtts)).
Proof. exact (proj2 (payrollTotals_from userAtts _)). Qed.

(** The hourly employee: no salary that counts, so the rate is the
    hourly rate. *)
Lemma effectiveHourlyRate_hourly (user : User.t) :
  salaried user = None -> effectiveHourlyRate user = hourlyRateOf user.
Proof. unfold effectiveHourlyRate. now intros ->. Qed.

(** C5 (amended): weekday overtime pay is tiered on the period's total.
    The overtime minutes of the period's counted weekday records are
    summed; the total's hours go through calculateOvertimePay once, in
    double arithmetic: nothing for hours that are 0 or less, else the
    first 2 hours at 1.34 times the effective hourly rate plus the hours
    beyond 2 at 1.67 times, and the line reports that amount rounded by
    Math.round.  A period whose only record is a weekday with 3 hours of
    overtime, for an employee paid 200 an hour, has overtimePay 870. *)
Theorem overtimePay_tiered_on_period_total
    (periodStart periodEnd : Z) (userId : string) (user : User.t)
    (userAtts : list PayrollRow.t) :
  let line := payrollOfUser periodStart periodEnd userId user userAtts in
  let overtimeMinutes :=
    sumFrom (Num.ofZ 0) (List.map rowOvertime (weekdayRows userAtts)) in
  let hours := F64.div (F64.ofNum overtimeMinutes) (F64.ofZ 60) in
  let rate := effectiveHourlyRate user in
  Totals.totalOvertimeMinutes (payrollTotals userAtts) = overtimeMinutes
  /\ PayrollCalculation.overtimePay line
     = F64.round (calculateOvertimePay hours rate)
  /\ (F64.leb hours (F64.ofZ 0) = true ->
      PayrollCalculation.overtimePay line = F64.ofZ 0)
  /\ (F64.leb hours (F64.ofZ 0) = false ->
      PayrollCalculation.overtimePay line
      = F64.round
          (F64.add
             (F64.mul (F64.mul (F64.min hours (F64.ofZ 2)) rate)
                (F64.ofQ (134 # 100)))
             (F64.mul
                (F64.mul (F64.max (F64.ofZ 0) (F64.sub hours (F64.ofZ 2))) rate)
                (F64.ofQ (167 # 100)))))
  /\ (forall row : PayrollRow.t,
        userAtts = [row] ->
        counted row = true ->
        onWeekend row = false ->
        rowOvertime row = Num.ofZ 180 ->
        salaried user = None ->
        User.hourlyRate user = Some 200%Q ->
        PayrollCalculation.overtimePay line = F64.ofZ 870).
Proof.
  cbv zeta. unfold payrollOfUser, payOf.
  cbn [PayrollCalculation.overtimePay Pay.overtimePay].
  rewrite payrollOfUser_overtime_minutes.
  split; [reflexivity|]. split; [reflexivity|].
  unfold calculateOvertimePay.
  cbn [Arith.leb Arith.ofZ Arith.lit Arith.add Arith.sub Arith.mul Arith.min
       Arith.max F64_Arith].
  split; [|split].
  - intros ->. reflexivity.
  - intros ->. reflexivity.
  - intros row -> C W O Hs Hr. unfold weekdayRows. cbn [List.filter].
    rewrite C, W. cbn [negb andb List.map sumFrom List.fold_left].
    rewrite O, (effectiveHourlyRate_hourly user Hs). unfold hourlyRateOf.
    rewrite Hr. vm_compute. reflexivity.
Qed.

Lemma getMinutes_range (d : Z) : 0 <= Utils.getMinutes tz d < 60.
Proof. unfold Utils.getMinutes. apply Z.mod_pos_bound. lia. Qed.

Lemma same_eq (a b : F64.t) : F64.same a b = true -> a = b.
Proof.
  destruct a as [s1|s1| |s1 m1 e1], b as [s2|s2| |s2 m2 e2]; cbn;
    try discriminate; try reflexivity.
  - intros H. apply Bool.eqb_prop in H. now subst.
  - intros H. apply Bool.eqb_prop in H. now subst.
  - intros H. apply andb_true_iff in H. destruct H as [H He].
    apply andb_true_iff in H. destruct H as [Hs Hm].
    apply Bool.eqb_prop in Hs. apply Pos.eqb_eq in Hm. apply Z.eqb_eq in He.
    now subst.
Qed.

Lemma wholeMinuteRange_In (n : nat) (z : Z) :
  0 <= z < Z.of_nat n -> In z (wholeMinuteRange n).
Proof.
  intros H. unfold wholeMinuteRange. apply List.in_map_iff.
  exists (Z.to_nat z). split; [lia|]. apply List.in_seq. lia.
Qed.

(** On whole minutes the doubles of the night estimate are exact. *)
Lemma whole_minutes_add_up (a m : Z) :
  0 <= a <= 60 -> 0 <= m <= 59 ->
  F64.max (F64.ofZ 0) (F64.add (F64.ofZ 0) (F64.ofZ a)) = F64.ofZ a
  /\ F64.max (F64.ofZ 0) (F64.add (F64.add (F64.ofZ 0) (F64.ofZ a)) (F64.ofZ m))
     = F64.ofZ (a + m).
Proof.
  intros Ha Hm.
  assert (C : wholeMinutesAddUp = true) by (vm_compute; reflexivity).
  unfold wholeMinutesAddUp in C.
  pose proof (proj1 (List.forallb_forall _ _) C a
                (wholeMinuteRange_In 61 a ltac:(lia))) as Ca.
  apply andb_true_iff in Ca. destruct Ca as [C1 C2].
  split; [now apply same_eq|].
  apply same_eq.
  exact (proj1 (List.forallb_forall _ _) C2 m (wholeMinuteRange_In 60 m ltac:(lia))).
Qed.

(** The smaller of a finite double that is not 0 and a double that is
    not below it is the first. *)
Lemma min_of_leb (s : bool) (m : positive) (e : Z) (b : F64.t) :
  F64.leb (S754_finite s m e) b = true ->
  F64.min (S754_finite s m e) b = S754_finite s m e.
Proof.
  unfold F64.leb, SFleb, F64.min.
  destruct (SFcompare (S754_finite s m e) b) as [[| |]|] eqn:C;
    try discriminate; intros _; [|reflexivity].
  destruct b as [s2|s2| |s2 m2 e2]; cbn in C.
  - destruct s; discriminate.
  - destruct s2; discriminate.
  - discriminate.
  - change (Pos.compare_cont Eq m m2) with (Pos.compare m m2) in C.
    destruct s, s2; try discriminate;
      destruct (e ?= e2) eqn:E; try discriminate;
      apply Z.compare_eq in E; subst e2;
      destruct (Pos.compare m m2) eqn:P; try discriminate;
      apply Pos.compare_eq in P; subst m2; reflexivity.
Qed.

Lemma min_of_rest (rest : Z) (b : F64.t) :
  1 <= rest <= 60 ->
  F64.leb (F64.ofZ rest) b = true ->
  F64.min (F64.ofZ rest) b = F64.ofZ rest.
Proof.
  intros Hr.
  assert (C : restIsFinite = true) by (vm_compute; reflexivity).
  unfold restIsFinite in C.
  pose proof (proj1 (List.forallb_forall _ _) C (rest - 1)
                (wholeMinuteRange_In 60 (rest - 1) ltac:(lia))) as Cr.
  cbn beta in Cr. replace (rest - 1 + 1) with rest in Cr by lia.
  destruct (F64.ofZ rest) as [| | |s m e]; try discriminate.
  apply min_of_leb.
Qed.

(** The night estimate of a record with a clock-out, by cases on the two
    clock hours. *)
Lemma calculateNightMinutes_cases (clockIn clockOut : Z) :
  let rest := 60 - Utils.getMinutes tz clockIn in
  let last := Utils.getMinutes tz clockOut in
  let elapsed := F64.div (F64.ofZ (clockOut - clockIn)) (F64.ofZ 60000) in
  let night := calculateNightMinutes clockIn (Some clockOut) in
  (inNightWindow clockIn = false -> inNightWindow clockOut = false ->
   night = F64.ofZ 0)
  /\ (inNightWindow clockIn = false -> inNightWindow clockOut = true ->
      night = F64.ofZ last)
  /\ (inNightWindow clockIn = true -> inNightWindow clockOut = false ->
      night = F64.max (F64.ofZ 0)
                (F64.add (F64.ofZ 0) (F64.min (F64.ofZ rest) elapsed)))
  /\ (inNightWindow clockIn = true -> inNightWindow clockOut = true ->
      night = F64.max (F64.ofZ 0)
                (F64.add (F64.add (F64.ofZ 0) (F64.min (F64.ofZ rest) elapsed))
                   (F64.ofZ last)))
  /\ (inNightWindow clockIn = true -> F64.leb (F64.ofZ rest) elapsed = true ->
      inNightWindow clockOut = false -> night = F64.ofZ rest)
  /\ (inNightWindow clockIn = true -> F64.leb (F64.ofZ rest) elapsed = true ->
      inNightWindow clockOut = true -> night = F64.ofZ (rest + last)).
Proof.
  cbv zeta. unfold inNightWindow, calculateNightMinutes.
  rewrite !Z.geb_leb.
  pose proof (getMinutes_range clockIn) as Hs.
  pose proof (getMinutes_range clockOut) as He.
  destruct (whole_minutes_add_up (60 - Utils.getMinutes tz clockIn)
              (Utils.getMinutes tz clockOut) ltac:(lia) ltac:(lia)) as [Hrest Hboth].
  assert (Hlast' :
            F64.max (F64.ofZ 0)
              (F64.add (F64.ofZ 0) (F64.ofZ (Utils.getMinutes tz clockOut)))
            = F64.ofZ (Utils.getMinutes tz clockOut)).
  { destruct (whole_minutes_add_up (Utils.getMinutes tz clockOut) 0
                ltac:(lia) ltac:(lia)) as [H _]. exact H. }
  repeat split.
  - intros -> ->. reflexivity.
  - intros -> ->. exact Hlast'.
  - intros -> ->. reflexivity.
  - intros -> ->. reflexivity.
  - intros -> Hle ->.
    rewrite (min_of_rest (60 - Utils.getMinutes tz clockIn) _ ltac:(lia) Hle).
    exact Hrest.
  - intros -> Hle ->.
    rewrite (min_of_rest (60 - Utils.getMinutes tz clockIn) _ ltac:(lia) Hle).
    exact Hboth.
Qed.

(** C6 (amended): the night minutes of a record are an estimate from the
    hours of clock-in and clock-out, not the minutes inside the window:
    nothing when neither hour lies in 22:00-06:00; the minutes into the
    clock-out hour when only that hour does; when the clock-in hour
    does, the rest of that hour, capped by the elapsed minutes, plus the
    minutes into the clock-out hour if it lies in the window too.  The
    estimates of the counted weekday records add up, as doubles, to the
    night-shift hours, and the night-shift pay is these hours times the
    fixed allowance of 50, rounded by Math.round and added to the other
    amounts in grossPay, whoever the employee and whatever the rate. *)
Theorem nightShift_weekday_estimate_flat_allowance
    (periodStart periodEnd : Z) (userId : string) (user : User.t)
    (userAtts : list PayrollRow.t) :
  let line := payrollOfUser periodStart periodEnd userId user userAtts in
  let pay := payOf periodStart periodEnd user (payrollTotals userAtts) in
  let nightMinutes :=
    sumDoubles (F64.ofZ 0) (List.map rowNight (weekdayRows userAtts)) in
  let nightShiftHours := F64.div nightMinutes (F64.ofZ 60) in
  PayrollCalculation.nightShiftHours line
  = F64.div (F64.round (F64.mul nightShiftHours (F64.ofZ 100))) (F64.ofZ 100)
  /\ PayrollCalculation.nightShiftPay line
     = F64.round (F64.mul nightShiftHours (F64.ofZ 50))
  /\ PayrollCalculation.grossPay line
     = F64.round
         (F64.add
            (F64.add (F64.add (Pay.basePay pay) (Pay.overtimePay pay))
               (Pay.holidayPay pay))
            (F64.mul nightShiftHours (F64.ofZ 50)))
  /\ (forall other : User.t,
        PayrollCalculation.nightShiftPay
          (payrollOfUser periodStart periodEnd userId other userAtts)
        = PayrollCalculation.nightShiftPay line)
  /\ (forall clockIn : Z, calculateNightMinutes clockIn None = F64.ofZ 0)
  /\ (forall clockIn clockOut : Z,
        let rest := 60 - Utils.getMinutes tz clockIn in
        let last := Utils.getMinutes tz clockOut in
        let elapsed := F64.div (F64.ofZ (clockOut - clockIn)) (F64.ofZ 60000) in
        let night := calculateNightMinutes clockIn (Some clockOut) in
        (inNightWindow clockIn = false -> inNightWindow clockOut = false ->
         night = F64.ofZ 0)
        /\ (inNightWindow clockIn = false -> inNightWindow clockOut = true ->
            night = F64.ofZ last)
        /\ (inNightWindow clockIn = true -> inNightWindow clockOut = false ->
            night = F64.max (F64.ofZ 0)
                      (F64.add (F64.ofZ 0) (F64.min (F64.ofZ rest) elapsed)))
        /\ (inNightWindow clockIn = true -> inNightWindow clockOut = true ->
            night = F64.max (F64.ofZ 0)
                      (F64.add
                         (F64.add (F64.ofZ 0) (F64.min (F64.ofZ rest) elapsed))
                         (F64.ofZ last)))
        /\ (inNightWindow clockIn = true ->
            F64.leb (F64.ofZ rest) elapsed = true ->
            inNightWindow clockOut = false -> night = F64.ofZ rest)
        /\ (inNightWindow clockIn = true ->
            F64.leb (F64.ofZ rest) elapsed = true ->
            inNightWindow clockOut = true -> night = F64.ofZ (rest + last))).
Proof.
  cbv zeta. unfold payrollOfUser, payOf, round2.
  cbn [PayrollCalculation.nightShiftHours PayrollCalculation.nightShiftPay
       PayrollCalculation.grossPay Pay.nightShiftPay Pay.basePay
       Pay.overtimePay Pay.holidayPay].
  rewrite payrollOfUser_night_minutes.
  split; [reflexivity|]. split; [reflexivity|]. split; [reflexivity|].
  split; [reflexivity|]. split; [reflexivity|].
  intros clockIn clockOut. apply calculateNightMinutes_cases.
Qed.

(** [Math.round] of a double [(-1)^s * m * 2^e] that is not an integer
    by its exponent: the integer [n] with [n - 1/2 <= x < n + 1/2]. *)
Lemma round_nearest (s : bool) (m : positive) (e : Z) :
  e < 0 ->
  exists n : Z,
    F64.round (S754_finite s m e) = (if n =? 0 then S754_zero s else F64.ofZ n)
    /\ (2 * n - 1) * 2 ^ (- e) <= 2 * cond_Zopp s (Zpos m) < (2 * n + 1) * 2 ^ (- e).
Proof.
  intros He. unfold F64.round.
  replace (0 <=? e) with false by (symmetry; apply Z.leb_gt; exact He).
  cbv zeta. eexists. split; [reflexivity|].
  set (v := cond_Zopp s (Zpos m)).
  assert (P : 2 ^ (- e) = 2 * 2 ^ (- e - 1)).
  { replace (- e) with (Z.succ (- e - 1)) at 1 by lia.
    rewrite Z.pow_succ_r by lia. reflexivity. }
  assert (Q1 : 0 < 2 ^ (- e - 1)) by (apply Z.pow_pos_nonneg; lia).
  set (h := 2 ^ (- e - 1)) in *. rewrite P.
  pose proof (Z.div_mod (v + h) (2 * h) ltac:(lia)) as D.
  pose proof (Z.mod_pos_bound (v + h) (2 * h) ltac:(lia)) as B.
  set (n := (v + h) / (2 * h)) in *. nia.
Qed.

(** C7 (amended): the line item's grossPay is the Math.round of the sum
    of the four amounts before they are rounded, added as doubles in
    the order base, overtime, holiday, night, while each reported
    component is the Math.round of its own amount, the nearest integer
    with halves upwards; grossPay is therefore not always the sum of the
    four reported components. *)
Theorem grossPay_rounds_the_unrounded_sum
    (periodStart periodEnd : Z) (userId : string) (user : User.t)
    (userAtts : list PayrollRow.t) :
  let line := payrollOfUser periodStart periodEnd userId user userAtts in
  let pay := payOf periodStart periodEnd user (payrollTotals userAtts) in
  PayrollCalculation.basePay line = F64.round (Pay.basePay pay)
  /\ PayrollCalculation.overtimePay line = F64.round (Pay.overtimePay pay)
  /\ PayrollCalculation.holidayPay line = F64.round (Pay.holidayPay pay)
  /\ PayrollCalculation.nightShiftPay line = F64.round (Pay.nightShiftPay pay)
  /\ PayrollCalculation.grossPay line
     = F64.round
         (F64.add
            (F64.add (F64.add (Pay.basePay pay) (Pay.overtimePay pay))
               (Pay.holidayPay pay))
            (Pay.nightShiftPay pay))
  /\ (forall (s : bool) (m : positive) (e : Z),
        e < 0 ->
        exists n : Z,
          F64.round (S754_finite s m e)
          = (if n =? 0 then S754_zero s else F64.ofZ n)
          /\ (2 * n - 1) * 2 ^ (- e) <= 2 * cond_Zopp s (Zpos m)
             < (2 * n + 1) * 2 ^ (- e)).
Proof.
  cbv zeta. unfold payrollOfUser.
  cbn [PayrollCalculation.basePay PayrollCalculation.overtimePay
       PayrollCalculation.holidayPay PayrollCalculation.nightShiftPay
       PayrollCalculation.grossPay].
  repeat (split; [reflexivity|]).
  apply round_nearest.
Qed.





Lemma filterMap_In {A B : Type} (f : A -> option B) (l : list A) (y : B) :
  In y (filterMap f l) -> exists x, In x l /\ f x = Some y.
Proof.
  induction l as [|a l IH]; cbn; [contradiction|].
  destruct (f a) as [b|] eqn:F.
  - intros [<-|H].
    + exists a. split; [now left | exact F].
    + destruct (IH H) as (x & Hx & Fx). exists x. split; [now right | exact Fx].
  - intros H. destruct (IH H) as (x & Hx & Fx). exists x. split; [now right | exact Fx].
Qed.

(** Every line item [calculatePayroll] returns is [payrollOfUser] of one
    employee's rows; the calculation reads storage and writes nothing. *)
Lemma calculatePayroll_lines (storeId : string) (periodStart periodEnd : Z)
    (userIds : option (list string)) (w : World.t) :
  exists lines,
    calculatePayroll storeId periodStart periodEnd userIds w = Returned lines w
    /\ forall line, In line lines ->
         exists userId user userAtts,
           line = payrollOfUser periodStart periodEnd userId user userAtts.
Proof.
  unfold calculatePayroll, bind, getDb, ret. eexists. split; [reflexivity|].
  intros line Hin. apply filterMap_In in Hin.
  destruct Hin as ([userId userAtts] & _ & H).
  destruct userAtts as [|first rest]; [discriminate|].
  injection H as <-. eauto.
Qed.

(* ------------------------------------------------------------------ *)
(** ** More on the clock state machine *)

(** X1: what getAvailableActions lists for an action is what
    canTransition answers for it, verdict and reason, and it lists an
    action exactly when the table has an entry for it from the current
    state. *)
Theorem getAvailableActions_agrees_with_canTransition (m : ClockStateMachine.t) :
  (forall item,
      In item (ClockStateMachine.getAvailableActions m) ->
      ClockStateMachine.Available.allowed item
      = Verdict.allowed
          (ClockStateMachine.canTransition m
             (ClockStateMachine.Available.action item))
      /\ ClockStateMachine.Available.reason item
         = Verdict.reason
             (ClockStateMachine.canTransition m
                (ClockStateMachine.Available.action item)))
  /\ (forall action,
        List.existsb
          (fun item =>
             ClockAction.eqb (ClockStateMachine.Available.action item) action)
          (ClockStateMachine.getAvailableActions m)
        = match ClockStateMachine.findTransition (ClockStateMachine.state m) action with
          | Some _ => true
          | None => false
          end).
Proof.
  destruct m as [s ctx]. split.
  - intros item Hin.
    destruct s; cbn in Hin;
      repeat (destruct Hin as [<-|Hin]; [split; reflexivity|]); contradiction.
  - intros action. destruct s, action; reflexivity.
Qed.

(** X2: an action that canTransition allows has a next state, and the
    move is one of the seven of the table. *)
Theorem canTransition_allowed_has_next_state
    (m : ClockStateMachine.t) (action : ClockAction.t) :
  Verdict.allowed (ClockStateMachine.canTransition m action) = true ->
  exists next,
    ClockStateMachine.getNextState m action = Some next
    /\ In (ClockStateMachine.state m, action, next) transitionTriples.
Proof.
  destruct m as [s ctx].
  unfold ClockStateMachine.canTransition, ClockStateMachine.getNextState.
  cbn [ClockStateMachine.state].
  destruct s, action; cbn; intros H; try discriminate;
    eexists; (split; [reflexivity|]); cbn; tauto.
Qed.

(* ------------------------------------------------------------------ *)
(** ** More on the work-hours calculator *)

Lemma afterReads_zero (w : World.t) : afterReads w 0 = w.
Proof.
  destruct w. unfold afterReads, World.atRead. cbn. now rewrite Nat.add_0_r.
Qed.

Lemma afterReads_succ (w : World.t) (n : nat) :
  afterReads (World.atRead w (S (World.reads w))) n = afterReads w (S n).
Proof.
  unfold afterReads, World.atRead. cbn. now rewrite Nat.add_succ_r.
Qed.

Lemma breakLoop_computes (breaks : list BreakInput.t) :
  forall (acc : BreakTotals) (w : World.t),
    breakLoop breaks acc w
    = Returned
        (mkBreakTotals
           (sumBreakMinutes acc
            + sumZ (durationsFrom (World.clock w) (World.reads w) breaks))
           (sawUnendedBreak acc || List.existsb isOpenInput breaks)
           (detailsSoFar acc
            ++ detailsOf breaks
                 (durationsFrom (World.clock w) (World.reads w) breaks)))
        (afterReads w (openCount breaks)).
Proof.
  induction breaks as [|brk rest IH]; intros acc w.
  - cbn. unfold ret. rewrite afterReads_zero, Z.add_0_r, orb_false_r, app_nil_r.
    now destruct acc.
  - cbn [breakLoop]. unfold bind at 1. unfold breakStep, openCount, isOpenInput.
    cbn [List.filter List.existsb durationsFrom detailsOf].
    destruct (BreakInput.endTime brk) as [e|] eqn:E.
    + unfold ret at 1. rewrite IH.
      cbn [sumBreakMinutes sawUnendedBreak detailsSoFar sumZ List.fold_right].
      rewrite <- app_assoc. cbn [app orb]. f_equal. f_equal. unfold sumZ. lia.
    + unfold bind at 1, newDate, ret at 1. rewrite IH.
      cbn [sumBreakMinutes sawUnendedBreak detailsSoFar sumZ List.fold_right
           List.length].
      unfold World.atRead at 1 2 3 4. cbn [World.clock World.reads].
      rewrite <- app_assoc, orb_true_r. cbn [app orb].
      fold (World.atRead w (S (World.reads w))). rewrite afterReads_succ.
      f_equal. f_equal. unfold sumZ. lia.
Qed.

(** The calculator run in [w]: the world it leaves and the parts of the
    result that come from the loop and from the checks. *)
Lemma calculateWorkHours_runs (input : WorkHoursInput.t) (w : World.t) :
  let breaks := WorkHoursInput.breaks input in
  let durations := durationsFrom (World.clock w) (World.reads w) breaks in
  let shiftType := WorkHoursInput.shiftType input in
  exists r,
    calculateWorkHours input w = Returned r (afterReads w (openCount breaks))
    /\ WorkHoursResult.breakMinutes r = sumZ durations
    /\ WorkHoursResult.breakDetails r = detailsOf breaks durations
    /\ WorkHoursResult.hasUnendedBreak r = List.existsb isOpenInput breaks
    /\ TimingAnomalies.mk
         (WorkHoursResult.earlyClockIn r) (WorkHoursResult.lateClockIn r)
         (WorkHoursResult.earlyClockOut r) (WorkHoursResult.lateClockOut r)
       = calculateTimingAnomalies (WorkHoursInput.clockIn input)
           (WorkHoursInput.clockOut input) shiftType
    /\ WorkHoursResult.exceedsMaxBreakTime r
       = Num.gtb (Num.ofZ (WorkHoursResult.breakMinutes r))
           (Num.ofZ (match shiftType with
                     | Some st => ShiftType.breakDuration st
                     | None => 30
                     end) * Fin (3 # 2))%num
    /\ WorkHoursResult.requiresReview r
       = WorkHoursResult.hasUnendedBreak r
         || WorkHoursResult.exceedsMaxBreakTime r
         || Num.gtb (WorkHoursResult.lateClockIn r) (Num.ofZ 15)
         || Num.gtb (WorkHoursResult.earlyClockOut r) (Num.ofZ 0)
         || Num.gtb (WorkHoursResult.overtimeMinutes r) (Num.ofZ 120).
Proof.
  cbv zeta. unfold calculateWorkHours, bind. rewrite breakLoop_computes.
  unfold ret. cbv zeta.
  cbn [sumBreakMinutes sawUnendedBreak detailsSoFar orb app].
  rewrite Z.add_0_l.
  destruct (WorkHoursInput.shiftType input) as [st|];
    [destruct (Num.gtb _ (calculateScheduledMinutes st))| ];
    (eexists; split; [reflexivity|];
     cbn [WorkHoursResult.breakMinutes WorkHoursResult.breakDetails
          WorkHoursResult.hasUnendedBreak WorkHoursResult.earlyClockIn
          WorkHoursResult.lateClockIn WorkHoursResult.earlyClockOut
          WorkHoursResult.lateClockOut WorkHoursResult.exceedsMaxBreakTime
          WorkHoursResult.requiresReview WorkHoursResult.overtimeMinutes];
     repeat split; try reflexivity;
     now destruct (calculateTimingAnomalies _ _ _)).
Qed.

Lemma detailsOf_durations (clock : nat -> Z) (breaks : list BreakInput.t) :
  forall k,
    List.Forall2 reportsBreak breaks
      (detailsOf breaks (durationsFrom clock k breaks))
    /\ List.map BreakDetail.durationMinutes
         (detailsOf breaks (durationsFrom clock k breaks))
       = durationsFrom clock k breaks.
Proof.
  induction breaks as [|brk rest IH]; intros k; [split; constructor|].
  cbn [durationsFrom]. destruct (BreakInput.endTime brk) as [e|] eqn:E.
  - destruct (IH k) as [F M]. cbn [detailsOf List.map BreakDetail.durationMinutes].
    rewrite M. split; [|reflexivity]. constructor; [|exact F].
    unfold reportsBreak. cbn. repeat split; intros; congruence.
  - destruct (IH (S k)) as [F M]. cbn [detailsOf List.map BreakDetail.durationMinutes].
    rewrite M. split; [|reflexivity]. constructor; [|exact F].
    unfold reportsBreak. cbn. repeat split; intros; congruence.
Qed.

(** X3: the result lists one detail per break, in order, each with its
    break's start, end and type and, for an ended break, the floored
    minutes from start to end; breakMinutes is the sum of the listed
    durations. *)
Theorem calculateWorkHours_break_details (input : WorkHoursInput.t) (w : World.t) :
  exists r w',
    calculateWorkHours input w = Returned r w'
    /\ List.Forall2 reportsBreak (WorkHoursInput.breaks input)
         (WorkHoursResult.breakDetails r)
    /\ WorkHoursResult.breakMinutes r
       = sumZ (List.map BreakDetail.durationMinutes (WorkHoursResult.breakDetails r)).
Proof.
  destruct (calculateWorkHours_runs input w) as (r & E & B & D & _).
  destruct (detailsOf_durations (World.clock w) (WorkHoursInput.breaks input)
              (World.reads w)) as [F M].
  exists r, (afterReads w (openCount (WorkHoursInput.breaks input))).
  split; [exact E|]. rewrite D, B, M. split; [exact F | reflexivity].
Qed.

Lemma durationsFrom_closed (clock1 clock2 : nat -> Z) (breaks : list BreakInput.t) :
  List.existsb isOpenInput breaks = false ->
  forall k1 k2, durationsFrom clock1 k1 breaks = durationsFrom clock2 k2 breaks.
Proof.
  induction breaks as [|brk rest IH]; intros H k1 k2; [reflexivity|].
  cbn in H. apply orb_false_iff in H. destruct H as [Hb Hr].
  unfold isOpenInput in Hb. cbn [durationsFrom].
  destruct (BreakInput.endTime brk); [|discriminate].
  f_equal. now apply IH.
Qed.

Lemma openCount_closed (breaks : list BreakInput.t) :
  List.existsb isOpenInput breaks = false -> openCount breaks = 0%nat.
Proof.
  unfold openCount. induction breaks as [|brk rest IH]; [reflexivity|].
  cbn. intros H. apply orb_false_iff in H. destruct H as [-> Hr]. now apply IH.
Qed.

Lemma calculateWorkHours_same_durations (input : WorkHoursInput.t) (w1 w2 : World.t) :
  durationsFrom (World.clock w1) (World.reads w1) (WorkHoursInput.breaks input)
  = durationsFrom (World.clock w2) (World.reads w2) (WorkHoursInput.breaks input) ->
  exists r,
    calculateWorkHours input w1
    = Returned r (afterReads w1 (openCount (WorkHoursInput.breaks input)))
    /\ calculateWorkHours input w2
       = Returned r (afterReads w2 (openCount (WorkHoursInput.breaks input))).
Proof.
  intros H. unfold calculateWorkHours, bind. rewrite !breakLoop_computes, H.
  unfold ret. cbv zeta.
  destruct (WorkHoursInput.shiftType input) as [st|];
    [destruct (Num.gtb _ (calculateScheduledMinutes st))|];
    eexists; split; reflexivity.
Qed.

(** X4: the calculator reads the clock once for each open break and does
    nothing else to the world; when every break is ended it reads nothing,
    and the result is the same whatever the world. *)
Theorem calculateWorkHours_reads_clock_for_open_breaks_only
    (input : WorkHoursInput.t) (w : World.t) :
  (exists r,
     calculateWorkHours input w
     = Returned r (afterReads w (openCount (WorkHoursInput.breaks input))))
  /\ (List.existsb isOpenInput (WorkHoursInput.breaks input) = false ->
      exists r,
        forall w2 : World.t, calculateWorkHours input w2 = Returned r w2).
Proof.
  split.
  - destruct (calculateWorkHours_runs input w) as (r & E & _). now exists r.
  - intros Hclosed.
    destruct (calculateWorkHours_runs input w) as (r & E & _).
    exists r. intros w2.
    destruct (calculateWorkHours_same_durations input w w2
                (durationsFrom_closed _ _ _ Hclosed _ _)) as (r' & E1 & E2).
    rewrite E in E1. injection E1 as <-.
    rewrite E2, (openCount_closed _ Hclosed). now rewrite afterReads_zero.
Qed.

(** X5: overtimeMinutes is always a number and never negative, and it is
    positive only when netWorkMinutes exceeds the scheduled minutes of a
    supplied shift. *)
Theorem calculateWorkHours_overtime_never_negative
    (input : WorkHoursInput.t) (w : World.t) :
  exists r w' q,
    calculateWorkHours input w = Returned r w'
    /\ WorkHoursResult.overtimeMinutes r = Fin q
    /\ (0 <= q)%Q
    /\ ((0 < q)%Q ->
        exists st,
          WorkHoursInput.shiftType input = Some st
          /\ Num.gtb (Num.ofZ (WorkHoursResult.netWorkMinutes r))
                     (calculateScheduledMinutes st) = true).
Proof.
  destruct (calculateWorkHours_returns input w) as (r & w' & E & _ & _ & _ & _ & O).
  destruct (WorkHoursInput.shiftType input) as [st|].
  - destruct (Num.gtb _ (calculateScheduledMinutes st)) eqn:G.
    + destruct O as [_ HO].
      destruct (gtb_true_inv _ _ G) as (x & y & Hx & Hy & Hlt).
      rewrite Hx, Hy in HO. cbn in HO.
      exists r, w', (x - y)%Q. split; [exact E|]. split; [exact HO|].
      split; [lra|]. intros _. exists st. now split.
    + destruct O as [_ HO]. exists r, w', 0%Q.
      split; [exact E|]. split; [exact HO|].
      split; [apply Qle_refl|]. intros H. exfalso. lra.
  - destruct O as [_ HO]. exists r, w', 0%Q.
    split; [exact E|]. split; [exact HO|].
    split; [apply Qle_refl|]. intros H. exfalso. lra.
Qed.

(** X6: with a shift whose scheduled minutes are a number,
    regularMinutes is the smaller of netWorkMinutes and the scheduled
    minutes and overtimeMinutes is their difference where it is
    positive, else 0. *)
Theorem calculateWorkHours_regular_is_min_overtime_is_max
    (input : WorkHoursInput.t) (w : World.t) (st : ShiftType.t) (scheduled : Q) :
  WorkHoursInput.shiftType input = Some st ->
  calculateScheduledMinutes st = Fin scheduled ->
  exists r w',
    calculateWorkHours input w = Returned r w'
    /\ (WorkHoursResult.regularMinutes r
        === Fin (Qmin (inject_Z (WorkHoursResult.netWorkMinutes r)) scheduled))%num
    /\ (WorkHoursResult.overtimeMinutes r
        === Fin (Qmax 0 (inject_Z (WorkHoursResult.netWorkMinutes r) - scheduled)))%num.
Proof.
  intros Hst Hs.
  destruct (calculateWorkHours_returns input w) as (r & w' & E & _ & _ & _ & _ & O).
  exists r, w'. split; [exact E|].
  rewrite Hst, Hs in O. unfold Num.gtb, Num.ofZ in O.
  destruct (Qle_bool _ scheduled) eqn:L; cbn [negb] in O; destruct O as [-> ->].
  - apply Qle_bool_iff in L. unfold Num.ofZ. cbn. split.
    + symmetry. apply Q.min_l. exact L.
    + symmetry. apply Q.max_l. change (inject_Z 0) with 0%Q. lra.
  - assert (Hlt : (scheduled < inject_Z (WorkHoursResult.netWorkMinutes r))%Q).
    { apply Qnot_le_lt. intros C. apply Qle_bool_iff in C. congruence. }
    cbn. split.
    + symmetry. apply Q.min_r. lra.
    + symmetry. apply Q.max_r. lra.
Qed.

Lemma getHours_whole_days (d k : Z) :
  Utils.getHours tz (d + k * 86400000) = Utils.getHours tz d.
Proof.
  unfold Utils.getHours, Utils.localMs.
  replace (d + k * 86400000 + tz * 60000)
    with (d + tz * 60000 + (k * 24) * 3600000) by lia.
  rewrite Z.div_add by lia. apply Z_mod_plus_full.
Qed.

Lemma getMinutes_whole_days (d k : Z) :
  Utils.getMinutes tz (d + k * 86400000) = Utils.getMinutes tz d.
Proof.
  unfold Utils.getMinutes, Utils.localMs.
  replace (d + k * 86400000 + tz * 60000)
    with (d + tz * 60000 + (k * 1440) * 60000) by lia.
  rewrite Z.div_add by lia.
  replace (k * 1440) with ((k * 24) * 60) by lia. apply Z_mod_plus_full.
Qed.

(** X7: the timing anomalies look at the time of day only: moving the
    clock-in or the clock-out by whole days changes none of them; and
    against a shift whose start and end are numbers, each pair (early,
    late) is one zero and one distance: never both are positive, and
    their difference is the scheduled minute of the day minus the actual
    one. *)
Theorem calculateTimingAnomalies_time_of_day_only
    (clockIn clockOut : Z) (shiftType : option ShiftType.t) :
  (forall j k : Z,
      calculateTimingAnomalies (clockIn + j * 86400000) (clockOut + k * 86400000)
        shiftType
      = calculateTimingAnomalies clockIn clockOut shiftType)
  /\ (forall st a b,
        shiftType = Some st ->
        Utils.minutesOfDay (Utils.parseTimeString Number (ShiftType.startTime st))
        = Fin a ->
        Utils.minutesOfDay (Utils.parseTimeString Number (ShiftType.endTime st))
        = Fin b ->
        let t := calculateTimingAnomalies clockIn clockOut shiftType in
        let actualIn :=
          inject_Z (Utils.getHours tz clockIn * 60 + Utils.getMinutes tz clockIn) in
        let actualOut :=
          inject_Z (Utils.getHours tz clockOut * 60 + Utils.getMinutes tz clockOut) in
        exists earlyIn lateIn earlyOut lateOut : Q,
          TimingAnomalies.earlyClockIn t = Fin earlyIn
          /\ TimingAnomalies.lateClockIn t = Fin lateIn
          /\ TimingAnomalies.earlyClockOut t = Fin earlyOut
          /\ TimingAnomalies.lateClockOut t = Fin lateOut
          /\ (0 <= earlyIn /\ 0 <= lateIn /\ 0 <= earlyOut /\ 0 <= lateOut)%Q
          /\ (earlyIn == 0 \/ lateIn == 0)%Q
          /\ (earlyOut == 0 \/ lateOut == 0)%Q
          /\ (earlyIn - lateIn == a - actualIn)%Q
          /\ (earlyOut - lateOut == b - actualOut)%Q).
Proof.
  split.
  - intros j k. unfold calculateTimingAnomalies.
    now rewrite !getHours_whole_days, !getMinutes_whole_days.
  - intros st a b -> Ha Hb. cbv zeta. unfold calculateTimingAnomalies.
    rewrite Ha, Hb. unfold Num.ofZ.
    cbn [TimingAnomalies.earlyClockIn TimingAnomalies.lateClockIn
         TimingAnomalies.earlyClockOut TimingAnomalies.lateClockOut
         Num.max Num.sub Num.lift2].
    set (ci := inject_Z (Utils.getHours tz clockIn * 60 + Utils.getMinutes tz clockIn)).
    set (co := inject_Z (Utils.getHours tz clockOut * 60 + Utils.getMinutes tz clockOut)).
    change (inject_Z 0) with 0%Q.
    eexists _, _, _, _. repeat (split; [reflexivity|]).
    assert (M : forall x : Q,
               (0 <= Qmax 0 x /\ 0 <= Qmax 0 (- x)
                /\ (Qmax 0 x == 0 \/ Qmax 0 (- x) == 0)
                /\ Qmax 0 x - Qmax 0 (- x) == x)%Q).
    { intros x. destruct (Qlt_le_dec x 0) as [N|P].
      - rewrite (Q.max_l 0 x) by lra. rewrite (Q.max_r 0 (- x)) by lra.
        repeat split; try lra; now left.
      - rewrite (Q.max_r 0 x) by lra. rewrite (Q.max_l 0 (- x)) by lra.
        repeat split; try lra; now right. }
    assert (Ein : (ci - a == - (a - ci))%Q) by ring.
    assert (Eout : (co - b == - (b - co))%Q) by ring.
    rewrite Ein, Eout.
    destruct (M (a - ci)%Q) as (I1 & I2 & I3 & I4).
    destruct (M (b - co)%Q) as (O1 & O2 & O3 & O4).
    repeat split; assumption.
Qed.

Lemma gtb_three_halves (breakMinutes maxBreakMinutes : Z) :
  Num.gtb (Num.ofZ breakMinutes) (Num.ofZ maxBreakMinutes * Fin (3 # 2))%num
  = (3 * maxBreakMinutes <? 2 * breakMinutes).
Proof.
  unfold Num.gtb, Num.ofZ. cbn [Num.mul Num.lift2].
  destruct (Qle_bool _ _) eqn:L; cbn [negb]; symmetry.
  - apply Qle_bool_iff in L. apply Z.ltb_ge.
    assert (H : (inject_Z (2 * breakMinutes) <= inject_Z (3 * maxBreakMinutes))%Q).
    { rewrite !inject_Z_mult. change (inject_Z 2) with 2%Q.
      change (inject_Z 3) with 3%Q. lra. }
    now rewrite <- Zle_Qle in H.
  - apply Z.ltb_lt. apply Z.nle_gt. intros C.
    assert (H : Qle_bool (inject_Z breakMinutes) (inject_Z maxBreakMinutes * (3 # 2)) = true).
    { apply Qle_bool_iff. rewrite Zle_Qle, !inject_Z_mult in C.
      change (inject_Z 2) with 2%Q in C. change (inject_Z 3) with 3%Q in C. lra. }
    congruence.
Qed.

(** X8: without a shift definition nothing but the breaks can ask for
    review: requiresReview is set exactly when a break is open or the
    break minutes exceed 45, all net minutes are regular, and overtime and
    the four timing anomalies are 0. *)
Theorem calculateWorkHours_without_shift (input : WorkHoursInput.t) (w : World.t) :
  WorkHoursInput.shiftType input = None ->
  exists r w',
    calculateWorkHours input w = Returned r w'
    /\ WorkHoursResult.requiresReview r
       = WorkHoursResult.hasUnendedBreak r
         || (45 <? WorkHoursResult.breakMinutes r)
    /\ WorkHoursResult.regularMinutes r = Num.ofZ (WorkHoursResult.netWorkMinutes r)
    /\ WorkHoursResult.overtimeMinutes r = Num.ofZ 0
    /\ WorkHoursResult.earlyClockIn r = Num.ofZ 0
    /\ WorkHoursResult.lateClockIn r = Num.ofZ 0
    /\ WorkHoursResult.earlyClockOut r = Num.ofZ 0
    /\ WorkHoursResult.lateClockOut r = Num.ofZ 0.
Proof.
  intros Hno.
  destruct (calculateWorkHours_returns input w) as (r & w' & E & _ & _ & _ & _ & O).
  destruct (calculateWorkHours_runs input w) as (r' & E' & _ & _ & _ & A & X & R).
  cbv zeta in *. rewrite E in E'. injection E' as <- _.
  rewrite Hno in O, A, X. destruct O as [HR HO].
  cbn [calculateTimingAnomalies] in A. injection A as A1 A2 A3 A4.
  exists r, w'. split; [exact E|].
  rewrite R, X, HO, A2, A3, gtb_three_halves.
  repeat split; try assumption.
  replace (3 * 30 <? 2 * WorkHoursResult.breakMinutes r)
    with (45 <? WorkHoursResult.breakMinutes r).
  - cbn. now rewrite !orb_false_r.
  - destruct (45 <? _) eqn:C; symmetry.
    + apply Z.ltb_lt in C. apply Z.ltb_lt. lia.
    + apply Z.ltb_ge in C. apply Z.ltb_ge. lia.
Qed.

(** X9: the two computations of a shift's scheduled minutes differ: for a
    shift that is not split, the calculator's scheduled minutes are the
    payroll's scheduled minutes less the expected break, so with a break
    budget the overtime counted at clock-out is at least the overtime the
    payroll counts for the same net minutes. *)
Theorem calculateScheduledMinutes_is_payroll_less_break (st : ShiftType.t) :
  ShiftType.isSplit st = false ->
  calculateScheduledMinutes st
  = (getScheduledMinutes st - Num.ofZ (ShiftType.breakDuration st))%num
  /\ (forall (g : Q) (net : Z),
        getScheduledMinutes st = Fin g ->
        0 <= ShiftType.breakDuration st ->
        exists s,
          calculateScheduledMinutes st = Fin s
          /\ (Qmax 0 (inject_Z net - g) <= Qmax 0 (inject_Z net - s))%Q).
Proof.
  intros Hsplit.
  assert (Heq : calculateScheduledMinutes st
                = (getScheduledMinutes st - Num.ofZ (ShiftType.breakDuration st))%num).
  { unfold calculateScheduledMinutes, getScheduledMinutes, Utils.minutesOfDay.
    rewrite Hsplit. cbn [andb].
    destruct (Utils.parseTimeString Number (ShiftType.startTime st)) as [sh sm].
    destruct (Utils.parseTimeString Number (ShiftType.endTime st)) as [eh em].
    cbn [fst snd]. reflexivity. }
  split; [exact Heq|].
  intros g net Hg Hbd. rewrite Heq, Hg. unfold Num.ofZ. cbn.
  eexists. split; [reflexivity|].
  assert (Hq : (0 <= inject_Z (ShiftType.breakDuration st))%Q).
  { change 0%Q with (inject_Z 0). now rewrite <- Zle_Qle. }
  apply Q.max_le_compat; lra.
Qed.

(* ------------------------------------------------------------------ *)
(** ** The time utilities *)

(** X10: startOfDay and endOfDay bracket their argument within one local
    day of 86400000 milliseconds, at 00:00 local time; taking the start
    of day again, or of the end of day, gives the same start. *)
Theorem startOfDay_endOfDay_bracket_the_day (d : Z) :
  Utils.startOfDay tz d <= d <= Utils.endOfDay tz d
  /\ Utils.endOfDay tz d = Utils.startOfDay tz d + 86400000 - 1
  /\ Utils.startOfDay tz (Utils.startOfDay tz d) = Utils.startOfDay tz d
  /\ Utils.startOfDay tz (Utils.endOfDay tz d) = Utils.startOfDay tz d
  /\ Utils.getHours tz (Utils.startOfDay tz d) = 0
  /\ Utils.getMinutes tz (Utils.startOfDay tz d) = 0.
Proof.
  unfold Utils.endOfDay, Utils.startOfDay, Utils.getHours, Utils.getMinutes,
    Utils.localDays, Utils.localMs.
  set (L := d + tz * 60000).
  assert (HL : d = L - tz * 60000) by (unfold L; lia).
  assert (Hq1 : (L / 86400000 * 86400000 - tz * 60000 + tz * 60000) / 86400000
                = L / 86400000).
  { replace (L / 86400000 * 86400000 - tz * 60000 + tz * 60000)
      with (L / 86400000 * 86400000) by lia.
    apply Z.div_mul. lia. }
  assert (Hq2 : (L / 86400000 * 86400000 - tz * 60000 + 86399999 + tz * 60000)
                / 86400000 = L / 86400000).
  { replace (L / 86400000 * 86400000 - tz * 60000 + 86399999 + tz * 60000)
      with (86399999 + L / 86400000 * 86400000) by lia.
    rewrite Z.div_add by lia. reflexivity. }
  repeat split.
  - pose proof (Z.mul_div_le L 86400000). lia.
  - pose proof (Z.mod_pos_bound L 86400000).
    pose proof (Z.div_mod L 86400000). lia.
  - lia.
  - now rewrite Hq1.
  - now rewrite Hq2.
  - replace (L / 86400000 * 86400000 - tz * 60000 + tz * 60000)
      with ((L / 86400000 * 24) * 3600000) by lia.
    rewrite Z.div_mul by lia. apply Z.mod_mul. lia.
  - replace (L / 86400000 * 86400000 - tz * 60000 + tz * 60000)
      with ((L / 86400000 * 1440) * 60000) by lia.
    rewrite Z.div_mul by lia.
    replace (L / 86400000 * 1440) with ((L / 86400000 * 24) * 60) by lia.
    apply Z.mod_mul. lia.
Qed.

(** X11: differenceInMinutes floors.  It is exact on whole minutes; in
    one direction and back it adds up to 0 on whole minutes and to -1
    otherwise; and the differences over two adjoining intervals add up to
    the difference over the whole, or to one minute less. *)
Theorem differenceInMinutes_floors (a b c : Z) :
  (forall k, Utils.differenceInMinutes (b + k * 60000) b = k)
  /\ (Utils.differenceInMinutes a b + Utils.differenceInMinutes b a
      = if (a - b) mod 60000 =? 0 then 0 else -1)
  /\ Utils.differenceInMinutes c b + Utils.differenceInMinutes b a
     <= Utils.differenceInMinutes c a
     <= Utils.differenceInMinutes c b + Utils.differenceInMinutes b a + 1.
Proof.
  unfold Utils.differenceInMinutes. change (1000 * 60) with 60000.
  split; [|split].
  - intros k. replace (b + k * 60000 - b) with (k * 60000) by lia.
    apply Z.div_mul. lia.
  - destruct ((a - b) mod 60000 =? 0) eqn:M.
    + apply Z.eqb_eq in M. Z.div_mod_to_equations. lia.
    + apply Z.eqb_neq in M. Z.div_mod_to_equations. lia.
  - Z.div_mod_to_equations. lia.
Qed.

Lemma split_noColon (s : string) : noColon s -> Utils.split ":" s = [s].
Proof.
  unfold noColon. induction s as [|c rest IH]; intros H; [reflexivity|].
  cbn [Utils.split].
  destruct (Ascii.eqb c ":") eqn:E.
  - apply Ascii.eqb_eq in E. exfalso. apply (H c); [now left | exact E].
  - rewrite IH; [reflexivity|]. intros c' Hc'. apply H. now right.
Qed.

Lemma digitChar_value (d : Z) :
  0 <= d <= 9 ->
  Utils.digitValue (digitChar d) = Some d /\ Ascii.eqb (digitChar d) ":" = false.
Proof.
  intros H.
  assert (C : d = 0 \/ d = 1 \/ d = 2 \/ d = 3 \/ d = 4 \/ d = 5 \/ d = 6
              \/ d = 7 \/ d = 8 \/ d = 9) by lia.
  repeat (destruct C as [->|C]; [split; reflexivity|]). subst. split; reflexivity.
Qed.

(** X12: parseTimeString splits at the colon and converts the pieces: a
    string without a colon has no minutes (NaN, so the scheduled minutes
    of a shift starting at such a time are NaN), and on two digits, a
    colon and two digits the digit conversion gives the two values,
    whatever their range. *)
Theorem parseTimeString_pieces :
  (forall s, noColon s -> Utils.parseTimeString Number s = (Number s, NaN))
  /\ (forall st, noColon (ShiftType.startTime st) ->
        calculateScheduledMinutes st = NaN /\ getScheduledMinutes st = NaN)
  /\ (forall h1 h2 m1 m2 : Z,
        0 <= h1 <= 9 -> 0 <= h2 <= 9 -> 0 <= m1 <= 9 -> 0 <= m2 <= 9 ->
        Utils.parseTimeString Utils.NumberOfDigits
          (String (digitChar h1) (String (digitChar h2)
             (String ":" (String (digitChar m1) (String (digitChar m2) EmptyString)))))
        = (Num.ofZ (10 * h1 + h2), Num.ofZ (10 * m1 + m2))).
Proof.
  assert (P : forall s, noColon s -> Utils.parseTimeString Number s = (Number s, NaN)).
  { intros s H. unfold Utils.parseTimeString. now rewrite (split_noColon s H). }
  split; [exact P|]. split.
  - intros st H. unfold calculateScheduledMinutes, getScheduledMinutes.
    rewrite (P _ H). unfold Utils.minutesOfDay. cbn [fst snd].
    destruct (Utils.parseTimeString Number (ShiftType.endTime st)) as [eh em].
    cbn [fst snd].
    assert (N : forall x, (x * Num.ofZ 60 + NaN)%num = NaN)
      by (intros x; now destruct x).
    assert (S : forall x, (x - NaN)%num = NaN) by (intros x; now destruct x).
    assert (S' : forall x, (NaN - x)%num = NaN) by (intros x; reflexivity).
    rewrite N, S. cbn [Num.ltb Num.gtb].
    split; [|reflexivity].
    destruct (ShiftType.isSplit st && _ && _);
      [destruct (ShiftType.splitBreakStart st), (ShiftType.splitBreakEnd st)|];
      reflexivity.
  - intros h1 h2 m1 m2 H1 H2 H3 H4.
    destruct (digitChar_value h1 H1) as [V1 C1].
    destruct (digitChar_value h2 H2) as [V2 C2].
    destruct (digitChar_value m1 H3) as [V3 C3].
    destruct (digitChar_value m2 H4) as [V4 C4].
    unfold Utils.parseTimeString. cbn [Utils.split].
    rewrite C1, C2, C3, C4. cbn [Ascii.eqb Bool.eqb List.map].
    unfold Utils.NumberOfDigits. cbn [Utils.digitsValue].
    rewrite V1, V2, V3, V4. repeat f_equal; lia.
Qed.

(** X13: formatWorkHours prints a negative count as the minus sign
    followed by what it prints for the positive count, drops the hours
    when they are 0 and the minutes when they are 0, and the hours and
    minutes it prints add up to the absolute value. *)
Theorem formatWorkHours_sign_and_parts (minutes : Z) :
  (0 < minutes -> formatWorkHours (- minutes) = "-" ++ formatWorkHours minutes)
  /\ (Z.abs minutes < 60 ->
      formatWorkHours minutes
      = (if minutes <? 0 then "-" else EmptyString) ++ showZ (Z.abs minutes) ++ "分鐘")
  /\ (forall hours, 0 < hours ->
        formatWorkHours (hours * 60) = showZ hours ++ "小時")
  /\ Z.abs minutes / 60 * 60 + Z.rem (Z.abs minutes) 60 = Z.abs minutes.
Proof.
  split; [|split; [|split]].
  - intros H. unfold formatWorkHours.
    replace (Z.abs (- minutes)) with (Z.abs minutes) by lia.
    replace (- minutes <? 0) with true by (symmetry; apply Z.ltb_lt; lia).
    replace (minutes <? 0) with false by (symmetry; apply Z.ltb_ge; lia).
    cbv zeta. destruct (_ =? 0); [reflexivity|]. destruct (_ =? 0); reflexivity.
  - intros H. unfold formatWorkHours. cbv zeta.
    rewrite (Z.div_small (Z.abs minutes) 60) by lia.
    rewrite Z.rem_small by lia. reflexivity.
  - intros hours H. unfold formatWorkHours. cbv zeta.
    replace (Z.abs (hours * 60)) with (hours * 60) by lia.
    rewrite Z.div_mul by lia. rewrite Z.rem_mul by lia.
    replace (hours =? 0) with false by (symmetry; apply Z.eqb_neq; lia).
    replace (hours * 60 <? 0) with false by (symmetry; apply Z.ltb_ge; lia).
    reflexivity.
  - rewrite Z.rem_mod_nonneg by lia.
    pose proof (Z.div_mod (Z.abs minutes) 60). lia.
Qed.

(** X14: minutesToHoursMinutes prints the floored hours and the
    remainder with the sign of its argument: the two add up to the
    argument when it is not negative or is a whole number of hours, and to
    one hour less than the argument otherwise. *)
Theorem minutesToHoursMinutes_parts (minutes : Z) :
  exists hours mins,
    minutesToHoursMinutes minutes = showZ hours ++ "h " ++ showZ mins ++ "m"
    /\ (0 <= minutes \/ Z.rem minutes 60 = 0 -> hours * 60 + mins = minutes)
    /\ (minutes < 0 -> Z.rem minutes 60 <> 0 ->
        hours * 60 + mins = minutes - 60 /\ hours < 0 /\ mins < 0).
Proof.
  exists (minutes / 60), (Z.rem minutes 60). split; [reflexivity|].
  split.
  - intros H. Z.to_euclidean_division_equations. lia.
  - intros Hneg Hrem. Z.to_euclidean_division_equations. lia.
Qed.

(* ------------------------------------------------------------------ *)
(** ** More on the payroll *)

(** X15: calculateOvertimePay is 0 for hours that are 0 or negative,
    whatever the rate, is NaN for hours that are NaN, and for a rate that
    is not negative it is never negative and grows with the hours.  The
    growth is that of the formula on exact numbers; on the doubles the
    service runs it on, it is 0 for hours that are 0 or less and NaN for
    hours that are NaN. *)
Theorem calculateOvertimePay_grows_with_hours :
  (forall (h : Q) (rate : num),
      (h <= 0)%Q -> calculateOvertimePay (Fin h) rate = Num.ofZ 0)
  /\ (forall rate : num, calculateOvertimePay NaN rate = NaN)
  /\ (forall h1 h2 rate : Q,
        (0 <= rate)%Q -> (h1 <= h2)%Q ->
        exists p1 p2,
          calculateOvertimePay (Fin h1) (Fin rate) = Fin p1
          /\ calculateOvertimePay (Fin h2) (Fin rate) = Fin p2
          /\ (0 <= p1 <= p2)%Q)
  /\ (forall hours rate : F64.t,
        F64.leb hours (F64.ofZ 0) = true ->
        calculateOvertimePay hours rate = F64.ofZ 0)
  /\ (forall rate : F64.t, calculateOvertimePay F64.nan rate = F64.nan).
Proof.
  split; [|split; [|split; [|split]]].
  4:{ intros hours rate H. unfold calculateOvertimePay.
      cbn [Arith.leb Arith.ofZ F64_Arith]. now rewrite H. }
  4:{ intros rate. reflexivity. }
  - intros h rate H. unfold calculateOvertimePay.
    cbn [Arith.leb Arith.ofZ Arith.lit Arith.add Arith.sub Arith.mul Arith.min
         Arith.max num_Arith].
    unfold Num.leb, Num.ofZ.
    destruct (Qle_bool h (inject_Z 0)) eqn:L; [reflexivity|].
    exfalso. assert (Qle_bool h (inject_Z 0) = true) by now apply Qle_bool_iff.
    congruence.
  - intros rate. reflexivity.
  - intros h1 h2 rate Hr Hh.
    assert (F : forall h : Q,
               exists p,
                 calculateOvertimePay (Fin h) (Fin rate) = Fin p
                 /\ ((h <= 0 -> p == 0)
                     /\ (0 <= h <= 2 -> p == h * rate * (134 # 100))
                     /\ (2 <= h ->
                         p == 2 * rate * (134 # 100)
                              + (h - 2) * rate * (167 # 100)))%Q).
    { intros h. unfold calculateOvertimePay.
      cbn [Arith.leb Arith.ofZ Arith.lit Arith.add Arith.sub Arith.mul Arith.min
           Arith.max num_Arith].
      unfold Num.leb, Num.ofZ.
      change (inject_Z 0) with 0%Q. change (inject_Z 2) with 2%Q.
      destruct (Qle_bool h 0) eqn:L.
      - apply Qle_bool_iff in L. exists 0%Q. split; [reflexivity|].
        repeat split; intros H; try reflexivity.
        + assert (h == 0)%Q by lra. rewrite H0. ring.
        + exfalso. lra.
      - assert (P : (0 < h)%Q).
        { apply Qnot_le_lt. intros C. apply Qle_bool_iff in C. congruence. }
        cbn [Num.min Num.max Num.sub Num.mul Num.add Num.lift2].
        eexists. split; [reflexivity|].
        unfold OVERTIME_RATES.WEEKDAY_FIRST_2_HOURS,
          OVERTIME_RATES.WEEKDAY_AFTER_2_HOURS.
        repeat split; intros H.
        + exfalso. lra.
        + rewrite (Q.min_l h 2) by lra. rewrite (Q.max_l 0 (h - 2)) by lra. ring.
        + rewrite (Q.min_r h 2) by lra. rewrite (Q.max_r 0 (h - 2)) by lra. ring. }
    destruct (F h1) as (p1 & E1 & Z1 & A1 & B1).
    destruct (F h2) as (p2 & E2 & Z2 & A2 & B2).
    exists p1, p2. split; [exact E1|]. split; [exact E2|].
    destruct (Qlt_le_dec h1 0) as [N1|P1];
      [|destruct (Qlt_le_dec h1 2) as [S1|L1]];
      (destruct (Qlt_le_dec h2 0) as [N2|P2];
       [|destruct (Qlt_le_dec h2 2) as [S2|L2]]);
      try (exfalso; lra);
      repeat match goal with
             | H : (?h <= 0 -> _)%Q, N : (?h < 0)%Q |- _ =>
                 specialize (H ltac:(lra))
             | H : (0 <= ?h <= 2 -> _)%Q, P : (0 <= ?h)%Q, S : (?h < 2)%Q |- _ =>
                 specialize (H ltac:(lra))
             | H : (2 <= ?h -> _)%Q, L : (2 <= ?h)%Q |- _ =>
                 specialize (H L)
             end;
      nra.
Qed.

Lemma payrollStep_paid (acc : Totals.t) (row : PayrollRow.t) (paid : Q) :
  paidMinutes acc = Fin paid ->
  (counted row = true -> onWeekend row = false -> exists s, rowScheduled row = Fin s) ->
  exists paid',
    paidMinutes (payrollStep acc row) = Fin paid'
    /\ (paid' == paid + inject_Z (countedNet [row]))%Q.
Proof.
  unfold paidMinutes, countedNet, payrollStep, counted, onWeekend, rowScheduled.
  intros Hacc Hs. cbn [List.filter].
  assert (Skip : (paid == paid + inject_Z (sumZ []))%Q)
    by (unfold sumZ; cbn [List.fold_right]; change (inject_Z 0) with 0%Q; ring).
  destruct (Attendance.clockIn (PayrollRow.attendance row)) as [ci|];
    [|exists paid; split; [exact Hacc | exact Skip]].
  destruct (Attendance.netWorkMinutes (PayrollRow.attendance row)) as [n|] eqn:Hn;
    [|exists paid; split; [exact Hacc | exact Skip]].
  destruct (n =? 0) eqn:Z0; cbn [negb];
    [exists paid; split; [exact Hacc | exact Skip]|].
  destruct (Totals.totalRegularMinutes acc) as [|r]; [discriminate|].
  destruct (Totals.totalOvertimeMinutes acc) as [|o]; [discriminate|].
  destruct (Totals.totalHolidayMinutes acc) as [|h]; [discriminate|].
  unfold Num.add in Hacc. cbn [Num.lift2] in Hacc. injection Hacc as <-.
  cbn [List.map sumZ List.fold_right]. rewrite Hn, Z.add_0_r.
  destruct (_ || _).
  - cbn [Totals.totalRegularMinutes Totals.totalOvertimeMinutes
         Totals.totalHolidayMinutes].
    unfold Num.ofZ, Num.add. cbn [Num.lift2].
    eexists. split; [reflexivity|]. ring.
  - destruct (Hs eq_refl eq_refl) as (s & Hsched).
    cbn [Totals.totalRegularMinutes Totals.totalOvertimeMinutes
         Totals.totalHolidayMinutes].
    rewrite Hsched. unfold Num.ofZ, Num.add, Num.sub, Num.min, Num.max.
    cbn [Num.lift2].
    eexists. split; [reflexivity|]. change (inject_Z 0) with 0%Q.
    destruct (Qlt_le_dec (inject_Z n) s) as [L|G].
    + rewrite (Q.min_l (inject_Z n) s) by lra.
      rewrite (Q.max_l 0 (inject_Z n - s)) by lra. ring.
    + rewrite (Q.min_r (inject_Z n) s) by lra.
      rewrite (Q.max_r 0 (inject_Z n - s)) by lra. ring.
Qed.

Lemma countedNet_cons (row : PayrollRow.t) (rows : list PayrollRow.t) :
  countedNet (row :: rows) = countedNet [row] + countedNet rows.
Proof.
  unfold countedNet, sumZ. cbn [List.filter].
  destruct (counted row); cbn [List.map List.fold_right]; lia.
Qed.

Lemma payrollTotals_paid (rows : list PayrollRow.t) :
  forall (acc : Totals.t) (paid : Q),
    paidMinutes acc = Fin paid ->
    scheduledAreNumbers rows ->
    exists paid',
      paidMinutes (List.fold_left payrollStep rows acc) = Fin paid'
      /\ (paid' == paid + inject_Z (countedNet rows))%Q.
Proof.
  induction rows as [|row rows IH]; intros acc paid Hacc Hs.
  - exists paid. split; [exact Hacc|]. unfold countedNet. cbn. ring.
  - destruct (payrollStep_paid acc row paid Hacc) as (p1 & H1 & E1).
    { intros C W. apply (Hs row); [now left | exact C | exact W]. }
    destruct (IH (payrollStep acc row) p1 H1) as (p2 & H2 & E2).
    { intros r Hr. apply Hs. now right. }
    exists p2. split; [exact H2|].
    rewrite countedNet_cons, inject_Z_plus, E2, E1. ring.
Qed.

(** X16: every minute the payroll counts is paid in exactly one bucket:
    when the scheduled minutes of the counted weekday records are numbers,
    regular, overtime and holiday minutes of the period add up to the net
    minutes of the records with a clock-in and net minutes that are
    neither null nor 0. *)
Theorem payroll_minutes_are_conserved (userAtts : list PayrollRow.t) :
  scheduledAreNumbers userAtts ->
  (paidMinutes (payrollTotals userAtts) === Num.ofZ (countedNet userAtts))%num.
Proof.
  intros Hs.
  destruct (payrollTotals_paid userAtts
              (Totals.mk (Num.ofZ 0) (Num.ofZ 0) (Num.ofZ 0) (F64.ofZ 0) [])
              (0 + 0 + 0)%Q eq_refl Hs) as (p & Hp & Ep).
  unfold payrollTotals. rewrite Hp. unfold Num.ofZ, Num.eq. rewrite Ep. ring.
Qed.

(** X17: a FULL_TIME employee without a monthly salary, or with one of 0,
    is paid by the hour: base pay is the regular hours times the hourly
    rate (183 when none is set), the same rate prices overtime and
    holidays, and the line item still reports hourlyRate as null. *)
Theorem basePay_full_time_without_salary
    (periodStart periodEnd : Z) (userId : string) (user : User.t)
    (userAtts : list PayrollRow.t) :
  User.employmentType user = Some EmploymentType.FULL_TIME ->
  (User.monthlySalary user = None
   \/ exists s, User.monthlySalary user = Some s /\ (s == 0)%Q) ->
  let line := payrollOfUser periodStart periodEnd userId user userAtts in
  let totals := payrollTotals userAtts in
  Pay.basePay (payOf periodStart periodEnd user totals)
  = F64.mul (F64.div (F64.ofNum (Totals.totalRegularMinutes totals)) (F64.ofZ 60))
      (hourlyRateOf user)
  /\ effectiveHourlyRate user = hourlyRateOf user
  /\ PayrollCalculation.hourlyRate line = None
  /\ PayrollCalculation.employmentType line = EmploymentType.FULL_TIME.
Proof.
  intros He Hs. cbv zeta.
  assert (Hsal : salaried user = None).
  { unfold salaried, monthlySalaryOf, isFullTime, employmentTypeOf.
    rewrite He. destruct Hs as [->|(s & -> & Hz)]; [reflexivity|].
    cbn [option_map andb]. destruct s as [n d].
    unfold Qeq in Hz. cbn [Qnum Qden] in Hz.
    assert (n = 0) as -> by lia. reflexivity. }
  unfold payrollOfUser, payOf, effectiveHourlyRate.
  cbn [Pay.basePay PayrollCalculation.hourlyRate PayrollCalculation.employmentType].
  rewrite Hsal. unfold isFullTime, employmentTypeOf. rewrite He.
  repeat split.
Qed.

(** X18: the night estimate looks at the two clock hours only: a record
    that clocks in and out during daytime hours (06:00 to 21:59) has 0
    night minutes, however much of the night lies between, and so has a
    record without a clock-out. *)
Theorem calculateNightMinutes_daytime_hours_count_nothing (clockIn clockOut : Z) :
  calculateNightMinutes clockIn None = F64.ofZ 0
  /\ (6 <= Utils.getHours tz clockIn < 22 ->
      6 <= Utils.getHours tz clockOut < 22 ->
      calculateNightMinutes clockIn (Some clockOut) = F64.ofZ 0).
Proof.
  split; [reflexivity|].
  intros Hin Hout. unfold calculateNightMinutes.
  replace (Utils.getHours tz clockIn >=? 22) with false
    by (symmetry; rewrite Z.geb_leb; apply Z.leb_gt; lia).
  replace (Utils.getHours tz clockIn <? 6) with false
    by (symmetry; apply Z.ltb_ge; lia).
  replace (Utils.getHours tz clockOut >=? 22) with false
    by (symmetry; rewrite Z.geb_leb; apply Z.leb_gt; lia).
  replace (Utils.getHours tz clockOut <? 6) with false
    by (symmetry; apply Z.ltb_ge; lia).
  reflexivity.
Qed.

Lemma payrollWhere_selected (storeId : string) (periodStart periodEnd : Z)
    (userIds : option (list string)) (a : Attendance.t) :
  payrollWhere storeId periodStart periodEnd userIds a = true
  <-> selected storeId periodStart periodEnd userIds a.
Proof.
  unfold payrollWhere, selected.
  rewrite !andb_true_iff, String.eqb_eq, !Z.leb_le.
  assert (S : (match Attendance.status a with
               | AttendanceStatus.CLOCKED_OUT | AttendanceStatus.APPROVED => true
               | _ => false
               end) = true
              <-> Attendance.status a = AttendanceStatus.CLOCKED_OUT
                  \/ Attendance.status a = AttendanceStatus.APPROVED).
  { destruct (Attendance.status a); split; intros H;
      try reflexivity; try discriminate; try tauto;
      destruct H; discriminate. }
  assert (U : (match userIds with
               | Some (u :: us) =>
                   List.existsb (String.eqb (Attendance.userId a)) (u :: us)
               | _ => true
               end) = true
              <-> forall u us, userIds = Some (u :: us) ->
                    In (Attendance.userId a) (u :: us)).
  { destruct userIds as [[|u us]|].
    - split; [discriminate | reflexivity].
    - rewrite List.existsb_exists. split.
      + intros (x & Hx & E) u' us' [= <- <-]. apply String.eqb_eq in E. now subst.
      + intros H. exists (Attendance.userId a). split; [now apply H|].
        apply String.eqb_refl.
    - split; [discriminate | reflexivity]. }
  rewrite S, U. tauto.
Qed.

Lemma insertRow_In (r x : PayrollRow.t) (l : list PayrollRow.t) :
  In x (insertRow r l) <-> x = r \/ In x l.
Proof.
  induction l as [|y l IH]; cbn.
  - intuition congruence.
  - destruct (rowLeb r y); cbn; [intuition congruence|]. rewrite IH. intuition.
Qed.

Lemma sortedRows_In (x : PayrollRow.t) (l : list PayrollRow.t) :
  In x (List.fold_right insertRow [] l) <-> In x l.
Proof.
  induction l as [|y l IH]; cbn; [tauto|].
  rewrite insertRow_In, IH. intuition congruence.
Qed.

Lemma filterMap_In_iff {A B : Type} (f : A -> option B) (l : list A) (y : B) :
  In y (filterMap f l) <-> exists x, In x l /\ f x = Some y.
Proof.
  split; [apply filterMap_In|].
  intros (x & Hx & Fx). induction l as [|a l IH]; [contradiction|].
  cbn. destruct Hx as [->|Hx].
  - rewrite Fx. now left.
  - destruct (f a); [right|]; now apply IH.
Qed.

Lemma findManyForPayroll_In (d : Db.t) (storeId : string)
    (periodStart periodEnd : Z) (userIds : option (list string))
    (row : PayrollRow.t) :
  In row (findManyForPayroll d storeId periodStart periodEnd userIds)
  <-> In (PayrollRow.attendance row) (Db.attendances d)
      /\ payrollWhere storeId periodStart periodEnd userIds
           (PayrollRow.attendance row) = true
      /\ payrollInclude d (PayrollRow.attendance row) = Some row.
Proof.
  unfold findManyForPayroll. rewrite sortedRows_In, filterMap_In_iff. split.
  - intros (a & Ha & Inc). apply List.filter_In in Ha. destruct Ha as [Ha W].
    assert (PayrollRow.attendance row = a) as ->.
    { unfold payrollInclude in Inc. destruct (List.find _ (Db.users d)); [|discriminate].
      injection Inc as <-. reflexivity. }
    auto.
  - intros (Ha & W & Inc). exists (PayrollRow.attendance row).
    split; [|exact Inc]. apply List.filter_In. auto.
Qed.

Lemma groupInsert_keys (groups : list (string * list PayrollRow.t))
    (r : PayrollRow.t) (k : string) :
  In k (List.map fst (groupInsert groups r)) ->
  In k (List.map fst groups) \/ k = rowUser r.
Proof.
  induction groups as [|[k0 rows] rest IH]; cbn.
  - intros [<-|[]]. now right.
  - fold (rowUser r). destruct (String.eqb k0 (rowUser r)); cbn.
    + tauto.
    + intros [<-|H]; [tauto|]. destruct (IH H); tauto.
Qed.

Lemma groupInsert_wellGrouped (P : PayrollRow.t -> Prop)
    (groups : list (string * list PayrollRow.t)) (r : PayrollRow.t) :
  wellGrouped P groups -> P r -> wellGrouped P (groupInsert groups r).
Proof.
  unfold wellGrouped. induction groups as [|[k0 rows] rest IH]; intros [N F] Hr.
  - cbn. split; [repeat constructor; intros []|].
    intros k rs [E|[]]. injection E as <- <-.
    split; [discriminate|]. intros r' [<-|[]]. split; [reflexivity | exact Hr].
  - cbn [groupInsert]. fold (rowUser r).
    destruct (String.eqb k0 (rowUser r)) eqn:E.
    + apply String.eqb_eq in E. split; [exact N|].
      intros k rs [H|H].
      * injection H as <- <-. split; [now destruct rows|].
        intros r' Hr'. apply List.in_app_iff in Hr'. destruct Hr' as [Hr'|[<-|[]]].
        -- apply (F k0 rows); [now left | exact Hr'].
        -- split; [now symmetry | exact Hr].
      * apply F. now right.
    + apply String.eqb_neq in E. cbn in N. inversion N as [|? ? Hnot Hnd]; subst.
      destruct IH as [N' F'].
      { split; [exact Hnd|]. intros k rs H. apply F. now right. }
      { exact Hr. }
      split.
      * cbn. constructor; [|exact N'].
        intros C. destruct (groupInsert_keys _ _ _ C); [contradiction|congruence].
      * intros k rs [H|H]; [apply F; now left | now apply F'].
Qed.

Lemma groupInsert_grouped (groups : list (string * list PayrollRow.t))
    (r : PayrollRow.t) :
  grouped r (groupInsert groups r)
  /\ forall x, grouped x groups -> grouped x (groupInsert groups r).
Proof.
  unfold grouped. induction groups as [|[k0 rows] rest [IHr IHx]].
  - split.
    + exists (rowUser r), [r]. split; now left.
    + intros x (k & rs & [] & _).
  - cbn [groupInsert]. fold (rowUser r). destruct (String.eqb k0 (rowUser r)).
    + split.
      * exists k0, (rows ++ [r])%list. split; [now left|].
        apply List.in_app_iff. right. now left.
      * intros x (k & rs & [H|H] & Hx).
        -- injection H as <- <-. exists k0, (rows ++ [r])%list.
           split; [now left|]. apply List.in_app_iff. now left.
        -- exists k, rs. split; [now right | exact Hx].
    + split.
      * destruct IHr as (k & rs & H & Hx). exists k, rs. split; [now right | exact Hx].
      * intros x (k & rs & [H|H] & Hx).
        -- exists k, rs. split; [now left | exact Hx].
        -- destruct (IHx x) as (k' & rs' & H' & Hx'); [now exists k, rs|].
           exists k', rs'. split; [now right | exact Hx'].
Qed.

Lemma groupByUser_from (P : PayrollRow.t -> Prop) (rows : list PayrollRow.t) :
  forall groups,
    wellGrouped P groups ->
    (forall r, In r rows -> P r) ->
    wellGrouped P (List.fold_left groupInsert rows groups)
    /\ (forall x, grouped x groups \/ In x rows ->
          grouped x (List.fold_left groupInsert rows groups)).
Proof.
  induction rows as [|r rows IH]; intros groups W HP.
  - split; [exact W|]. intros x [H|[]]. exact H.
  - cbn [List.fold_left].
    destruct (IH (groupInsert groups r)) as [W' G'].
    + apply groupInsert_wellGrouped; [exact W|]. apply HP. now left.
    + intros r' Hr'. apply HP. now right.
    + split; [exact W'|]. intros x Hx. apply G'.
      destruct (groupInsert_grouped groups r) as [Gr Gx].
      destruct Hx as [H|[<-|H]]; [left; now apply Gx | now left | now right].
Qed.

Lemma payrollOfUser_userId (periodStart periodEnd : Z) (userId : string)
    (user : User.t) (rows : list PayrollRow.t) :
  PayrollCalculation.userId
    (payrollOfUser periodStart periodEnd userId user rows) = userId.
Proof. reflexivity. Qed.

Lemma empty_wellGrouped (P : PayrollRow.t -> Prop) : wellGrouped P [].
Proof. split; [constructor | intros k rows []]. Qed.

(** X19: [calculatePayroll] returns one line per user: no two lines carry
    the same user id, and each line is the payroll of a non-empty list of
    rows that all belong to the line's user, come from stored attendances
    and were selected by the query (store, period, finalized status,
    requested users), each paired with the user it names. *)
Theorem calculatePayroll_one_line_per_user_of_selected_rows
    (storeId : string) (periodStart periodEnd : Z)
    (userIds : option (list string)) (w : World.t) :
  exists lines,
    calculatePayroll storeId periodStart periodEnd userIds w = Returned lines w
    /\ NoDup (List.map PayrollCalculation.userId lines)
    /\ forall line, In line lines ->
         exists user rows,
           line = payrollOfUser periodStart periodEnd
                    (PayrollCalculation.userId line) user rows
           /\ rows <> []
           /\ forall r, In r rows ->
                rowUser r = PayrollCalculation.userId line
                /\ User.id (PayrollRow.user r) = PayrollCalculation.userId line
                /\ In (PayrollRow.attendance r) (Db.attendances (World.db w))
                /\ selected storeId periodStart periodEnd userIds
                     (PayrollRow.attendance r).
Proof.
  unfold calculatePayroll, bind, getDb, ret, groupByUser. cbv zeta.
  eexists. split; [reflexivity|].
  set (rows0 := findManyForPayroll (World.db w) storeId periodStart periodEnd userIds).
  set (P := fun r : PayrollRow.t =>
              User.id (PayrollRow.user r) = rowUser r
              /\ In (PayrollRow.attendance r) (Db.attendances (World.db w))
              /\ selected storeId periodStart periodEnd userIds
                   (PayrollRow.attendance r)).
  destruct (groupByUser_from P rows0 [] (empty_wellGrouped P)) as [[N F] _].
  { intros r Hr. apply findManyForPayroll_In in Hr. destruct Hr as (Ha & W & Inc).
    unfold P. split; [|split; [exact Ha | now apply payrollWhere_selected]].
    unfold payrollInclude in Inc.
    destruct (List.find _ (Db.users (World.db w))) as [u|] eqn:Fu; [|discriminate].
    apply List.find_some in Fu. destruct Fu as [_ E]. apply String.eqb_eq in E.
    injection Inc as <-. exact E. }
  revert N F. generalize (List.fold_left groupInsert rows0 []).
  intros groups N F. split.
  - clear F. induction groups as [|[k rs] rest IH]; [constructor|].
    cbn in N. inversion N as [|? ? Hnot Hnd]; subst.
    cbn [filterMap]. destruct rs as [|first rs]; [now apply IH|].
    cbn [List.map]. rewrite payrollOfUser_userId. constructor; [|now apply IH].
    intros C. apply Hnot. clear -C.
    induction rest as [|[k' rs'] rest IH]; [contradiction|].
    cbn [filterMap] in C. destruct rs' as [|f' rs'].
    + right. now apply IH.
    + cbn [List.map] in C. rewrite payrollOfUser_userId in C.
      destruct C as [<-|C]; [now left | right; now apply IH].
  - intros line Hin. apply filterMap_In in Hin.
    destruct Hin as ([k rs] & Hg & H).
    destruct rs as [|first rs]; [discriminate|]. injection H as <-.
    rewrite payrollOfUser_userId.
    exists (PayrollRow.user first), (first :: rs).
    split; [reflexivity|]. split; [discriminate|].
    intros r Hr. destruct (F k (first :: rs) Hg) as [_ Fr].
    destruct (Fr r Hr) as (K & U & A & S).
    split; [exact K|]. split; [now rewrite U|]. split; assumption.
Qed.

(** X20: No selected attendance is left out: a stored attendance that the
    query selects and whose user exists is among the rows of the line that
    [calculatePayroll] returns for that user. *)
Theorem calculatePayroll_covers_every_selected_row
    (storeId : string) (periodStart periodEnd : Z)
    (userIds : option (list string)) (w : World.t) (a : Attendance.t) :
  In a (Db.attendances (World.db w)) ->
  selected storeId periodStart periodEnd userIds a ->
  (exists u, In u (Db.users (World.db w)) /\ User.id u = Attendance.userId a) ->
  exists lines line user rows r,
    calculatePayroll storeId periodStart periodEnd userIds w = Returned lines w
    /\ In line lines
    /\ line = payrollOfUser periodStart periodEnd (Attendance.userId a) user rows
    /\ In r rows
    /\ PayrollRow.attendance r = a.
Proof.
  intros Ha Sel (u & Hu & Eu).
  unfold calculatePayroll, bind, getDb, ret, groupByUser. cbv zeta.
  set (rows0 := findManyForPayroll (World.db w) storeId periodStart periodEnd userIds).
  destruct (payrollInclude (World.db w) a) as [r|] eqn:Inc.
  2:{ unfold payrollInclude in Inc.
      destruct (List.find _ (Db.users (World.db w))) eqn:Fu; [discriminate|].
      pose proof (List.find_none _ _ Fu u Hu) as C. cbn in C.
      rewrite Eu, String.eqb_refl in C. discriminate. }
  assert (Er : PayrollRow.attendance r = a).
  { unfold payrollInclude in Inc.
    destruct (List.find _ (Db.users (World.db w))); [|discriminate].
    injection Inc as <-. reflexivity. }
  assert (Hr : In r rows0).
  { apply findManyForPayroll_In. rewrite Er. repeat split; try assumption.
    now apply payrollWhere_selected. }
  destruct (groupByUser_from (fun _ => True) rows0 [] (empty_wellGrouped _))
    as [[_ F] G]; [easy|].
  destruct (G r (or_intror Hr)) as (k & rs & Hg & Hin).
  destruct (F k rs Hg) as [Hne Fr]. destruct (Fr r Hin) as [K _].
  destruct rs as [|first rs]; [contradiction|].
  exists (filterMap
            (fun group : string * list PayrollRow.t =>
               let '(userId, userAtts) := group in
               match userAtts with
               | first :: _ =>
                   Some (payrollOfUser periodStart periodEnd userId
                           (PayrollRow.user first) userAtts)
               | [] => None
               end)
            (List.fold_left groupInsert rows0 [])).
  exists (payrollOfUser periodStart periodEnd k (PayrollRow.user first) (first :: rs)).
  exists (PayrollRow.user first), (first :: rs), r.
  split; [reflexivity|]. split.
  - apply filterMap_In_iff. exists (k, first :: rs). split; [exact Hg | reflexivity].
  - split; [|split; [exact Hin | exact Er]].
    unfold rowUser in K. rewrite Er in K. now rewrite K.
Qed.

(* ------------------------------------------------------------------ *)
(** ** The attendance service: clock-in *)

Ltac run_service :=
  cbv beta iota zeta delta
    [bind ret throw getTodayAttendance newDate newId getDb putDb
     createAttendance updateAttendance createAuditLog findAttendanceById
     startBreakTransaction endBreakTransaction
     World.atRead World.withDb World.atMade
     World.db World.clock World.reads World.ids World.made].

Lemma deriveState_some (att : Attendance.t) (sched : option Schedule.t) :
  ClockStateMachine.deriveState (Some att) sched <> ClockState.NOT_CLOCKED_IN.
Proof.
  unfold ClockStateMachine.deriveState.
  destruct (Attendance.status att); try discriminate.
  destruct (_ && _); discriminate.
Qed.

Lemma clockIn_refused (userId storeId : string) (w : World.t) (att : Attendance.t) :
  findAttendanceForDay (World.db w) userId (today w) = Some att ->
  exists res w',
    clockIn userId storeId w = Returned res w'
    /\ ClockResult.success res = false
    /\ ClockResult.attendance res = None
    /\ World.db w' = World.db w.
Proof.
  destruct w as [d clock reads ids made]. unfold today. world_simpl.
  intros Hfind. unfold clockIn. run_service. rewrite Hfind.
  unfold ClockStateMachine.canTransition, ClockStateMachine.fromAttendance.
  cbn [ClockStateMachine.state ClockStateMachine.context ClockStateMachine.schedule].
  pose proof (deriveState_some att
                (findScheduleForDay d userId (Utils.startOfDay tz (clock reads)))) as Hs.
  destruct (ClockStateMachine.deriveState _ _); try contradiction;
    cbn; eexists _, _; repeat split.
Qed.

Lemma find_app_none {A : Type} (p : A -> bool) (l : list A) (x : A) :
  List.find p l = None -> p x = true -> List.find p (l ++ [x]) = Some x.
Proof.
  intros Hn Hx. induction l as [|a l IH]; cbn in *.
  - now rewrite Hx.
  - destruct (p a); [discriminate | now apply IH].
Qed.

Lemma findAttendanceForDay_none (d : Db.t) (userId : string) (day : Z) :
  findAttendanceForDay d userId day = None ->
  List.find
    (fun a => String.eqb (Attendance.userId a) userId && (Attendance.date a =? day))
    (Db.attendances d) = None.
Proof.
  unfold findAttendanceForDay. now destruct (List.find _ _).
Qed.

Lemma clockIn_created (userId storeId : string) (w : World.t) :
  findAttendanceForDay (World.db w) userId (today w) = None ->
  findAttendanceForDay (World.db w) userId
    (Utils.startOfDay tz (World.clock w (S (S (World.reads w))))) = None ->
  exists res w',
    clockIn userId storeId w = Returned res w'
    /\ ClockResult.success res = true
    /\ ClockResult.attendance res = Some (clockInRow userId storeId w)
    /\ ClockResult.newState res = Some ClockState.WORKING
    /\ World.db w'
       = Db.mk (Db.attendances (World.db w) ++ [clockInRow userId storeId w])
           (Db.schedules (World.db w)) (Db.users (World.db w))
           (Db.auditLogs (World.db w)
            ++ [AuditLog.mk userId "CLOCK_IN" "Attendance"
                  (World.ids w (World.made w))])
    /\ World.clock w' = World.clock w
    /\ World.reads w' = S (S (S (World.reads w))).
Proof.
  destruct w as [d clock reads ids made]. unfold clockInRow, today. world_simpl.
  intros Hnone Hnew. unfold clockIn. run_service. rewrite Hnone.
  cbn [ClockStateMachine.canTransition ClockStateMachine.fromAttendance
       ClockStateMachine.deriveState ClockStateMachine.state
       ClockStateMachine.findTransition].
  cbn. rewrite Hnew. cbn.
  eexists _, _. repeat split.
Qed.

(** X21: A second record for the day is never created: when the user
    already has an attendance record for today, in whatever status,
    [clockIn] returns a failure whose message names the state the record
    is in, returns no attendance and stores nothing. *)
Theorem clockIn_refused_when_day_has_record (userId storeId : string)
    (w : World.t) (att : Attendance.t) :
  findAttendanceForDay (World.db w) userId (today w) = Some att ->
  exists res w',
    clockIn userId storeId w = Returned res w'
    /\ ClockResult.success res = false
    /\ ClockResult.attendance res = None
    /\ ClockResult.message res
       = "無法從 "
         ++ ClockState.toString
              (ClockStateMachine.deriveState (Some att)
                 (findScheduleForDay (World.db w) userId (today w)))
         ++ " 狀態執行 CLOCK_IN"
    /\ World.db w' = World.db w.
Proof.
  destruct w as [d clock reads ids made]. unfold today. world_simpl.
  intros Hfind. unfold clockIn. run_service. rewrite Hfind.
  unfold ClockStateMachine.canTransition, ClockStateMachine.fromAttendance.
  cbn [ClockStateMachine.state ClockStateMachine.context ClockStateMachine.schedule].
  pose proof (deriveState_some att
                (findScheduleForDay d userId (Utils.startOfDay tz (clock reads)))) as Hs.
  destruct (ClockStateMachine.deriveState _ _); try contradiction;
    cbn; eexists _, _; repeat split.
Qed.

(** X22: When the user has no record for the day, [clockIn] creates one:
    status CLOCKED_IN, clocked in at the time of the call, dated the
    start of that day, no breaks.  The day's lookup then finds exactly
    this record, one audit entry is appended, and a second [clockIn] on
    the same day is refused and stores nothing. *)
Theorem clockIn_creates_the_day_record (userId storeId : string) (w : World.t) :
  findAttendanceForDay (World.db w) userId (today w) = None ->
  findAttendanceForDay (World.db w) userId
    (Utils.startOfDay tz (World.clock w (S (S (World.reads w))))) = None ->
  exists res w',
    clockIn userId storeId w = Returned res w'
    /\ ClockResult.success res = true
    /\ ClockResult.attendance res = Some (clockInRow userId storeId w)
    /\ Db.attendances (World.db w')
       = (Db.attendances (World.db w) ++ [clockInRow userId storeId w])%list
    /\ Db.auditLogs (World.db w')
       = (Db.auditLogs (World.db w)
          ++ [AuditLog.mk userId "CLOCK_IN" "Attendance"
                (Attendance.id (clockInRow userId storeId w))])%list
    /\ findAttendanceForDay (World.db w') userId
         (Attendance.date (clockInRow userId storeId w))
       = Some (clockInRow userId storeId w)
    /\ (today w' = Attendance.date (clockInRow userId storeId w) ->
        exists res2 w2,
          clockIn userId storeId w' = Returned res2 w2
          /\ ClockResult.success res2 = false
          /\ World.db w2 = World.db w').
Proof.
  intros Hnone Hnew.
  destruct (clockIn_created userId storeId w Hnone Hnew)
    as (res & w' & E & S1 & A & _ & Hdb & _ & _).
  assert (L : findAttendanceForDay (World.db w') userId
                (Attendance.date (clockInRow userId storeId w))
              = Some (clockInRow userId storeId w)).
  { rewrite Hdb. unfold findAttendanceForDay. cbn [Db.attendances].
    rewrite find_app_none with (x := clockInRow userId storeId w).
    - reflexivity.
    - apply findAttendanceForDay_none. exact Hnew.
    - cbn. now rewrite String.eqb_refl, Z.eqb_refl. }
  exists res, w'. split; [exact E|]. split; [exact S1|]. split; [exact A|].
  rewrite Hdb. cbn [Db.attendances Db.auditLogs].
  split; [reflexivity|]. split; [reflexivity|]. rewrite <- Hdb.
  split; [exact L|].
  intros Hday. rewrite <- Hday in L.
  destruct (clockIn_refused userId storeId w' _ L) as (res2 & w2 & E2 & S2 & _ & D2).
  exists res2, w2. auto.
Qed.

(* ------------------------------------------------------------------ *)
(** ** The attendance service: breaks *)

Lemma findAttendanceForDay_raw (d : Db.t) (userId : string) (day : Z)
    (att : Attendance.t) :
  findAttendanceForDay d userId day = Some att ->
  exists row,
    List.find
      (fun a => String.eqb (Attendance.userId a) userId && (Attendance.date a =? day))
      (Db.attendances d) = Some row
    /\ att = withBreaks row (breaksByStartDesc (Attendance.breaks row)).
Proof.
  unfold findAttendanceForDay. destruct (List.find _ _) as [row|]; [|discriminate].
  cbn. intros [= <-]. eauto.
Qed.

Lemma canTransition_startBreak (att : Attendance.t)
    (base : ClockStateMachine.Base) (now : Z) :
  Verdict.allowed
    (ClockStateMachine.canTransition
       (ClockStateMachine.fromAttendance (Some att) base now)
       ClockAction.START_BREAK)
  = match Attendance.status att with
    | AttendanceStatus.CLOCKED_IN =>
        Z.of_nat (List.length (Attendance.breaks att))
        <? maxBreaksOf (ClockStateMachine.schedule base)
    | _ => false
    end.
Proof.
  unfold ClockStateMachine.canTransition, ClockStateMachine.fromAttendance,
    ClockStateMachine.deriveState.
  cbn [ClockStateMachine.state ClockStateMachine.context].
  destruct (Attendance.status att); try reflexivity.
  - cbn. unfold guardStartBreak, contextBreaks, contextShiftType, maxBreaksOf.
    cbn [ClockContext.attendance ClockContext.schedule option_map].
    rewrite Z.geb_leb, Z.ltb_antisym.
    destruct (ClockStateMachine.schedule base); cbn [option_map];
      now destruct (_ <=? _).
  - now destruct (_ && _).
Qed.

Lemma startBreak_allowed (userId storeId : string) (breakType : BreakType)
    (w : World.t) (att : Attendance.t) :
  findAttendanceForDay (World.db w) userId (today w) = Some att ->
  Verdict.allowed
    (ClockStateMachine.canTransition
       (ClockStateMachine.fromAttendance (Some att)
          (ClockStateMachine.mkBase userId storeId
             (findScheduleForDay (World.db w) userId (today w)))
          (World.clock w (S (World.reads w))))
       ClockAction.START_BREAK) = true ->
  exists res w',
    startBreak userId storeId breakType w = Returned res w'
    /\ ClockResult.success res = true
    /\ ClockResult.newState res = Some ClockState.ON_BREAK
    /\ World.db w'
       = Db.mk
           (List.map
              (fun a =>
                 if hasId (Attendance.id att) a
                 then withStatus
                        (withBreaks a
                           (Attendance.breaks a ++ [startedBreak breakType w]))
                        AttendanceStatus.ON_BREAK
                 else a)
              (Db.attendances (World.db w)))
           (Db.schedules (World.db w)) (Db.users (World.db w))
           (Db.auditLogs (World.db w)
            ++ [AuditLog.mk userId "START_BREAK" "Attendance" (Attendance.id att)])
    /\ World.clock w' = World.clock w
    /\ World.reads w' = S (S (S (World.reads w))).
Proof.
  intros Hfind. destruct (findAttendanceForDay_row _ _ _ _ Hfind) as (row & Hrow).
  revert Hfind Hrow.
  destruct w as [d clock reads ids made]. unfold startedBreak, today. world_simpl.
  intros Hfind Hrow Hallow. unfold startBreak. run_service. rewrite Hfind.
  cbv beta iota. rewrite Hallow. cbn [negb]. cbv beta iota.
  rewrite Hrow. cbv beta iota. cbn [Db.attendances Db.schedules Db.users Db.auditLogs].
  eexists _, _. repeat split.
Qed.

Lemma startBreak_refused (userId storeId : string) (breakType : BreakType)
    (w : World.t) (att : Attendance.t) :
  findAttendanceForDay (World.db w) userId (today w) = Some att ->
  Verdict.allowed
    (ClockStateMachine.canTransition
       (ClockStateMachine.fromAttendance (Some att)
          (ClockStateMachine.mkBase userId storeId
             (findScheduleForDay (World.db w) userId (today w)))
          (World.clock w (S (World.reads w))))
       ClockAction.START_BREAK) = false ->
  refused (startBreak userId storeId breakType) w.
Proof.
  destruct w as [d clock reads ids made]. unfold refused, today. world_simpl.
  intros Hfind Hdeny. unfold startBreak. run_service. rewrite Hfind.
  cbv beta iota. rewrite Hdeny. cbn [negb]. cbv beta iota.
  eexists _, _. repeat split.
Qed.

(** X23: [startBreak] on the day's record is accepted exactly when the
    record is CLOCKED_IN and holds fewer breaks, ended ones included,
    than the shift type's [maxBreakCount] (3 without a schedule).  When
    accepted, the record is stored as ON_BREAK with one more break, open
    and started at the time of the call, and one audit entry is appended;
    otherwise the call fails and stores nothing. *)
Theorem startBreak_accepted_iff_working_below_max (userId storeId : string)
    (breakType : BreakType) (w : World.t) (att : Attendance.t) :
  findAttendanceForDay (World.db w) userId (today w) = Some att ->
  let maxBreaks := maxBreaksOf (findScheduleForDay (World.db w) userId (today w)) in
  (Attendance.status att = AttendanceStatus.CLOCKED_IN
   /\ Z.of_nat (List.length (Attendance.breaks att)) < maxBreaks ->
   exists res w',
     startBreak userId storeId breakType w = Returned res w'
     /\ ClockResult.success res = true
     /\ (forall a, In a (Db.attendances (World.db w')) ->
           Attendance.id a = Attendance.id att ->
           Attendance.status a = AttendanceStatus.ON_BREAK
           /\ exists a0, In a0 (Db.attendances (World.db w))
                /\ Attendance.id a0 = Attendance.id att
                /\ Attendance.breaks a
                   = (Attendance.breaks a0 ++ [startedBreak breakType w])%list)
     /\ Db.auditLogs (World.db w')
        = (Db.auditLogs (World.db w)
           ++ [AuditLog.mk userId "START_BREAK" "Attendance" (Attendance.id att)])%list)
  /\ (Attendance.status att <> AttendanceStatus.CLOCKED_IN
      \/ maxBreaks <= Z.of_nat (List.length (Attendance.breaks att)) ->
      refused (startBreak userId storeId breakType) w).
Proof.
  intros Hfind maxBreaks.
  pose proof (canTransition_startBreak att
                (ClockStateMachine.mkBase userId storeId
                   (findScheduleForDay (World.db w) userId (today w)))
                (World.clock w (S (World.reads w)))) as Hcan.
  cbn [ClockStateMachine.schedule] in Hcan. fold maxBreaks in Hcan.
  split.
  - intros [Hst Hlt]. rewrite Hst in Hcan.
    apply Z.ltb_lt in Hlt. rewrite Hlt in Hcan.
    destruct (startBreak_allowed userId storeId breakType w att Hfind Hcan)
      as (res & w' & E & S1 & _ & Hdb & _).
    exists res, w'. split; [exact E|]. split; [exact S1|].
    rewrite Hdb. cbn [Db.attendances Db.auditLogs]. split; [|reflexivity].
    intros a Ha Hid. apply List.in_map_iff in Ha. destruct Ha as (a0 & Ea & Ha0).
    destruct (hasId (Attendance.id att) a0) eqn:Hh.
    + subst a. split; [reflexivity|]. exists a0. split; [exact Ha0|].
      split; [now apply String.eqb_eq in Hh | reflexivity].
    + subst a. unfold hasId in Hh. rewrite Hid, String.eqb_refl in Hh. discriminate.
  - intros Hno. apply (startBreak_refused _ _ _ _ _ Hfind). rewrite Hcan.
    destruct Hno as [Hst|Hge].
    + destruct (Attendance.status att); try reflexivity. contradiction.
    + destruct (Attendance.status att); try reflexivity. apply Z.ltb_ge. exact Hge.
Qed.

Lemma insertBreakDesc_In (b x : Break.t) (l : list Break.t) :
  In x (insertBreakDesc b l) <-> x = b \/ In x l.
Proof.
  induction l as [|y l IH]; cbn.
  - intuition congruence.
  - destruct (_ <=? _); cbn; [intuition congruence|]. rewrite IH. intuition.
Qed.

Lemma breaksByStartDesc_In (x : Break.t) (bs : list Break.t) :
  In x (breaksByStartDesc bs) <-> In x bs.
Proof.
  unfold breaksByStartDesc. induction bs as [|b bs IH]; cbn; [tauto|].
  rewrite insertBreakDesc_In, IH. intuition congruence.
Qed.

Lemma insertBreakDesc_descending (b : Break.t) (l : list Break.t) :
  startsDescending l -> startsDescending (insertBreakDesc b l).
Proof.
  induction l as [|x l IH]; cbn [insertBreakDesc startsDescending].
  - intros _. split; [intros b' []|exact I].
  - intros [Hx Hl]. destruct (Break.startTime x <=? Break.startTime b) eqn:E.
    + apply Z.leb_le in E. cbn [startsDescending]. split; [|split; assumption].
      intros b' [<-|Hb']; [exact E|]. specialize (Hx b' Hb'). lia.
    + apply Z.leb_gt in E. cbn [startsDescending]. split; [|now apply IH].
      intros b' Hb'. apply insertBreakDesc_In in Hb'.
      destruct Hb' as [->|Hb']; [lia | now apply Hx].
Qed.

Lemma breaksByStartDesc_descending (bs : list Break.t) :
  startsDescending (breaksByStartDesc bs).
Proof.
  unfold breaksByStartDesc. induction bs as [|b bs IH]; cbn; [exact I|].
  now apply insertBreakDesc_descending.
Qed.

Lemma find_open_is_latest (bs : list Break.t) (b : Break.t) :
  startsDescending bs ->
  List.find isOpen bs = Some b ->
  forall b', In b' bs -> isOpen b' = true ->
    Break.startTime b' <= Break.startTime b.
Proof.
  induction bs as [|x bs IH]; [discriminate|].
  cbn [startsDescending List.find]. intros [Hx Hs] Hf b' Hin Hopen.
  destruct (isOpen x) eqn:Ex.
  - injection Hf as <-. destruct Hin as [<-|Hin]; [lia | now apply Hx].
  - destruct Hin as [<-|Hin]; [congruence | now apply IH].
Qed.

Lemma canTransition_endBreak (att : Attendance.t)
    (base : ClockStateMachine.Base) (now : Z) :
  Verdict.allowed
    (ClockStateMachine.canTransition
       (ClockStateMachine.fromAttendance (Some att) base now)
       ClockAction.END_BREAK)
  = match Attendance.status att with
    | AttendanceStatus.ON_BREAK => true
    | _ => false
    end.
Proof.
  unfold ClockStateMachine.canTransition, ClockStateMachine.fromAttendance,
    ClockStateMachine.deriveState.
  cbn [ClockStateMachine.state ClockStateMachine.context].
  destruct (Attendance.status att); try reflexivity.
  now destruct (_ && _).
Qed.

Lemma canTransition_on_break (att : Attendance.t)
    (base : ClockStateMachine.Base) (now : Z) (action : ClockAction.t) :
  Attendance.status att = AttendanceStatus.ON_BREAK ->
  action <> ClockAction.END_BREAK ->
  Verdict.allowed
    (ClockStateMachine.canTransition
       (ClockStateMachine.fromAttendance (Some att) base now) action)
  = false.
Proof.
  intros Hst Hact.
  unfold ClockStateMachine.canTransition, ClockStateMachine.fromAttendance,
    ClockStateMachine.deriveState.
  cbn [ClockStateMachine.state ClockStateMachine.context]. rewrite Hst.
  destruct action; try reflexivity. contradiction.
Qed.

Lemma endBreak_allowed (userId storeId : string) (w : World.t)
    (att : Attendance.t) (b : Break.t) :
  findAttendanceForDay (World.db w) userId (today w) = Some att ->
  Attendance.status att = AttendanceStatus.ON_BREAK ->
  List.find isOpen (Attendance.breaks att) = Some b ->
  let now := World.clock w (S (S (World.reads w))) in
  let durationMinutes := (now - Break.startTime b) / (1000 * 60) in
  exists res w',
    endBreak userId storeId w = Returned res w'
    /\ ClockResult.success res = true
    /\ ClockResult.message res = "結束休息 (" ++ showZ durationMinutes ++ " 分鐘)"
    /\ ClockResult.newState res = Some ClockState.WORKING
    /\ World.db w'
       = Db.mk
           (List.map
              (fun a =>
                 let a' :=
                   withBreaks a
                     (List.map (closedBreak (Break.id b) now durationMinutes)
                        (Attendance.breaks a)) in
                 if hasId (Attendance.id att) a
                 then withStatus a' AttendanceStatus.CLOCKED_IN
                 else a')
              (Db.attendances (World.db w)))
           (Db.schedules (World.db w)) (Db.users (World.db w))
           (Db.auditLogs (World.db w)
            ++ [AuditLog.mk userId "END_BREAK" "Attendance" (Attendance.id att)])
    /\ World.clock w' = World.clock w
    /\ World.reads w' = S (S (S (World.reads w))).
Proof.
  intros Hfind. destruct (findAttendanceForDay_row _ _ _ _ Hfind) as (row & Hrow).
  revert Hfind Hrow.
  destruct w as [d clock reads ids made]. unfold today. world_simpl.
  intros Hfind Hrow Hst Hopen.
  pose proof (canTransition_endBreak att
                (ClockStateMachine.mkBase userId storeId
                   (findScheduleForDay d userId (Utils.startOfDay tz (clock reads))))
                (clock (S reads))) as Hcan.
  rewrite Hst in Hcan.
  unfold endBreak. run_service. rewrite Hfind.
  cbv beta iota. rewrite Hcan. cbn [negb]. cbv beta iota.
  rewrite Hopen. cbv beta iota. rewrite Hrow. cbv beta iota.
  cbn [Db.attendances Db.schedules Db.users Db.auditLogs].
  eexists _, _. repeat split.
Qed.

Lemma endBreak_no_open_break (userId storeId : string) (w : World.t)
    (att : Attendance.t) :
  findAttendanceForDay (World.db w) userId (today w) = Some att ->
  Attendance.status att = AttendanceStatus.ON_BREAK ->
  List.find isOpen (Attendance.breaks att) = None ->
  exists res w',
    endBreak userId storeId w = Returned res w'
    /\ ClockResult.success res = false
    /\ ClockResult.message res = "找不到進行中的休息記錄"
    /\ ClockResult.attendance res = None
    /\ World.db w' = World.db w.
Proof.
  destruct w as [d clock reads ids made]. unfold today. world_simpl.
  intros Hfind Hst Hopen.
  pose proof (canTransition_endBreak att
                (ClockStateMachine.mkBase userId storeId
                   (findScheduleForDay d userId (Utils.startOfDay tz (clock reads))))
                (clock (S reads))) as Hcan.
  rewrite Hst in Hcan.
  unfold endBreak. run_service. rewrite Hfind.
  cbv beta iota. rewrite Hcan. cbn [negb]. cbv beta iota.
  rewrite Hopen. cbv beta iota.
  eexists _, _. repeat split.
Qed.

Lemma endBreak_refused (userId storeId : string) (w : World.t)
    (att : Attendance.t) :
  findAttendanceForDay (World.db w) userId (today w) = Some att ->
  Attendance.status att <> AttendanceStatus.ON_BREAK ->
  refused (endBreak userId storeId) w.
Proof.
  destruct w as [d clock reads ids made]. unfold refused, today. world_simpl.
  intros Hfind Hst.
  pose proof (canTransition_endBreak att
                (ClockStateMachine.mkBase userId storeId
                   (findScheduleForDay d userId (Utils.startOfDay tz (clock reads))))
                (clock (S reads))) as Hcan.
  unfold endBreak. run_service. rewrite Hfind.
  cbv beta iota. rewrite Hcan.
  destruct (Attendance.status att); try contradiction;
    cbn [negb]; cbv beta iota; eexists _, _; repeat split.
Qed.

(** X24: [endBreak] on a record that is ON_BREAK closes the open break
    that started last: it is stored with the time of the call as its end
    and with the whole minutes between start and end as its duration,
    the record goes back to CLOCKED_IN, and the message names the
    duration.  With no open break on the record the call fails with its
    own message and stores nothing. *)
Theorem endBreak_closes_the_latest_open_break (userId storeId : string)
    (w : World.t) (att : Attendance.t) :
  findAttendanceForDay (World.db w) userId (today w) = Some att ->
  Attendance.status att = AttendanceStatus.ON_BREAK ->
  let now := World.clock w (S (S (World.reads w))) in
  match List.find isOpen (Attendance.breaks att) with
  | Some b =>
      let durationMinutes := (now - Break.startTime b) / 60000 in
      (forall b', In b' (Attendance.breaks att) -> isOpen b' = true ->
         Break.startTime b' <= Break.startTime b)
      /\ durationMinutes * 60000 <= now - Break.startTime b
         < (durationMinutes + 1) * 60000
      /\ exists res w' a,
           endBreak userId storeId w = Returned res w'
           /\ ClockResult.success res = true
           /\ ClockResult.message res
              = "結束休息 (" ++ showZ durationMinutes ++ " 分鐘)"
           /\ In a (Db.attendances (World.db w'))
           /\ Attendance.id a = Attendance.id att
           /\ Attendance.status a = AttendanceStatus.CLOCKED_IN
           /\ In (Break.mk (Break.id b) (Break.startTime b) (Some now)
                    (Break.type b) (Some durationMinutes))
                 (Attendance.breaks a)
  | None =>
      exists res w',
        endBreak userId storeId w = Returned res w'
        /\ ClockResult.success res = false
        /\ ClockResult.message res = "找不到進行中的休息記錄"
        /\ World.db w' = World.db w
  end.
Proof.
  intros Hfind Hst now.
  destruct (List.find isOpen (Attendance.breaks att)) as [b|] eqn:Hopen.
  - intros durationMinutes.
    destruct (findAttendanceForDay_raw _ _ _ _ Hfind) as (row & Hrow & Hatt).
    split; [|split].
    + apply find_open_is_latest; [|exact Hopen].
      rewrite Hatt. cbn [withBreaks Attendance.breaks].
      apply breaksByStartDesc_descending.
    + unfold durationMinutes.
      pose proof (Z.mul_div_le (now - Break.startTime b) 60000 ltac:(lia)).
      pose proof (Z.mul_succ_div_gt (now - Break.startTime b) 60000 ltac:(lia)).
      lia.
    + destruct (endBreak_allowed userId storeId w att b Hfind Hst Hopen)
        as (res & w' & E & S1 & M & _ & Hdb & _).
      change (1000 * 60) with 60000 in M, Hdb.
      fold now in M, Hdb. fold durationMinutes in M, Hdb.
      apply List.find_some in Hrow. destruct Hrow as [Hrin _].
      apply List.find_some in Hopen. destruct Hopen as [Hbin _].
      rewrite Hatt in Hbin. cbn [withBreaks Attendance.breaks] in Hbin.
      apply (proj1 (breaksByStartDesc_In _ _)) in Hbin.
      assert (Hid : hasId (Attendance.id att) row = true).
      { rewrite Hatt. unfold hasId. cbn [withBreaks Attendance.id].
        apply String.eqb_refl. }
      exists res, w'.
      exists (withStatus
                (withBreaks row
                   (List.map (closedBreak (Break.id b) now durationMinutes)
                      (Attendance.breaks row)))
                AttendanceStatus.CLOCKED_IN).
      split; [exact E|]. split; [exact S1|]. split; [exact M|].
      split; [|split; [|split]].
      * rewrite Hdb. cbn [Db.attendances]. apply List.in_map_iff.
        exists row. cbv zeta. rewrite Hid. split; [reflexivity | exact Hrin].
      * rewrite Hatt. reflexivity.
      * reflexivity.
      * cbn [withStatus withBreaks Attendance.breaks]. apply List.in_map_iff.
        exists b. split; [|exact Hbin].
        unfold closedBreak. now rewrite String.eqb_refl.
  - destruct (endBreak_no_open_break userId storeId w att Hfind Hst Hopen)
      as (res & w' & E & S1 & M & _ & Hdb).
    exists res, w'. auto.
Qed.

Lemma find_map_same {A : Type} (p : A -> bool) (f : A -> A) (l : list A) :
  (forall a, p (f a) = p a) ->
  List.find p (List.map f l) = option_map f (List.find p l).
Proof.
  intros Hp. induction l as [|a l IH]; [reflexivity|].
  cbn. rewrite Hp. destruct (p a); [reflexivity | exact IH].
Qed.

(** The day's lookup after an update that keeps user and date of every
    row. *)
Lemma findAttendanceForDay_updated (d : Db.t) (f : Attendance.t -> Attendance.t)
    (schedules : list Schedule.t) (users : list User.t) (logs : list AuditLog.t)
    (userId : string) (day : Z) :
  (forall a, Attendance.userId (f a) = Attendance.userId a
             /\ Attendance.date (f a) = Attendance.date a) ->
  findAttendanceForDay
    (Db.mk (List.map f (Db.attendances d)) schedules users logs) userId day
  = option_map
      (fun row => withBreaks (f row) (breaksByStartDesc (Attendance.breaks (f row))))
      (List.find
         (fun a => String.eqb (Attendance.userId a) userId
                   && (Attendance.date a =? day))
         (Db.attendances d)).
Proof.
  intros Hf. unfold findAttendanceForDay. cbn [Db.attendances].
  rewrite find_map_same.
  - now destruct (List.find _ _).
  - intros a. destruct (Hf a) as [-> ->]. reflexivity.
Qed.

(** X25: After a break is started the record is on break for the rest
    of the day: on the same day, in the state [startBreak] leaves,
    clock-out, clock-in and a further [startBreak] are each refused and
    store nothing, and [endBreak] succeeds. *)
Theorem startBreak_leaves_only_endBreak (userId storeId : string)
    (breakType : BreakType) (w : World.t) (att : Attendance.t) :
  findAttendanceForDay (World.db w) userId (today w) = Some att ->
  Attendance.status att = AttendanceStatus.CLOCKED_IN ->
  Z.of_nat (List.length (Attendance.breaks att))
  < maxBreaksOf (findScheduleForDay (World.db w) userId (today w)) ->
  exists res w',
    startBreak userId storeId breakType w = Returned res w'
    /\ ClockResult.success res = true
    /\ (today w' = today w ->
        refused (clockOut userId storeId) w'
        /\ refused (clockIn userId storeId) w'
        /\ (forall breakType', refused (startBreak userId storeId breakType') w')
        /\ succeeded (endBreak userId storeId w') = true).
Proof.
  intros Hfind Hst Hlt.
  pose proof (canTransition_startBreak att
                (ClockStateMachine.mkBase userId storeId
                   (findScheduleForDay (World.db w) userId (today w)))
                (World.clock w (S (World.reads w)))) as Hcan.
  cbn [ClockStateMachine.schedule] in Hcan.
  rewrite Hst in Hcan. apply Z.ltb_lt in Hlt. rewrite Hlt in Hcan.
  destruct (startBreak_allowed userId storeId breakType w att Hfind Hcan)
    as (res & w' & E & S1 & _ & Hdb & _).
  exists res, w'. split; [exact E|]. split; [exact S1|]. intros Hday.
  destruct (findAttendanceForDay_raw _ _ _ _ Hfind) as (row & Hrow & Hatt).
  assert (Hid : hasId (Attendance.id att) row = true).
  { rewrite Hatt. unfold hasId. cbn [withBreaks Attendance.id].
    apply String.eqb_refl. }
  set (att' := withBreaks
                 (withStatus
                    (withBreaks row
                       (Attendance.breaks row ++ [startedBreak breakType w]))
                    AttendanceStatus.ON_BREAK)
                 (breaksByStartDesc
                    (Attendance.breaks row ++ [startedBreak breakType w]))).
  assert (Hfind' : findAttendanceForDay (World.db w') userId (today w') = Some att').
  { rewrite Hday, Hdb, findAttendanceForDay_updated.
    - rewrite Hrow. cbn [option_map]. rewrite Hid. reflexivity.
    - intros a. now destruct (hasId _ a). }
  assert (Hst' : Attendance.status att' = AttendanceStatus.ON_BREAK) by reflexivity.
  split; [|split; [|split]].
  - apply (clockOut_denied _ _ _ _ Hfind').
    now apply canTransition_on_break.
  - apply (clockIn_refused _ _ _ _ Hfind').
  - intros breakType'. apply (startBreak_refused _ _ _ _ _ Hfind').
    now apply canTransition_on_break.
  - destruct (List.find isOpen (Attendance.breaks att')) as [b|] eqn:Hopen.
    + destruct (endBreak_allowed userId storeId w' att' b Hfind' Hst' Hopen)
        as (res2 & w2 & E2 & S2 & _).
      unfold succeeded. now rewrite E2.
    + exfalso.
      pose proof (List.find_none _ _ Hopen (startedBreak breakType w)) as C.
      cbn in C. discriminate C.
      apply breaksByStartDesc_In. apply List.in_app_iff. right. now left.
Qed.

(* ------------------------------------------------------------------ *)
(** ** The attendance service: what a call stores *)

Lemma storedStep_nothing (userId action : string) (w : World.t)
    (o : Outcome ClockResult.t) :
  succeeded o = false -> World.db (worldOf o) = World.db w ->
  storedStep userId action w o.
Proof. intros; left; split; assumption. Qed.

Lemma storedStep_update (userId action : string) (w : World.t)
    (o : Outcome ClockResult.t) (f : Attendance.t -> Attendance.t) (id : string) :
  succeeded o = true ->
  (forall a, dayKey (f a) = dayKey a /\ Attendance.id (f a) = Attendance.id a) ->
  World.db (worldOf o)
  = Db.mk (List.map f (Db.attendances (World.db w)))
      (Db.schedules (World.db w)) (Db.users (World.db w))
      (Db.auditLogs (World.db w) ++ [AuditLog.mk userId action "Attendance" id]) ->
  storedStep userId action w o.
Proof.
  intros S1 Hf Hdb. right. split; [exact S1|]. exists f, [], id.
  rewrite List.app_nil_r. auto.
Qed.

Lemma clockIn_storedStep (userId storeId : string) (w : World.t) :
  storedStep userId "CLOCK_IN" w (clockIn userId storeId w).
Proof.
  destruct (findAttendanceForDay (World.db w) userId (today w)) as [att|] eqn:Hfind.
  - destruct (clockIn_refused userId storeId w att Hfind) as (res & w' & E & S1 & _ & Hdb).
    apply storedStep_nothing; rewrite E; assumption.
  - destruct (findAttendanceForDay (World.db w) userId
                (Utils.startOfDay tz (World.clock w (S (S (World.reads w))))))
      as [other|] eqn:Hnew.
    + apply storedStep_nothing.
      * revert Hfind Hnew. destruct w as [d clock reads ids made].
        unfold today. world_simpl. intros Hfind Hnew.
        unfold clockIn. run_service. rewrite Hfind. cbn. rewrite Hnew. reflexivity.
      * revert Hfind Hnew. destruct w as [d clock reads ids made].
        unfold today. world_simpl. intros Hfind Hnew.
        unfold clockIn. run_service. rewrite Hfind. cbn. rewrite Hnew. reflexivity.
    + destruct (clockIn_created userId storeId w Hfind Hnew)
        as (res & w' & E & S1 & _ & _ & Hdb & _).
      right. rewrite E. split; [exact S1|].
      exists (fun a => a), [clockInRow userId storeId w], (World.ids w (World.made w)).
      split; [now intros a|]. split.
      * cbn [worldOf]. rewrite Hdb, List.map_id. reflexivity.
      * right. exists (clockInRow userId storeId w). split; [reflexivity|].
        split; [|reflexivity].
        intros a Ha C. apply findAttendanceForDay_none in Hnew.
        pose proof (List.find_none _ _ Hnew a Ha) as N. cbn beta in N.
        unfold dayKey, clockInRow in C. cbn in C. injection C as C1 C2.
        rewrite C1, C2, String.eqb_refl, Z.eqb_refl in N. discriminate.
Qed.

Lemma no_record_refused (userId storeId : string) (w : World.t) :
  findAttendanceForDay (World.db w) userId (today w) = None ->
  refused (clockOut userId storeId) w
  /\ (forall breakType, refused (startBreak userId storeId breakType) w)
  /\ refused (endBreak userId storeId) w.
Proof.
  destruct w as [d clock reads ids made]. unfold refused, today. world_simpl.
  intros Hfind. repeat split; try intros breakType.
  - unfold clockOut. run_service. rewrite Hfind. eexists _, _. repeat split.
  - unfold startBreak. run_service. rewrite Hfind. eexists _, _. repeat split.
  - unfold endBreak. run_service. rewrite Hfind. eexists _, _. repeat split.
Qed.

Lemma refused_storedStep (userId action : string) (op : IO ClockResult.t)
    (w : World.t) :
  refused op w -> storedStep userId action w (op w).
Proof.
  intros (res & w' & E & S1 & _ & Hdb).
  apply storedStep_nothing; rewrite E; assumption.
Qed.

Lemma clockOut_stored (userId storeId : string) (w : World.t)
    (att : Attendance.t) (clockIn : Z) :
  findAttendanceForDay (World.db w) userId (today w) = Some att ->
  Verdict.allowed
    (ClockStateMachine.canTransition
       (ClockStateMachine.fromAttendance (Some att)
          (ClockStateMachine.mkBase userId storeId
             (findScheduleForDay (World.db w) userId (today w)))
          (World.clock w (S (World.reads w))))
       ClockAction.CLOCK_OUT) = true ->
  Attendance.clockIn att = Some clockIn ->
  let now := World.clock w (S (S (World.reads w))) in
  exists workHours w1 res w',
    calculateWorkHours
      (WorkHoursInput.mk clockIn now
         (Attendance.clockIn2 att) (Attendance.clockOut2 att)
         (List.map breakInput (Attendance.breaks att))
         (option_map Schedule.shiftType
            (findScheduleForDay (World.db w) userId (today w))))
      (World.atRead w (S (S (S (World.reads w)))))
    = Returned workHours w1
    /\ clockOut userId storeId w = Returned res w'
    /\ ClockResult.success res = true
    /\ World.db w'
       = Db.mk
           (List.map
              (fun a =>
                 if hasId (Attendance.id att) a
                 then clockedOut a now
                        (if WorkHoursResult.requiresReview workHours
                         then AttendanceStatus.PENDING_REVIEW
                         else AttendanceStatus.CLOCKED_OUT)
                        workHours
                 else a)
              (Db.attendances (World.db w)))
           (Db.schedules (World.db w)) (Db.users (World.db w))
           (Db.auditLogs (World.db w)
            ++ [AuditLog.mk userId "CLOCK_OUT" "Attendance" (Attendance.id att)]).
Proof.
  intros Hfind Hallow Hin now.
  destruct (findAttendanceForDay_row _ _ _ _ Hfind) as (row & Hrow).
  match goal with
  | |- exists _ _ _ _, calculateWorkHours ?i ?w3 = _ /\ _ =>
      destruct (calculateWorkHours_returns i w3) as (r & w4 & E & [Sd Sc] & _)
  end.
  unfold World.atRead in Sd, Sc. cbn [World.db World.clock] in Sd, Sc.
  exists r, w4. unfold World.atRead in E |- *.
  unfold clockOut, getTodayAttendance.
  unfold bind at 1. unfold bind at 1. cbn [newDate].
  unfold bind at 1. cbn [getDb]. world_simpl. unfold ret at 1.
  fold (today w). rewrite Hfind.
  unfold bind at 1. cbn [newDate]. world_simpl.
  rewrite Hallow. cbn [negb].
  unfold bind at 1. cbn [newDate]. world_simpl.
  rewrite Hin.
  unfold bind at 1. fold now. rewrite E.
  unfold updateAttendance, createAuditLog, putDb, getDb, bind, ret.
  rewrite Sd, Hrow. world_simpl.
  eexists _, _. split; [reflexivity|]. split; [reflexivity|].
  split; [reflexivity|].
  cbn [Db.attendances Db.schedules Db.users Db.auditLogs]. reflexivity.
Qed.

Lemma clockOut_storedStep (userId storeId : string) (w : World.t) :
  storedStep userId "CLOCK_OUT" w (clockOut userId storeId w).
Proof.
  destruct (findAttendanceForDay (World.db w) userId (today w)) as [att|] eqn:Hfind.
  2:{ apply refused_storedStep. now apply no_record_refused. }
  destruct (Verdict.allowed
              (ClockStateMachine.canTransition
                 (ClockStateMachine.fromAttendance (Some att)
                    (ClockStateMachine.mkBase userId storeId
                       (findScheduleForDay (World.db w) userId (today w)))
                    (World.clock w (S (World.reads w))))
                 ClockAction.CLOCK_OUT)) eqn:Hallow.
  2:{ apply refused_storedStep. apply (clockOut_denied _ _ _ _ Hfind Hallow). }
  destruct (Attendance.clockIn att) as [clockIn|] eqn:Hin.
  - destruct (clockOut_stored userId storeId w att clockIn Hfind Hallow Hin)
      as (r & w1 & res & w' & _ & E & S1 & Hdb).
    apply storedStep_update with
      (f := fun a =>
              if hasId (Attendance.id att) a
              then clockedOut a (World.clock w (S (S (World.reads w))))
                     (if WorkHoursResult.requiresReview r
                      then AttendanceStatus.PENDING_REVIEW
                      else AttendanceStatus.CLOCKED_OUT) r
              else a)
      (id := Attendance.id att).
    + now rewrite E.
    + intros a. now destruct (hasId _ a).
    + rewrite E. exact Hdb.
  - revert Hfind Hallow. destruct w as [d clock reads ids made].
    unfold today. world_simpl. intros Hfind Hallow.
    apply storedStep_nothing; unfold clockOut; run_service; rewrite Hfind;
      cbv beta iota; rewrite Hallow; cbn [negb]; cbv beta iota;
      rewrite Hin; reflexivity.
Qed.

Lemma startBreak_storedStep (userId storeId : string) (breakType : BreakType)
    (w : World.t) :
  storedStep userId "START_BREAK" w (startBreak userId storeId breakType w).
Proof.
  destruct (findAttendanceForDay (World.db w) userId (today w)) as [att|] eqn:Hfind.
  2:{ apply refused_storedStep. now apply no_record_refused. }
  destruct (Verdict.allowed
              (ClockStateMachine.canTransition
                 (ClockStateMachine.fromAttendance (Some att)
                    (ClockStateMachine.mkBase userId storeId
                       (findScheduleForDay (World.db w) userId (today w)))
                    (World.clock w (S (World.reads w))))
                 ClockAction.START_BREAK)) eqn:Hallow.
  2:{ apply refused_storedStep. apply (startBreak_refused _ _ _ _ _ Hfind Hallow). }
  destruct (startBreak_allowed userId storeId breakType w att Hfind Hallow)
    as (res & w' & E & S1 & _ & Hdb & _).
  apply storedStep_update with
    (f := fun a =>
            if hasId (Attendance.id att) a
            then withStatus
                   (withBreaks a (Attendance.breaks a ++ [startedBreak breakType w]))
                   AttendanceStatus.ON_BREAK
            else a)
    (id := Attendance.id att).
  - now rewrite E.
  - intros a. now destruct (hasId _ a).
  - rewrite E. exact Hdb.
Qed.

Lemma endBreak_storedStep (userId storeId : string) (w : World.t) :
  storedStep userId "END_BREAK" w (endBreak userId storeId w).
Proof.
  destruct (findAttendanceForDay (World.db w) userId (today w)) as [att|] eqn:Hfind.
  2:{ apply refused_storedStep. now apply no_record_refused. }
  assert (D : {Attendance.status att = AttendanceStatus.ON_BREAK}
              + {Attendance.status att <> AttendanceStatus.ON_BREAK}).
  { destruct (Attendance.status att); (now left) || (right; discriminate). }
  destruct D as [Hst|Hst].
  2:{ apply refused_storedStep. apply (endBreak_refused _ _ _ _ Hfind Hst). }
  destruct (List.find isOpen (Attendance.breaks att)) as [b|] eqn:Hopen.
  - destruct (endBreak_allowed userId storeId w att b Hfind Hst Hopen)
      as (res & w' & E & S1 & _ & _ & Hdb & _).
    apply storedStep_update with
      (f := fun a =>
              let a' :=
                withBreaks a
                  (List.map
                     (closedBreak (Break.id b)
                        (World.clock w (S (S (World.reads w))))
                        ((World.clock w (S (S (World.reads w)))
                          - Break.startTime b) / (1000 * 60)))
                     (Attendance.breaks a)) in
              if hasId (Attendance.id att) a
              then withStatus a' AttendanceStatus.CLOCKED_IN
              else a')
      (id := Attendance.id att).
    + now rewrite E.
    + intros a. cbv zeta. now destruct (hasId _ a).
    + rewrite E. exact Hdb.
  - destruct (endBreak_no_open_break userId storeId w att Hfind Hst Hopen)
      as (res & w' & E & S1 & _ & _ & Hdb).
    apply storedStep_nothing; rewrite E; assumption.
Qed.

Lemma serviceCall_storedStep (userId storeId : string) (action : ClockAction.t)
    (op : IO ClockResult.t) (w : World.t) :
  serviceCall userId storeId action op ->
  storedStep userId (ClockAction.toString action) w (op w).
Proof.
  intros [| |breakType|].
  - apply clockIn_storedStep.
  - apply clockOut_storedStep.
  - apply startBreak_storedStep.
  - apply endBreak_storedStep.
Qed.

(** X26: A call of the service that does not report success, whether
    it returns a failure or throws, leaves storage exactly as it was.  A
    call that succeeds appends one audit entry naming the user and the
    action, leaves schedules and users untouched, keeps the id of every
    attendance row in place and adds at most one row. *)
Theorem service_call_stores_nothing_unless_it_succeeds
    (userId storeId : string) (action : ClockAction.t) (op : IO ClockResult.t)
    (w : World.t) :
  serviceCall userId storeId action op ->
  (succeeded (op w) = false -> World.db (worldOf (op w)) = World.db w)
  /\ (succeeded (op w) = true ->
      Db.schedules (World.db (worldOf (op w))) = Db.schedules (World.db w)
      /\ Db.users (World.db (worldOf (op w))) = Db.users (World.db w)
      /\ (exists id,
            Db.auditLogs (World.db (worldOf (op w)))
            = (Db.auditLogs (World.db w)
               ++ [AuditLog.mk userId (ClockAction.toString action)
                     "Attendance" id])%list)
      /\ exists extra,
           List.map Attendance.id (Db.attendances (World.db (worldOf (op w))))
           = (List.map Attendance.id (Db.attendances (World.db w))
              ++ List.map Attendance.id extra)%list
           /\ (List.length extra <= 1)%nat).
Proof.
  intros Hcall.
  destruct (serviceCall_storedStep userId storeId action op w Hcall)
    as [[S0 Hdb]|(S1 & f & extra & id & Hf & Hdb & Hextra)].
  - split; [intros _; exact Hdb | intros C; congruence].
  - split; [intros C; congruence|]. intros _. rewrite Hdb.
    cbn [Db.schedules Db.users Db.auditLogs Db.attendances].
    split; [reflexivity|]. split; [reflexivity|]. split; [now exists id|].
    exists extra. split.
    + rewrite List.map_app, List.map_map. f_equal.
      apply List.map_ext. intros a. now destruct (Hf a).
    + destruct Hextra as [->|(row & -> & _)]; cbn; lia.
Qed.

(** X27: The service keeps one attendance record per user and day: if
    no two stored records share user and date before a call, none do
    after it, whatever the call's outcome.  The service's own lookup
    sees to it: unless midnight passes during the call, clockIn returns
    a result and is not stopped by the storage's unique key. *)
Theorem service_call_keeps_one_record_per_day
    (userId storeId : string) (action : ClockAction.t) (op : IO ClockResult.t)
    (w : World.t) :
  serviceCall userId storeId action op ->
  oneRecordPerDay (World.db w) ->
  oneRecordPerDay (World.db (worldOf (op w)))
  /\ (Utils.startOfDay tz (World.clock w (S (S (World.reads w)))) = today w ->
      exists res w', clockIn userId storeId w = Returned res w').
Proof.
  intros Hcall Huniq. split.
  2:{ intros Hday.
      destruct (findAttendanceForDay (World.db w) userId (today w)) as [att|] eqn:Hfind.
      - destruct (clockIn_refused userId storeId w att Hfind) as (res & w' & E & _).
        now exists res, w'.
      - assert (Hnew : findAttendanceForDay (World.db w) userId
                         (Utils.startOfDay tz (World.clock w (S (S (World.reads w)))))
                       = None) by (rewrite Hday; exact Hfind).
        destruct (clockIn_created userId storeId w Hfind Hnew) as (res & w' & E & _).
        now exists res, w'. }
  destruct (serviceCall_storedStep userId storeId action op w Hcall)
    as [[S0 Hdb]|(S1 & f & extra & id & Hf & Hdb & Hextra)].
  - now rewrite Hdb.
  - unfold oneRecordPerDay in *. rewrite Hdb. cbn [Db.attendances].
    rewrite List.map_app, List.map_map.
    assert (Hkeys : List.map (fun a => dayKey (f a)) (Db.attendances (World.db w))
                    = List.map dayKey (Db.attendances (World.db w))).
    { apply List.map_ext. intros a. now destruct (Hf a). }
    rewrite Hkeys. destruct Hextra as [->|(row & -> & Hfresh & _)].
    + cbn. now rewrite List.app_nil_r.
    + apply NoDup_app; [exact Huniq | repeat constructor; intros [] |].
      intros k Hk [<-|[]]. apply List.in_map_iff in Hk.
      destruct Hk as (a & Ek & Ha). exact (Hfresh a Ha Ek).
Qed.

Lemma canTransition_clockOut (att : Attendance.t)
    (base : ClockStateMachine.Base) (now : Z) :
  Verdict.allowed
    (ClockStateMachine.canTransition
       (ClockStateMachine.fromAttendance (Some att) base now)
       ClockAction.CLOCK_OUT)
  = match Attendance.status att with
    | AttendanceStatus.CLOCKED_IN =>
        negb (List.existsb isOpen (Attendance.breaks att))
    | AttendanceStatus.ON_BREAK => false
    | AttendanceStatus.CLOCKED_OUT =>
        ClockStateMachine.scheduleIsSplit (ClockStateMachine.schedule base)
        && match Attendance.clockIn2 att with
           | Some _ => true
           | None => false
           end
    | _ => ClockStateMachine.scheduleIsSplit (ClockStateMachine.schedule base)
    end.
Proof.
  assert (Hsplit : forall ctx : ClockContext.t,
             ClockContext.schedule ctx = ClockStateMachine.schedule base ->
             Verdict.allowed (guardSplitEntry ctx)
             = ClockStateMachine.scheduleIsSplit (ClockStateMachine.schedule base)).
  { intros ctx Hc. unfold guardSplitEntry, contextShiftType,
      ClockStateMachine.scheduleIsSplit. rewrite Hc.
    destruct (ClockStateMachine.schedule base) as [s|]; cbn; [|reflexivity].
    now destruct (ShiftType.isSplit _). }
  unfold ClockStateMachine.canTransition, ClockStateMachine.fromAttendance,
    ClockStateMachine.deriveState.
  cbn [ClockStateMachine.state ClockStateMachine.context].
  destruct (Attendance.status att) eqn:Hst;
    try (cbn [ClockStateMachine.findTransition]; cbn; now apply Hsplit).
  - cbn. unfold guardClockOut, contextBreaks.
    cbn [ClockContext.attendance option_map].
    destruct (List.find isOpen (Attendance.breaks att)) as [b|] eqn:Hopen.
    + apply List.find_some in Hopen. destruct Hopen as [Hin Hb].
      assert (E : List.existsb isOpen (Attendance.breaks att) = true).
      { apply List.existsb_exists. eauto. }
      now rewrite E.
    + destruct (List.existsb isOpen (Attendance.breaks att)) eqn:E; [|reflexivity].
      destruct (existsb_find _ _ E) as (b & Hb). congruence.
  - reflexivity.
  - destruct (ClockStateMachine.scheduleIsSplit (ClockStateMachine.schedule base))
      eqn:Es; destruct (Attendance.clockIn2 att); cbn [andb];
      try reflexivity; cbn; now rewrite Hsplit by reflexivity.
Qed.

(** X28: A split shift cannot be resumed through the service: once the
    day's record is CLOCKED_OUT with no second clock-in and the day's
    schedule is a split shift, each of the four operations is refused
    and stores nothing. *)
Theorem split_break_refuses_every_service_call (userId storeId : string)
    (w : World.t) (att : Attendance.t) (sched : Schedule.t)
    (action : ClockAction.t) (op : IO ClockResult.t) :
  findAttendanceForDay (World.db w) userId (today w) = Some att ->
  Attendance.status att = AttendanceStatus.CLOCKED_OUT ->
  Attendance.clockIn2 att = None ->
  findScheduleForDay (World.db w) userId (today w) = Some sched ->
  ShiftType.isSplit (Schedule.shiftType sched) = true ->
  serviceCall userId storeId action op ->
  ClockStateMachine.deriveState (Some att) (Some sched) = ClockState.SPLIT_BREAK
  /\ refused op w.
Proof.
  intros Hfind Hst Hin2 Hsched Hsplit Hcall. split.
  { unfold ClockStateMachine.deriveState, ClockStateMachine.scheduleIsSplit.
    now rewrite Hst, Hin2, Hsplit. }
  destruct Hcall as [| |breakType|].
  - apply (clockIn_refused _ _ _ _ Hfind).
  - apply (clockOut_denied _ _ _ _ Hfind).
    rewrite canTransition_clockOut, Hst, Hin2. apply andb_false_r.
  - apply (startBreak_refused _ _ _ _ _ Hfind).
    now rewrite canTransition_startBreak, Hst.
  - apply (endBreak_refused _ _ _ _ Hfind). rewrite Hst. discriminate.
Qed.

(** X29: Which records [clockOut] accepts.  For a record with a
    clock-in time the call succeeds exactly when the record is
    CLOCKED_IN with no open break, or the day's schedule is a split
    shift and the record is either CLOCKED_OUT with a second clock-in or
    in one of the statuses PENDING_REVIEW, APPROVED, ABSENT, REJECTED.
    When it succeeds, every stored row with the record's id has the time
    of the call as its clock-out, net minutes equal to total minus break
    minutes, and status CLOCKED_OUT or PENDING_REVIEW, whatever the
    status was before. *)
Theorem clockOut_accepted_records (userId storeId : string) (w : World.t)
    (att : Attendance.t) (clockIn : Z) :
  findAttendanceForDay (World.db w) userId (today w) = Some att ->
  Attendance.clockIn att = Some clockIn ->
  let split :=
    ClockStateMachine.scheduleIsSplit
      (findScheduleForDay (World.db w) userId (today w)) in
  succeeded (clockOut userId storeId w)
  = match Attendance.status att with
    | AttendanceStatus.CLOCKED_IN =>
        negb (List.existsb isOpen (Attendance.breaks att))
    | AttendanceStatus.ON_BREAK => false
    | AttendanceStatus.CLOCKED_OUT =>
        split && match Attendance.clockIn2 att with
                 | Some _ => true
                 | None => false
                 end
    | _ => split
    end
  /\ (succeeded (clockOut userId storeId w) = true ->
      forall a, In a (Db.attendances (World.db (worldOf (clockOut userId storeId w)))) ->
        Attendance.id a = Attendance.id att ->
        Attendance.clockOut a = Some (World.clock w (S (S (World.reads w))))
        /\ (Attendance.status a = AttendanceStatus.CLOCKED_OUT
            \/ Attendance.status a = AttendanceStatus.PENDING_REVIEW)
        /\ exists total brk,
             Attendance.totalMinutes a = Some total
             /\ Attendance.breakMinutes a = Some brk
             /\ Attendance.netWorkMinutes a = Some (total - brk)).
Proof.
  intros Hfind Hin split.
  pose proof (canTransition_clockOut att
                (ClockStateMachine.mkBase userId storeId
                   (findScheduleForDay (World.db w) userId (today w)))
                (World.clock w (S (World.reads w)))) as Hcan.
  cbn [ClockStateMachine.schedule] in Hcan. fold split in Hcan.
  rewrite <- Hcan.
  destruct (Verdict.allowed _) eqn:Hallow in |- *.
  - destruct (clockOut_stored userId storeId w att clockIn Hfind Hallow Hin)
      as (r & w1 & res & w' & Er & E & S1 & Hdb).
    rewrite E. cbn [succeeded worldOf]. split; [exact S1|]. intros _ a Ha Hid.
    rewrite Hdb in Ha. cbn [Db.attendances] in Ha.
    apply List.in_map_iff in Ha. destruct Ha as (a0 & Ea & _).
    destruct (hasId (Attendance.id att) a0) eqn:Hh.
    + subst a. cbn [clockedOut Attendance.clockOut Attendance.status
                    Attendance.totalMinutes Attendance.breakMinutes
                    Attendance.netWorkMinutes].
      split; [reflexivity|]. split.
      * destruct (WorkHoursResult.requiresReview r); [now right | now left].
      * destruct (calculateWorkHours_returns
                    (WorkHoursInput.mk clockIn
                       (World.clock w (S (S (World.reads w))))
                       (Attendance.clockIn2 att) (Attendance.clockOut2 att)
                       (List.map breakInput (Attendance.breaks att))
                       (option_map Schedule.shiftType
                          (findScheduleForDay (World.db w) userId (today w))))
                    (World.atRead w (S (S (S (World.reads w))))))
          as (r' & w1' & Er' & _ & _ & Hnet & _).
        rewrite Er in Er'. injection Er' as <- <-.
        exists (WorkHoursResult.totalMinutes r), (WorkHoursResult.breakMinutes r).
        now rewrite Hnet.
    + subst a. unfold hasId in Hh. rewrite Hid, String.eqb_refl in Hh. discriminate.
  - destruct (clockOut_denied userId storeId w att Hfind Hallow)
      as (res & w' & E & S0 & _).
    rewrite E. cbn [succeeded]. split; [exact S0|]. intros C. congruence.
Qed.

(* ------------------------------------------------------------------ *)
(** ** Split shifts in review *)

(** C9 (amended): a record whose status is none of ON_BREAK, CLOCKED_IN,
    CLOCKED_OUT derives CLOCKED_OUT; SPLIT_BREAK is derived exactly from
    status CLOCKED_OUT on a split shift with clockIn2 null; so a record
    derives no SPLIT_BREAK and is denied CLOCK_IN_SEGMENT_2 while its
    status is PENDING_REVIEW.  The status does not stay: on a split shift
    clock-out is accepted again from such a record and stores the status
    anew, CLOCKED_OUT when the recalculation asks for no review, and the
    day then derives SPLIT_BREAK. *)
Theorem fromAttendance_split_break_only_from_clocked_out
    (attendance : option Attendance.t) (ctx : ClockStateMachine.Base) (now : Z) :
  let m := ClockStateMachine.fromAttendance attendance ctx now in
  (forall att, attendance = Some att ->
     Attendance.status att <> AttendanceStatus.ON_BREAK ->
     Attendance.status att <> AttendanceStatus.CLOCKED_IN ->
     Attendance.status att <> AttendanceStatus.CLOCKED_OUT ->
     ClockStateMachine.state m = ClockState.CLOCKED_OUT)
  /\ (ClockStateMachine.state m = ClockState.SPLIT_BREAK <->
      exists att, attendance = Some att
        /\ Attendance.status att = AttendanceStatus.CLOCKED_OUT
        /\ ClockStateMachine.scheduleIsSplit (ClockStateMachine.schedule ctx) = true
        /\ Attendance.clockIn2 att = None)
  /\ (forall att, attendance = Some att ->
      Attendance.status att = AttendanceStatus.PENDING_REVIEW ->
      ClockStateMachine.state m = ClockState.CLOCKED_OUT
      /\ Verdict.allowed
           (ClockStateMachine.canTransition m ClockAction.CLOCK_IN_SEGMENT_2) = false
      /\ ClockStateMachine.getNextState m ClockAction.CLOCK_IN_SEGMENT_2 = None)
  /\ (forall (userId storeId : string) (w : World.t) (att : Attendance.t)
             (sched : Schedule.t) (clockIn : Z),
        findAttendanceForDay (World.db w) userId (today w) = Some att ->
        findScheduleForDay (World.db w) userId (today w) = Some sched ->
        ShiftType.isSplit (Schedule.shiftType sched) = true ->
        Attendance.status att = AttendanceStatus.PENDING_REVIEW ->
        Attendance.clockIn att = Some clockIn ->
        Attendance.clockIn2 att = None ->
        exists workHours w1 res w',
          calculateWorkHours
            (WorkHoursInput.mk clockIn (World.clock w (S (S (World.reads w))))
               None (Attendance.clockOut2 att)
               (List.map breakInput (Attendance.breaks att))
               (Some (Schedule.shiftType sched)))
            (World.atRead w (S (S (S (World.reads w)))))
          = Returned workHours w1
          /\ clockOut userId storeId w = Returned res w'
          /\ ClockResult.success res = true
          /\ (WorkHoursResult.requiresReview workHours = false ->
              today w' = today w ->
              exists att',
                findAttendanceForDay (World.db w') userId (today w') = Some att'
                /\ Attendance.id att' = Attendance.id att
                /\ Attendance.status att' = AttendanceStatus.CLOCKED_OUT
                /\ ClockStateMachine.deriveState (Some att')
                     (findScheduleForDay (World.db w') userId (today w'))
                   = ClockState.SPLIT_BREAK)).
Proof.
  cbv zeta. unfold ClockStateMachine.fromAttendance.
  split; [|split; [|split]].
  - intros att -> H1 H2 H3. cbn.
    destruct (Attendance.status att); congruence.
  - cbn [ClockStateMachine.state]. unfold ClockStateMachine.deriveState. split.
    + destruct attendance as [att|]; [|discriminate].
      destruct (Attendance.status att) eqn:St; try discriminate.
      destruct (ClockStateMachine.scheduleIsSplit _) eqn:Sp; cbn; [|discriminate].
      destruct (Attendance.clockIn2 att) eqn:C2; [discriminate|].
      intros _. exists att. repeat split; assumption.
    + intros (att & -> & St & Sp & C2). rewrite St, Sp, C2. reflexivity.
  - intros att -> St.
    unfold ClockStateMachine.canTransition, ClockStateMachine.getNextState.
    cbn [ClockStateMachine.state]. unfold ClockStateMachine.deriveState.
    rewrite St. repeat split.
  - intros userId storeId w att sched clockIn Hfind Hsched Hsplit Hst Hin Hin2.
    pose proof (canTransition_clockOut att
                  (ClockStateMachine.mkBase userId storeId
                     (findScheduleForDay (World.db w) userId (today w)))
                  (World.clock w (S (World.reads w)))) as Hcan.
    cbn [ClockStateMachine.schedule] in Hcan.
    rewrite Hst, Hsched in Hcan.
    unfold ClockStateMachine.scheduleIsSplit in Hcan. rewrite Hsplit in Hcan.
    rewrite <- Hsched in Hcan.
    destruct (clockOut_stored userId storeId w att clockIn Hfind Hcan Hin)
      as (r & w1 & res & w' & Er & E & S1 & Hdb).
    rewrite Hsched, Hin2 in Er. cbn [option_map] in Er.
    exists r, w1, res, w'. split; [exact Er|]. split; [exact E|].
    split; [exact S1|]. intros Hrev Hday.
    destruct (findAttendanceForDay_raw _ _ _ _ Hfind) as (row & Hrow & Hatt).
    assert (Hid : hasId (Attendance.id att) row = true).
    { rewrite Hatt. unfold hasId. cbn [withBreaks Attendance.id].
      apply String.eqb_refl. }
    assert (Hs' : findScheduleForDay (World.db w') userId (today w') = Some sched).
    { rewrite Hday, Hdb. exact Hsched. }
    rewrite Hs'. rewrite Hday, Hdb, findAttendanceForDay_updated.
    2:{ intros a. now destruct (hasId _ a). }
    rewrite Hrow. cbn [option_map]. rewrite Hid, Hrev.
    eexists. split; [reflexivity|].
    split; [rewrite Hatt; reflexivity|]. split; [reflexivity|].
    unfold ClockStateMachine.deriveState, ClockStateMachine.scheduleIsSplit.
    cbn [withBreaks clockedOut Attendance.status Attendance.clockIn2].
    rewrite Hsplit.
    replace (Attendance.clockIn2 row) with (Attendance.clockIn2 att)
      by (rewrite Hatt; reflexivity).
    rewrite Hin2. reflexivity.
Qed.

(* ------------------------------------------------------------------ *)
(** ** The attendance service: the state it reports *)

Lemma allowed_is_listed (m : ClockStateMachine.t) (action : ClockAction.t) :
  Verdict.allowed (ClockStateMachine.canTransition m action) = true ->
  exists item,
    In item (ClockStateMachine.getAvailableActions m)
    /\ ClockStateMachine.Available.action item = action
    /\ ClockStateMachine.Available.allowed item = true.
Proof.
  intros H.
  exists (ClockStateMachine.Available.mk action true
            (Verdict.reason (ClockStateMachine.canTransition m action))).
  split; [|split; reflexivity].
  revert H. destruct m as [s ctx]. unfold ClockStateMachine.canTransition.
  cbn [ClockStateMachine.state ClockStateMachine.context].
  destruct s, action; cbn; intros H; try discriminate;
    try rewrite H; repeat (first [left; reflexivity | right]).
Qed.

Lemma refused_not_succeeded (op : IO ClockResult.t) (w : World.t) :
  refused op w -> succeeded (op w) = false.
Proof. intros (res & w' & E & S0 & _). now rewrite E. Qed.

Lemma getCurrentState_runs (userId storeId : string) (w : World.t) :
  getCurrentState userId storeId w
  = Returned
      (let attendance := findAttendanceForDay (World.db w) userId (today w) in
       let schedule := findScheduleForDay (World.db w) userId (today w) in
       let stateMachine :=
         ClockStateMachine.fromAttendance attendance
           (ClockStateMachine.mkBase userId storeId schedule)
           (World.clock w (S (World.reads w))) in
       CurrentState.mk
         (ClockStateMachine.state stateMachine)
         (ClockStateMachine.getAvailableActions stateMachine)
         attendance schedule)
      (World.atRead w (S (S (World.reads w)))).
Proof. reflexivity. Qed.

Lemma succeeded_is_allowed (userId storeId : string) (action : ClockAction.t)
    (op : IO ClockResult.t) (w : World.t) :
  serviceCall userId storeId action op ->
  succeeded (op w) = true ->
  Verdict.allowed
    (ClockStateMachine.canTransition
       (ClockStateMachine.fromAttendance
          (findAttendanceForDay (World.db w) userId (today w))
          (ClockStateMachine.mkBase userId storeId
             (findScheduleForDay (World.db w) userId (today w)))
          (World.clock w (S (World.reads w))))
       action) = true.
Proof.
  intros Hcall Hok.
  destruct (findAttendanceForDay (World.db w) userId (today w)) as [att|] eqn:Hfind.
  - destruct (Verdict.allowed _) eqn:Hallow; [reflexivity|]. exfalso.
    assert (R : refused op w).
    { destruct Hcall as [| |breakType|].
      - apply (clockIn_refused _ _ _ _ Hfind).
      - apply (clockOut_denied _ _ _ _ Hfind Hallow).
      - apply (startBreak_refused _ _ _ _ _ Hfind Hallow).
      - apply (endBreak_refused _ _ _ _ Hfind).
        rewrite canTransition_endBreak in Hallow. intros C.
        rewrite C in Hallow. discriminate. }
    apply refused_not_succeeded in R. congruence.
  - destruct Hcall as [| |breakType|]; [reflexivity| | |]; exfalso;
      destruct (no_record_refused userId storeId w Hfind) as (R1 & R2 & R3).
    + apply refused_not_succeeded in R1. congruence.
    + specialize (R2 breakType). apply refused_not_succeeded in R2. congruence.
    + apply refused_not_succeeded in R3. congruence.
Qed.

(** X30: The service performs only what [getCurrentState] offers: when
    a call succeeds, [getCurrentState] asked in the same world lists the
    call's action as allowed.  [getCurrentState] itself stores nothing,
    and the state it reports is NOT_CLOCKED_IN exactly when the user has
    no record for the day. *)
Theorem service_succeeds_only_on_offered_actions (userId storeId : string)
    (action : ClockAction.t) (op : IO ClockResult.t) (w : World.t) :
  serviceCall userId storeId action op ->
  exists cs w',
    getCurrentState userId storeId w = Returned cs w'
    /\ World.db w' = World.db w
    /\ CurrentState.attendance cs
       = findAttendanceForDay (World.db w) userId (today w)
    /\ (CurrentState.state cs = ClockState.NOT_CLOCKED_IN
        <-> findAttendanceForDay (World.db w) userId (today w) = None)
    /\ (succeeded (op w) = true -> offered action cs).
Proof.
  intros Hcall. rewrite getCurrentState_runs. eexists _, _.
  split; [reflexivity|]. split; [reflexivity|]. split; [reflexivity|]. split.
  - cbv zeta. cbn [CurrentState.state ClockStateMachine.fromAttendance
                   ClockStateMachine.state ClockStateMachine.schedule].
    destruct (findAttendanceForDay (World.db w) userId (today w)) as [att|].
    + split; [|discriminate]. intros C. now apply deriveState_some in C.
    + split; reflexivity.
  - intros Hok. unfold offered. cbv zeta. cbn [CurrentState.availableActions].
    apply allowed_is_listed.
    exact (succeeded_is_allowed userId storeId action op w Hcall Hok).
Qed.

End Engine.

(* ================================================================== *)
(** * The properties on the sample data *)

Import Sample.

(** Monday evening is where clock-in at 09:00 and a MEAL break started
    at 12:00 leave the store. *)
Example mondayEvening_is_reached :
  exists started,
    andThen (clockIn TZ "emp-1" "store-1" mondayMorning)
            (startBreak TZ "emp-1" "store-1" MEAL)
    = Returned started mondayEvening
    /\ ClockResult.success started = true
    /\ ClockResult.newState started = Some ClockState.ON_BREAK.
Proof.
  eexists. split; [vm_compute; reflexivity|]. split; reflexivity.
Qed.

(** C1, as stated, fails: on Monday evening the employee is still on the
    MEAL break begun at 12:00; clock-out returns a failure and stores
    nothing, where the claim has it succeed with PENDING_REVIEW. *)
Lemma clockOut_on_meal_break_is_blocked :
  findAttendanceForDay (World.db mondayEvening) "emp-1" (today TZ mondayEvening)
  = Some onMealBreak
  /\ List.existsb isOpen (Attendance.breaks onMealBreak) = true
  /\ clockOut TZ Number "emp-1" "store-1" mondayEvening
     = Returned
         (ClockResult.mk false "無法從 ON_BREAK 狀態執行 CLOCK_OUT" None None)
         (World.atRead mondayEvening 8)
  /\ ~ clockedOutWith TZ Number "emp-1" "store-1" mondayEvening "new-0"
         AttendanceStatus.PENDING_REVIEW.
Proof.
  split; [reflexivity|]. split; [reflexivity|]. split; [reflexivity|].
  intros (res & w' & updated & E & S & _).
  vm_compute in E. injection E as <- _. discriminate S.
Qed.

(** Once the break is ended, at 18:05, clock-out goes through; the break
    of 365 minutes is over 1.5 times the expected 60, so the day goes to
    review. *)
Example clockOut_after_ending_the_break :
  exists res w,
    andThen (andThen (clockOut TZ Number "emp-1" "store-1" mondayEvening)
                     (endBreak TZ "emp-1" "store-1"))
            (clockOut TZ Number "emp-1" "store-1")
    = Returned res w
    /\ ClockResult.success res = true
    /\ option_map Attendance.status (ClockResult.attendance res)
       = Some AttendanceStatus.PENDING_REVIEW
    /\ option_map Attendance.breakMinutes (ClockResult.attendance res)
       = Some (Some 365).
Proof.
  eexists _, _. split; [vm_compute; reflexivity|]. repeat split.
Qed.

(** The round trip of the spec through the service: in at 09:00, MEAL
    break 12:00-12:30, out at 18:00 on the 09:00-18:00 shift with 60
    minutes of expected break. *)
Example clockOut_round_trip_day :
  exists res w,
    andThen (andThen (andThen (clockIn TZ "emp-1" "store-1" roundTripMorning)
                              (startBreak TZ "emp-1" "store-1" MEAL))
                     (endBreak TZ "emp-1" "store-1"))
            (clockOut TZ Number "emp-1" "store-1")
    = Returned res w
    /\ ClockResult.success res = true
    /\ option_map Attendance.status (ClockResult.attendance res)
       = Some AttendanceStatus.CLOCKED_OUT
    /\ option_map Attendance.totalMinutes (ClockResult.attendance res)
       = Some (Some 540)
    /\ option_map Attendance.breakMinutes (ClockResult.attendance res)
       = Some (Some 30)
    /\ option_map Attendance.netWorkMinutes (ClockResult.attendance res)
       = Some (Some 510)
    /\ option_map Attendance.overtimeMinutes (ClockResult.attendance res)
       = Some (Some (Num.ofZ 30)).
Proof.
  eexists _, _. split; [vm_compute; reflexivity|]. repeat split.
Qed.

Lemma clockOut_with_open_break_witness :
  clockedOutWith TZ Number "emp-2" "store-1" splitEvening "att-2"
    AttendanceStatus.PENDING_REVIEW.
Proof.
  exact (proj1 (clockOut_with_open_break TZ Number "emp-2" "store-1"
                  splitEvening splitDay eq_refl eq_refl)
           (dec2024 16 10 0) eq_refl).
Defined.

Lemma calculateWorkHours_regular_plus_overtime_witness :
  exists r w',
    calculateWorkHours TZ Number roundTrip emptyWorld = Returned r w'
    /\ (WorkHoursResult.regularMinutes r + WorkHoursResult.overtimeMinutes r
        === Num.ofZ (WorkHoursResult.netWorkMinutes r))%num.
Proof.
  exact (calculateWorkHours_regular_plus_overtime TZ Number roundTrip emptyWorld
           dayShift eq_refl).
Defined.

(** The round trip of the spec: 540 total, 30 on break, 510 net, of which
    480 regular and 30 overtime, and no review. *)
Example calculateWorkHours_round_trip :
  exists r w',
    calculateWorkHours TZ Number roundTrip emptyWorld = Returned r w'
    /\ WorkHoursResult.totalMinutes r = 540
    /\ WorkHoursResult.breakMinutes r = 30
    /\ WorkHoursResult.netWorkMinutes r = 510
    /\ WorkHoursResult.regularMinutes r = Num.ofZ 480
    /\ WorkHoursResult.overtimeMinutes r = Num.ofZ 30
    /\ WorkHoursResult.requiresReview r = false.
Proof.
  eexists _, _. split; [vm_compute; reflexivity|]. repeat split.
Qed.

Lemma calculateWorkHours_negative_net_witness :
  exists r w',
    calculateWorkHours TZ Number breakOutlastsWork emptyWorld = Returned r w'
    /\ WorkHoursResult.netWorkMinutes r = -30
    /\ WorkHoursResult.regularMinutes r = Num.ofZ (-30)
    /\ WorkHoursResult.overtimeMinutes r = Num.ofZ 0.
Proof.
  destruct (calculateWorkHours_negative_net_not_clamped TZ Number
              breakOutlastsWork emptyWorld) as (r & w' & E & H).
  exists r, w'. split; [exact E|].
  vm_compute in E. injection E as <- <-.
  destruct (H ltac:(vm_compute; reflexivity)) as [_ H'].
  destruct (H' dayShift eq_refl eq_refl) as (HR & HO & _).
  split; [reflexivity|]. split; [exact HR | exact HO].
Defined.

Lemma canTransition_denies_without_entry_witness :
  Verdict.allowed
    (ClockStateMachine.canTransition
       (ClockStateMachine.mk ClockState.ON_BREAK onBreakContext)
       ClockAction.CLOCK_OUT)
  = false
  /\ exists reason,
       Verdict.reason
         (ClockStateMachine.canTransition
            (ClockStateMachine.mk ClockState.ON_BREAK onBreakContext)
            ClockAction.CLOCK_OUT)
       = Some reason
       /\ reason <> "".
Proof.
  apply (proj1 canTransition_denies_without_entry
           (ClockStateMachine.mk ClockState.ON_BREAK onBreakContext)
           ClockAction.CLOCK_OUT).
  intros tr Hin [Ha Hs]. cbn in Hin.
  repeat (destruct Hin as [<-|Hin];
          [cbn in Ha, Hs; try discriminate; intuition discriminate|]).
  contradiction.
Defined.

Lemma fromAttendance_split_break_witness :
  (let m :=
     ClockStateMachine.fromAttendance (Some splitInReview)
       (ClockStateMachine.mkBase "emp-3" "store-1"
          (Some (Schedule.mk "sch-3" "emp-3" (dec2024 16 0 0) splitShift)))
       (dec2024 16 17 0) in
   ClockStateMachine.state m = ClockState.CLOCKED_OUT
   /\ Verdict.allowed
        (ClockStateMachine.canTransition m ClockAction.CLOCK_IN_SEGMENT_2) = false
   /\ ClockStateMachine.getNextState m ClockAction.CLOCK_IN_SEGMENT_2 = None)
  /\ exists res w' att',
       clockOut TZ Number "emp-6" "store-1" endOfSplitShift = Returned res w'
       /\ ClockResult.success res = true
       /\ findAttendanceForDay (World.db w') "emp-6" (today TZ w') = Some att'
       /\ Attendance.id att' = Attendance.id reviewedSplitDay
       /\ Attendance.status att' = AttendanceStatus.CLOCKED_OUT
       /\ ClockStateMachine.deriveState (Some att')
            (findScheduleForDay (World.db w') "emp-6" (today TZ w'))
          = ClockState.SPLIT_BREAK.
Proof.
  pose proof (fromAttendance_split_break_only_from_clocked_out TZ Number
                (Some splitInReview)
                (ClockStateMachine.mkBase "emp-3" "store-1"
                   (Some (Schedule.mk "sch-3" "emp-3" (dec2024 16 0 0) splitShift)))
                (dec2024 16 17 0)) as (_ & _ & Hreview & Hagain).
  split; [exact (Hreview splitInReview eq_refl eq_refl)|].
  destruct (Hagain "emp-6" "store-1" endOfSplitShift reviewedSplitDay
              shortSplitSchedule (dec2024 16 10 0)
              eq_refl eq_refl eq_refl eq_refl eq_refl eq_refl)
    as (workHours & w1 & res & w' & Er & E & S1 & H).
  vm_compute in Er. injection Er as <- _.
  exists res, w'.
  assert (Hday : today TZ w' = today TZ endOfSplitShift).
  { vm_compute in E. injection E as _ <-. reflexivity. }
  destruct (H eq_refl Hday) as (att' & Hfind & Hid & Hst & Hsplit).
  exists att'. repeat split; assumption.
Defined.

(** C9, as stated, fails: the status is stored anew by every clock-out
    that goes through.  On a split shift CLOCK_OUT is allowed from
    CLOCKED_OUT, the state a day in review derives.  The employee clocks
    out of segment 1 at 14:00 and the day goes to review; clocking out
    again at 21:00, the end of the shift, when nothing asks for review,
    stores CLOCKED_OUT, and from that row SPLIT_BREAK is derived. *)
Lemma clockOut_again_from_review :
  (exists res w,
     clockOut TZ Number "emp-6" "store-1" endOfSegment1 = Returned res w
     /\ ClockResult.attendance res = Some reviewedSplitDay
     /\ Db.attendances (World.db w) = [reviewedSplitDay])
  /\ Attendance.status reviewedSplitDay = AttendanceStatus.PENDING_REVIEW
  /\ ShiftType.isSplit (Schedule.shiftType shortSplitSchedule) = true
  /\ ClockStateMachine.deriveState (Some reviewedSplitDay) (Some shortSplitSchedule)
     = ClockState.CLOCKED_OUT
  /\ exists res w updated,
       clockOut TZ Number "emp-6" "store-1" endOfSplitShift = Returned res w
       /\ ClockResult.success res = true
       /\ ClockResult.attendance res = Some updated
       /\ findAttendanceForDay (World.db w) "emp-6" (today TZ w) = Some updated
       /\ Attendance.id updated = Attendance.id reviewedSplitDay
       /\ Attendance.status updated = AttendanceStatus.CLOCKED_OUT
       /\ ClockStateMachine.deriveState (Some updated)
            (findScheduleForDay (World.db w) "emp-6" (today TZ w))
          = ClockState.SPLIT_BREAK.
Proof.
  split.
  { eexists _, _. split; [vm_compute; reflexivity|]. split; reflexivity. }
  split; [reflexivity|]. split; [reflexivity|]. split; [reflexivity|].
  eexists _, _, _. split; [vm_compute; reflexivity|].
  repeat split; vm_compute; reflexivity.
Qed.

(** C5, as stated, fails: two weekdays with 2 hours of overtime each, at
    hourly rate 200.  Tiered per day, both days stay in the first tier:
    2 * (2 * 200 * 1.34) = 1072.  The code tiers the period's 4 hours:
    2 * 200 * 1.34 + 2 * 200 * 1.67 = 1204. *)
Lemma overtimePay_two_days_not_tiered_per_day :
  let rows := [row hourly200 tenHoursMonday; row hourly200 tenHoursTuesday] in
  let world := worldAt (Db.mk [tenHoursMonday; tenHoursTuesday] [] [hourly200] []) 0 in
  exists line,
    calculatePayroll TZ Number "store-1" (dec2024 16 0 0) (dec2024 17 0 0) None world
    = Returned [line] world
    /\ line = payrollOfUser TZ Number (dec2024 16 0 0) (dec2024 17 0 0)
                "emp-1" hourly200 rows
    /\ List.map (rowOvertime Number) (weekdayRows TZ rows)
       = [Num.ofZ 120; Num.ofZ 120]
    /\ (Num.round (overtimePayPerDay TZ Number (Num.ofZ 200) rows) === Num.ofZ 1072)%num
    /\ F64.round
         (F64.add (calculateOvertimePay (F64.ofZ 2) (F64.ofZ 200))
                  (calculateOvertimePay (F64.ofZ 2) (F64.ofZ 200)))
       = F64.ofZ 1072
    /\ PayrollCalculation.overtimePay line = F64.ofZ 1204
    /\ PayrollCalculation.overtimePay line
       <> F64.ofNum (Num.round (overtimePayPerDay TZ Number (Num.ofZ 200) rows)).
Proof.
  cbv zeta. eexists. split; [vm_compute; reflexivity|].
  split; [vm_compute; reflexivity|].
  split; [vm_compute; reflexivity|].
  split; [vm_compute; reflexivity|].
  split; [vm_compute; reflexivity|].
  split; [vm_compute; reflexivity|].
  vm_compute. discriminate.
Qed.

Lemma overtimePay_tiered_on_period_total_witness :
  PayrollCalculation.overtimePay
    (payrollOfUser TZ Number (dec2024 16 0 0) (dec2024 16 0 0) "emp-1" hourly200
       [row hourly200 elevenHours])
  = F64.ofZ 870.
Proof.
  exact (proj2 (proj2 (proj2 (proj2 (overtimePay_tiered_on_period_total TZ Number
                         (dec2024 16 0 0) (dec2024 16 0 0) "emp-1" hourly200
                         [row hourly200 elevenHours]))))
           (row hourly200 elevenHours) eq_refl eq_refl eq_refl eq_refl eq_refl
           eq_refl).
Defined.

(** The amounts are doubles: 260 minutes of overtime are
    4.333333333333333 hours, and at rate 150 the tiers add up to
    986.4999999999999, reported as 986; added to the base pay of 1200 it
    is 2186.5, and grossPay is 2187. *)
Example overtimePay_in_doubles :
  let line :=
    payrollOfUser TZ Number (dec2024 16 0 0) (dec2024 16 0 0) "emp-8" hourly150
      [row hourly150 longMonday] in
  let pay :=
    payOf TZ (dec2024 16 0 0) (dec2024 16 0 0) hourly150
      (payrollTotals TZ Number [row hourly150 longMonday]) in
  Totals.totalOvertimeMinutes (payrollTotals TZ Number [row hourly150 longMonday])
  = Num.ofZ 260
  /\ Pay.overtimePay pay = S754_finite false 8677345766408191 (-43)
  /\ F64.ltb (Pay.overtimePay pay) (F64.ofQ (1973 # 2)) = true
  /\ PayrollCalculation.basePay line = F64.ofZ 1200
  /\ PayrollCalculation.overtimePay line = F64.ofZ 986
  /\ PayrollCalculation.grossPay line = F64.ofZ 2187.
Proof.
  cbv zeta. repeat split; vm_compute; reflexivity.
Qed.

(** C6, as stated, fails: Monday 22:00 to Tuesday 02:00 is 240 minutes
    inside the night window, 4 hours and an allowance of 200.  The code
    counts the first hour only: 1 night-shift hour, an allowance of 50. *)
Lemma nightShift_four_hours_counted_as_one :
  let line :=
    payrollOfUser TZ Number (dec2024 16 0 0) (dec2024 17 0 0) "emp-1" hourly200
      [row hourly200 nightShift] in
  nightWindowMinutes TZ (dec2024 16 22 0) (dec2024 17 2 0) = 240
  /\ rowNight TZ (row hourly200 nightShift) = F64.ofZ 60
  /\ PayrollCalculation.nightShiftHours line = F64.ofZ 1
  /\ PayrollCalculation.nightShiftPay line = F64.ofZ 50
  /\ PayrollCalculation.nightShiftHours line
     <> F64.div (F64.ofZ (nightWindowMinutes TZ (dec2024 16 22 0) (dec2024 17 2 0)))
          (F64.ofZ 60)
  /\ PayrollCalculation.nightShiftPay line
     <> F64.round
          (F64.mul
             (F64.div
                (F64.ofZ (nightWindowMinutes TZ (dec2024 16 22 0) (dec2024 17 2 0)))
                (F64.ofZ 60))
             (F64.ofZ 50)).
Proof.
  cbv zeta. split; [vm_compute; reflexivity|].
  split; [vm_compute; reflexivity|].
  split; [vm_compute; reflexivity|].
  split; [vm_compute; reflexivity|].
  split; vm_compute; discriminate.
Qed.

(** On a weekend the night minutes are estimated and listed in the
    detail, and left out of the night-shift hours. *)
Example nightShift_weekend_estimate_not_accumulated :
  let line :=
    payrollOfUser TZ Number (dec2024 21 0 0) (dec2024 22 0 0) "emp-1" hourly200
      [row hourly200 saturdayNight] in
  List.map PayrollDetail.nightMinutes (PayrollCalculation.details line)
  = [F64.ofZ 60]
  /\ List.map PayrollDetail.isHoliday (PayrollCalculation.details line) = [true]
  /\ PayrollCalculation.nightShiftPay line = F64.ofZ 0.
Proof.
  cbv zeta. repeat split; vm_compute; reflexivity.
Qed.

(** The window is 22:00 to 06:00 by the hour of the clock. *)
Example inNightWindow_edges :
  inNightWindow TZ (dec2024 16 21 59) = false
  /\ inNightWindow TZ (dec2024 16 22 0) = true
  /\ inNightWindow TZ (dec2024 17 5 59) = true
  /\ inNightWindow TZ (dec2024 17 6 0) = false
  /\ calculateNightMinutes TZ (dec2024 17 4 30) (Some (dec2024 17 5 59)) = F64.ofZ 89
  /\ calculateNightMinutes TZ (dec2024 17 4 30) (Some (dec2024 17 6 10)) = F64.ofZ 30
  /\ calculateNightMinutes TZ (dec2024 16 21 59) (Some (dec2024 16 22 10)) = F64.ofZ 10.
Proof.
  repeat split; vm_compute; reflexivity.
Qed.

(** A week of four records: Monday 22:00 to Tuesday 02:00 is estimated at
    60 minutes, Tuesday 22:15-22:45 at 75, Wednesday 09:00-17:00 at none,
    and Saturday's night is left out: 135 minutes, 2.25 hours, and an
    allowance of 112.5 reported as 113. *)
Lemma nightShift_weekday_estimate_witness :
  let rows :=
    [row hourly200 nightShift; row hourly200 lateTuesday;
     row hourly200 wednesdayDay; row hourly200 saturdayNight] in
  let line :=
    payrollOfUser TZ Number (dec2024 16 0 0) (dec2024 22 0 0) "emp-1" hourly200 rows in
  calculateNightMinutes TZ (dec2024 16 22 0) (Some (dec2024 17 2 0)) = F64.ofZ 60
  /\ calculateNightMinutes TZ (dec2024 17 22 15) (Some (dec2024 17 22 45)) = F64.ofZ 75
  /\ calculateNightMinutes TZ (dec2024 18 9 0) (Some (dec2024 18 17 0)) = F64.ofZ 0
  /\ List.map (rowNight TZ) (weekdayRows TZ rows) = [F64.ofZ 60; F64.ofZ 75; F64.ofZ 0]
  /\ PayrollCalculation.nightShiftHours line = F64.ofQ (225 # 100)
  /\ PayrollCalculation.nightShiftPay line = F64.ofZ 113
  /\ PayrollCalculation.nightShiftPay
       (payrollOfUser TZ Number (dec2024 16 0 0) (dec2024 22 0 0) "emp-1"
          hourlyDefault rows)
     = F64.ofZ 113.
Proof.
  cbv zeta.
  pose proof (nightShift_weekday_estimate_flat_allowance TZ Number
                (dec2024 16 0 0) (dec2024 22 0 0) "emp-1" hourly200
                [row hourly200 nightShift; row hourly200 lateTuesday;
                 row hourly200 wednesdayDay; row hourly200 saturdayNight])
    as (Hhours & Hpay & _ & Hother & _ & Hcases).
  destruct (Hcases (dec2024 16 22 0) (dec2024 17 2 0))
    as (_ & _ & _ & _ & _ & Hfirst).
  destruct (Hcases (dec2024 17 22 15) (dec2024 17 22 45))
    as (_ & _ & _ & Hcapped & _ & _).
  destruct (Hcases (dec2024 18 9 0) (dec2024 18 17 0))
    as (Hday & _ & _ & _ & _ & _).
  split; [exact (Hfirst eq_refl eq_refl eq_refl)|].
  split; [rewrite (Hcapped eq_refl eq_refl); vm_compute; reflexivity|].
  split; [exact (Hday eq_refl eq_refl)|].
  split; [vm_compute; reflexivity|].
  split; [rewrite Hhours; vm_compute; reflexivity|].
  split; [rewrite Hpay; vm_compute; reflexivity|].
  rewrite (Hother hourlyDefault), Hpay. vm_compute. reflexivity.
Defined.

(** The allowance is a double: 69 night minutes are 1.15 hours, and 50
    times that is 57.49999999999999, reported as 57; with the base pay of
    229.99999999999997 the sum is 287.49999999999994, and grossPay is
    287. *)
Example nightShiftPay_in_doubles :
  let line :=
    payrollOfUser TZ Number (dec2024 16 0 0) (dec2024 20 0 0) "emp-1" hourly200
      [row hourly200 thursdayLate] in
  let pay :=
    payOf TZ (dec2024 16 0 0) (dec2024 20 0 0) hourly200
      (payrollTotals TZ Number [row hourly200 thursdayLate]) in
  Totals.totalNightMinutes (payrollTotals TZ Number [row hourly200 thursdayLate])
  = F64.ofZ 69
  /\ Pay.nightShiftPay pay = S754_finite false 8092405580431359 (-47)
  /\ F64.ltb (Pay.nightShiftPay pay) (F64.ofQ (115 # 2)) = true
  /\ PayrollCalculation.basePay line = F64.ofZ 230
  /\ PayrollCalculation.nightShiftPay line = F64.ofZ 57
  /\ PayrollCalculation.grossPay line = F64.ofZ 287.
Proof.
  cbv zeta. repeat split; vm_compute; reflexivity.
Qed.

(** C7, as stated, fails: half an hour at rate 183 is 91.5, reported as
    92; 75 night minutes at 50 an hour are 62.5, reported as 63; grossPay
    is the rounding of 154, not 92 + 63 = 155. *)
Lemma grossPay_is_not_the_sum_of_rounded_components :
  let line :=
    payrollOfUser TZ Number (dec2024 16 0 0) (dec2024 16 0 0) "emp-4" hourlyDefault
      [row hourlyDefault halfHourLate] in
  let reported :=
    F64.add
      (F64.add
         (F64.add (PayrollCalculation.basePay line)
                  (PayrollCalculation.overtimePay line))
         (PayrollCalculation.holidayPay line))
      (PayrollCalculation.nightShiftPay line) in
  PayrollCalculation.basePay line = F64.ofZ 92
  /\ PayrollCalculation.overtimePay line = F64.ofZ 0
  /\ PayrollCalculation.holidayPay line = F64.ofZ 0
  /\ PayrollCalculation.nightShiftPay line = F64.ofZ 63
  /\ PayrollCalculation.grossPay line = F64.ofZ 154
  /\ reported = F64.ofZ 155
  /\ PayrollCalculation.grossPay line <> reported.
Proof.
  cbv zeta. repeat (split; [vm_compute; reflexivity|]).
  vm_compute. discriminate.
Qed.

Lemma grossPay_rounds_the_unrounded_sum_witness :
  let line :=
    payrollOfUser TZ Number (dec2024 16 0 0) (dec2024 16 0 0) "emp-4" hourlyDefault
      [row hourlyDefault halfHourLate] in
  let pay :=
    payOf TZ (dec2024 16 0 0) (dec2024 16 0 0) hourlyDefault
      (payrollTotals TZ Number [row hourlyDefault halfHourLate]) in
  Pay.basePay pay = S754_finite false 6438740092256256 (-46)
  /\ Pay.nightShiftPay pay = S754_finite false 8796093022208000 (-47)
  /\ PayrollCalculation.grossPay line = F64.ofZ 154
  /\ exists n : Z,
       PayrollCalculation.basePay line = (if n =? 0 then S754_zero false else F64.ofZ n)
       /\ (2 * n - 1) * 2 ^ 46 <= 2 * 6438740092256256 < (2 * n + 1) * 2 ^ 46.
Proof.
  cbv zeta.
  pose proof (grossPay_rounds_the_unrounded_sum TZ Number
                (dec2024 16 0 0) (dec2024 16 0 0) "emp-4" hourlyDefault
                [row hourlyDefault halfHourLate])
    as (Hbase & _ & _ & _ & Hgross & Hround).
  assert (Eb : Pay.basePay
                 (payOf TZ (dec2024 16 0 0) (dec2024 16 0 0) hourlyDefault
                    (payrollTotals TZ Number [row hourlyDefault halfHourLate]))
               = S754_finite false 6438740092256256 (-46))
    by (vm_compute; reflexivity).
  split; [exact Eb|].
  split; [vm_compute; reflexivity|].
  split; [rewrite Hgross; vm_compute; reflexivity|].
  destruct (Hround false 6438740092256256%positive (-46) eq_refl) as (n & Hn & Hb).
  exists n. split; [|exact Hb].
  rewrite Hbase, Eb. exact Hn.
Defined.


(** A part of a month, in doubles: 20026 a month over 21 of the 28 days
    of February 2023 is 20026 / 28 * 21 = 15019.499999999998, reported
    as 15019. *)
Example basePay_salaried_in_doubles :
  let line :=
    payrollOfUser TZ Number (feb2023 1) (feb2023 21) "emp-9" salaried20026 [] in
  calendarDays (Utils.getFullYear TZ (feb2023 1)) (Utils.getMonth TZ (feb2023 1)) = 28
  /\ periodDays (feb2023 1) (feb2023 21) = 21
  /\ Pay.basePay (payOf TZ (feb2023 1) (feb2023 21) salaried20026
                    (payrollTotals TZ Number []))
     = S754_finite false 8257057446690815 (-39)
  /\ F64.ltb (S754_finite false 8257057446690815 (-39)) (F64.ofQ (30039 # 2)) = true
  /\ PayrollCalculation.basePay line = F64.ofZ 15019
  /\ PayrollCalculation.grossPay line = F64.ofZ 15019.
Proof.
  cbv zeta. repeat split; vm_compute; reflexivity.
Qed.

(* ------------------------------------------------------------------ *)
(** ** The further properties at the sample data *)

Lemma getAvailableActions_agrees_with_canTransition_witness :
  let item :=
    ClockStateMachine.Available.mk ClockAction.CLOCK_OUT false
      (Some "請先結束休息再下班打卡") in
  In item (ClockStateMachine.getAvailableActions workingWithOpenBreak)
  /\ ClockStateMachine.Available.allowed item
     = Verdict.allowed
         (ClockStateMachine.canTransition workingWithOpenBreak ClockAction.CLOCK_OUT).
Proof.
  intros item.
  assert (H : In item (ClockStateMachine.getAvailableActions workingWithOpenBreak))
    by (right; left; reflexivity).
  split; [exact H|].
  exact (proj1 (proj1 (getAvailableActions_agrees_with_canTransition
                         workingWithOpenBreak) item H)).
Defined.

Lemma canTransition_allowed_has_next_state_witness :
  exists next,
    ClockStateMachine.getNextState workingWithOpenBreak ClockAction.START_BREAK
    = Some next
    /\ In (ClockState.WORKING, ClockAction.START_BREAK, next) transitionTriples.
Proof.
  exact (canTransition_allowed_has_next_state workingWithOpenBreak
           ClockAction.START_BREAK eq_refl).
Defined.

Lemma calculateWorkHours_reads_clock_for_open_breaks_only_witness :
  exists r, forall w2 : World.t,
    calculateWorkHours TZ Number roundTrip w2 = Returned r w2.
Proof.
  exact (proj2 (calculateWorkHours_reads_clock_for_open_breaks_only
                  TZ Number roundTrip emptyWorld) eq_refl).
Defined.

Lemma calculateWorkHours_overtime_never_negative_witness :
  exists st,
    WorkHoursInput.shiftType longDay = Some st
    /\ Num.gtb (Num.ofZ 660) (calculateScheduledMinutes Number st) = true.
Proof.
  destruct (calculateWorkHours_overtime_never_negative TZ Number longDay emptyWorld)
    as (r & w' & q & E & Eq & _ & Hpos).
  vm_compute in E. injection E as <- <-.
  vm_compute in Eq. injection Eq as <-.
  exact (Hpos eq_refl).
Defined.

Lemma calculateWorkHours_regular_is_min_overtime_is_max_witness :
  exists r w',
    calculateWorkHours TZ Number roundTrip emptyWorld = Returned r w'
    /\ (WorkHoursResult.regularMinutes r
        === Fin (Qmin (inject_Z (WorkHoursResult.netWorkMinutes r)) 480))%num
    /\ (WorkHoursResult.overtimeMinutes r
        === Fin (Qmax 0 (inject_Z (WorkHoursResult.netWorkMinutes r) - 480)))%num.
Proof.
  exact (calculateWorkHours_regular_is_min_overtime_is_max TZ Number roundTrip
           emptyWorld dayShift 480%Q eq_refl eq_refl).
Defined.

Lemma calculateTimingAnomalies_time_of_day_only_witness :
  let t :=
    calculateTimingAnomalies TZ Number (dec2024 16 9 30) (dec2024 16 17 0)
      (Some dayShift) in
  exists earlyIn lateIn earlyOut lateOut : Q,
    TimingAnomalies.earlyClockIn t = Fin earlyIn
    /\ TimingAnomalies.lateClockIn t = Fin lateIn
    /\ TimingAnomalies.earlyClockOut t = Fin earlyOut
    /\ TimingAnomalies.lateClockOut t = Fin lateOut
    /\ (0 <= earlyIn /\ 0 <= lateIn /\ 0 <= earlyOut /\ 0 <= lateOut)%Q
    /\ (earlyIn == 0 \/ lateIn == 0)%Q
    /\ (earlyOut == 0 \/ lateOut == 0)%Q
    /\ (earlyIn - lateIn == 540 - inject_Z 570)%Q
    /\ (earlyOut - lateOut == 1080 - inject_Z 1020)%Q.
Proof.
  exact (proj2 (calculateTimingAnomalies_time_of_day_only TZ Number
                  (dec2024 16 9 30) (dec2024 16 17 0) (Some dayShift))
           dayShift 540%Q 1080%Q eq_refl eq_refl eq_refl).
Defined.

Lemma calculateWorkHours_without_shift_witness :
  exists r w',
    calculateWorkHours TZ Number noShift emptyWorld = Returned r w'
    /\ WorkHoursResult.requiresReview r = true
    /\ WorkHoursResult.overtimeMinutes r = Num.ofZ 0.
Proof.
  destruct (calculateWorkHours_without_shift TZ Number noShift emptyWorld eq_refl)
    as (r & w' & E & R & _ & O & _).
  exists r, w'. split; [exact E|]. split; [|exact O].
  rewrite R. vm_compute in E. injection E as <- <-. reflexivity.
Defined.

Lemma calculateScheduledMinutes_is_payroll_less_break_witness :
  calculateScheduledMinutes Number dayShift
  = (getScheduledMinutes Number dayShift - Num.ofZ 60)%num.
Proof.
  exact (proj1 (calculateScheduledMinutes_is_payroll_less_break Number dayShift
                  eq_refl)).
Defined.

Lemma parseTimeString_pieces_witness :
  Utils.parseTimeString Number "0900" = (Number "0900", NaN).
Proof.
  apply (proj1 (parseTimeString_pieces Number)).
  intros c Hin. cbn in Hin.
  repeat (destruct Hin as [<-|Hin]; [discriminate|]). contradiction.
Defined.

Lemma formatWorkHours_sign_and_parts_witness :
  formatWorkHours (- 90) = "-" ++ formatWorkHours 90.
Proof.
  exact (proj1 (formatWorkHours_sign_and_parts 90) eq_refl).
Defined.

Lemma minutesToHoursMinutes_parts_witness :
  exists hours mins,
    minutesToHoursMinutes (- 90) = showZ hours ++ "h " ++ showZ mins ++ "m"
    /\ hours * 60 + mins = - 90 - 60.
Proof.
  destruct (minutesToHoursMinutes_parts (- 90)) as (hours & mins & E & _ & H).
  exists hours, mins. split; [exact E|].
  apply H; [reflexivity | discriminate].
Defined.

Lemma calculateOvertimePay_grows_with_hours_witness :
  exists p1 p2,
    calculateOvertimePay (Fin 1) (Fin 200) = Fin p1
    /\ calculateOvertimePay (Fin 3) (Fin 200) = Fin p2
    /\ (0 <= p1 <= p2)%Q.
Proof.
  apply (proj1 (proj2 (proj2 calculateOvertimePay_grows_with_hours))
           1%Q 3%Q 200%Q);
    discriminate.
Defined.

Lemma payroll_minutes_are_conserved_witness :
  (paidMinutes
     (payrollTotals TZ Number
        [row hourly200 tenHoursMonday; row hourly200 saturdayNight])
   === Num.ofZ 840)%num.
Proof.
  apply (payroll_minutes_are_conserved TZ Number
           [row hourly200 tenHoursMonday; row hourly200 saturdayNight]).
  intros r Hin _ _. eexists.
  destruct Hin as [<-|[<-|[]]]; vm_compute; reflexivity.
Defined.

Lemma basePay_full_time_without_salary_witness :
  Pay.basePay
    (payOf TZ (apr2024 1) (apr2024 30) fullTimeNoSalary
       (payrollTotals TZ Number [row fullTimeNoSalary elevenHours]))
  = F64.mul
      (F64.div
         (F64.ofNum
            (Totals.totalRegularMinutes
               (payrollTotals TZ Number [row fullTimeNoSalary elevenHours])))
         (F64.ofZ 60))
      (hourlyRateOf fullTimeNoSalary).
Proof.
  exact (proj1 (basePay_full_time_without_salary TZ Number (apr2024 1) (apr2024 30)
                  "emp-7" fullTimeNoSalary [row fullTimeNoSalary elevenHours]
                  eq_refl (or_introl eq_refl))).
Defined.

Lemma calculateNightMinutes_daytime_hours_count_nothing_witness :
  calculateNightMinutes TZ (dec2024 16 21 30) (Some (dec2024 17 6 30))
  = F64.ofZ 0.
Proof.
  apply (proj2 (calculateNightMinutes_daytime_hours_count_nothing TZ
                  (dec2024 16 21 30) (dec2024 17 6 30)));
    vm_compute; (split; [discriminate | reflexivity]).
Defined.

Lemma calculatePayroll_one_line_per_user_of_selected_rows_witness :
  exists lines,
    calculatePayroll TZ Number "store-1" (dec2024 16 0 0) (dec2024 17 0 0) None
      payrollWorld = Returned lines payrollWorld
    /\ List.map PayrollCalculation.userId lines = ["emp-1"; "emp-4"]
    /\ NoDup (List.map PayrollCalculation.userId lines).
Proof.
  destruct (calculatePayroll_one_line_per_user_of_selected_rows TZ Number "store-1"
              (dec2024 16 0 0) (dec2024 17 0 0) None payrollWorld)
    as (lines & E & N & _).
  exists lines. split; [exact E|]. split; [|exact N].
  vm_compute in E. injection E as <-. reflexivity.
Defined.

Lemma calculatePayroll_covers_every_selected_row_witness :
  exists lines line user rows r,
    calculatePayroll TZ Number "store-1" (dec2024 16 0 0) (dec2024 17 0 0) None
      payrollWorld = Returned lines payrollWorld
    /\ In line lines
    /\ line = payrollOfUser TZ Number (dec2024 16 0 0) (dec2024 17 0 0)
                "emp-1" user rows
    /\ In r rows
    /\ PayrollRow.attendance r = tenHoursTuesday.
Proof.
  apply (calculatePayroll_covers_every_selected_row TZ Number "store-1"
           (dec2024 16 0 0) (dec2024 17 0 0) None payrollWorld tenHoursTuesday).
  - left. reflexivity.
  - split; [reflexivity|]. split; [vm_compute; split; discriminate|].
    split; [left; reflexivity | discriminate].
  - exists hourly200. split; [left; reflexivity | reflexivity].
Defined.

Lemma clockIn_refused_when_day_has_record_witness :
  exists res w',
    clockIn TZ "emp-1" "store-1" mondayEvening = Returned res w'
    /\ ClockResult.success res = false
    /\ ClockResult.message res = "無法從 ON_BREAK 狀態執行 CLOCK_IN"
    /\ World.db w' = World.db mondayEvening.
Proof.
  destruct (clockIn_refused_when_day_has_record TZ "emp-1" "store-1"
              mondayEvening onMealBreak eq_refl)
    as (res & w' & E & S0 & _ & M & Hdb).
  exists res, w'. auto.
Defined.

Lemma clockIn_creates_the_day_record_witness :
  exists res w',
    clockIn TZ "emp-1" "store-1" mondayMorning = Returned res w'
    /\ ClockResult.success res = true
    /\ Db.attendances (World.db w') = [atWork].
Proof.
  destruct (clockIn_creates_the_day_record TZ "emp-1" "store-1" mondayMorning
              eq_refl eq_refl)
    as (res & w' & E & S1 & _ & A & _).
  exists res, w'. split; [exact E|]. split; [exact S1|]. exact A.
Defined.

Lemma startBreak_accepted_iff_working_below_max_witness :
  exists res w',
    startBreak TZ "emp-1" "store-1" MEAL mondayNoon = Returned res w'
    /\ ClockResult.success res = true
    /\ Db.auditLogs (World.db w')
       = [AuditLog.mk "emp-1" "CLOCK_IN" "Attendance" "new-0";
          AuditLog.mk "emp-1" "START_BREAK" "Attendance" "new-0"].
Proof.
  destruct (proj1 (startBreak_accepted_iff_working_below_max TZ "emp-1" "store-1"
                     MEAL mondayNoon atWork eq_refl)
              (conj eq_refl eq_refl))
    as (res & w' & E & S1 & _ & L).
  exists res, w'. split; [exact E|]. split; [exact S1|]. exact L.
Defined.

Lemma endBreak_closes_the_latest_open_break_witness :
  exists res w',
    endBreak TZ "emp-1" "store-1" mondayEvening = Returned res w'
    /\ ClockResult.success res = true
    /\ ClockResult.message res = "結束休息 (365 分鐘)".
Proof.
  destruct (endBreak_closes_the_latest_open_break TZ "emp-1" "store-1"
              mondayEvening onMealBreak eq_refl eq_refl)
    as (_ & _ & res & w' & a & E & S1 & M & _).
  exists res, w'. split; [exact E|]. split; [exact S1|]. exact M.
Defined.

Lemma startBreak_leaves_only_endBreak_witness :
  exists res w',
    startBreak TZ "emp-1" "store-1" MEAL mondayNoon = Returned res w'
    /\ refused (clockOut TZ Number "emp-1" "store-1") w'
    /\ succeeded (endBreak TZ "emp-1" "store-1" w') = true.
Proof.
  destruct (startBreak_leaves_only_endBreak TZ Number "emp-1" "store-1" MEAL
              mondayNoon atWork eq_refl eq_refl eq_refl)
    as (res & w' & E & _ & H).
  exists res, w'. split; [exact E|].
  assert (Hday : today TZ w' = today TZ mondayNoon).
  { vm_compute in E. injection E as _ <-. reflexivity. }
  destruct (H Hday) as (Hout & _ & _ & Hend). split; assumption.
Defined.

Lemma service_call_stores_nothing_unless_it_succeeds_witness :
  World.db (worldOf (clockOut TZ Number "emp-1" "store-1" mondayEvening))
  = World.db mondayEvening.
Proof.
  apply (proj1 (service_call_stores_nothing_unless_it_succeeds TZ Number
                  "emp-1" "store-1" ClockAction.CLOCK_OUT
                  (clockOut TZ Number "emp-1" "store-1") mondayEvening
                  (CallClockOut TZ Number "emp-1" "store-1"))).
  vm_compute. reflexivity.
Defined.

Lemma service_call_keeps_one_record_per_day_witness :
  Db.attendances (World.db mondayEvening) = [onMealBreak]
  /\ oneRecordPerDay
       (World.db (worldOf (clockIn TZ "emp-1" "store-1" mondayEvening)))
  /\ (exists res w', clockIn TZ "emp-1" "store-1" mondayEvening = Returned res w')
  /\ oneRecordPerDay
       (World.db (worldOf (endBreak TZ "emp-1" "store-1" mondayEvening)))
  /\ List.map Attendance.id (Db.attendances (World.db busyMorning))
     = ["att-2"; "att-12"; "att-15"]
  /\ List.map Attendance.id
       (Db.attendances
          (World.db (worldOf (clockIn TZ "emp-1" "store-1" busyMorning))))
     = ["att-2"; "att-12"; "att-15"; "new-0"]
  /\ oneRecordPerDay
       (World.db (worldOf (clockIn TZ "emp-1" "store-1" busyMorning))).
Proof.
  assert (U1 : oneRecordPerDay (World.db mondayEvening)).
  { unfold oneRecordPerDay. cbn. constructor; [intros []|constructor]. }
  assert (U2 : oneRecordPerDay (World.db busyMorning)).
  { unfold oneRecordPerDay. vm_compute.
    repeat constructor; intros H; cbn in H;
      repeat (destruct H as [H|H]; [discriminate H|]); exact H. }
  destruct (service_call_keeps_one_record_per_day TZ Number "emp-1" "store-1"
              ClockAction.CLOCK_IN (clockIn TZ "emp-1" "store-1") mondayEvening
              (CallClockIn TZ Number "emp-1" "store-1") U1) as [K1 R1].
  destruct (service_call_keeps_one_record_per_day TZ Number "emp-1" "store-1"
              ClockAction.END_BREAK (endBreak TZ "emp-1" "store-1") mondayEvening
              (CallEndBreak TZ Number "emp-1" "store-1") U1) as [K2 _].
  destruct (service_call_keeps_one_record_per_day TZ Number "emp-1" "store-1"
              ClockAction.CLOCK_IN (clockIn TZ "emp-1" "store-1") busyMorning
              (CallClockIn TZ Number "emp-1" "store-1") U2) as [K3 _].
  split; [reflexivity|]. split; [exact K1|]. split; [exact (R1 eq_refl)|].
  split; [exact K2|]. split; [reflexivity|]. split; [reflexivity | exact K3].
Defined.

Lemma split_break_refuses_every_service_call_witness :
  refused (clockIn TZ "emp-6" "store-1") duringSplitBreak
  /\ refused (clockOut TZ Number "emp-6" "store-1") duringSplitBreak.
Proof.
  split.
  - exact (proj2 (split_break_refuses_every_service_call TZ Number
                    "emp-6" "store-1" duringSplitBreak clockedOutSplitDay
                    shortSplitSchedule ClockAction.CLOCK_IN
                    (clockIn TZ "emp-6" "store-1")
                    eq_refl eq_refl eq_refl eq_refl eq_refl
                    (CallClockIn TZ Number "emp-6" "store-1"))).
  - exact (proj2 (split_break_refuses_every_service_call TZ Number
                    "emp-6" "store-1" duringSplitBreak clockedOutSplitDay
                    shortSplitSchedule ClockAction.CLOCK_OUT
                    (clockOut TZ Number "emp-6" "store-1")
                    eq_refl eq_refl eq_refl eq_refl eq_refl
                    (CallClockOut TZ Number "emp-6" "store-1"))).
Defined.

Lemma clockOut_accepted_records_witness :
  succeeded (clockOut TZ Number "emp-6" "store-1" endOfSplitShift) = true.
Proof.
  exact (proj1 (clockOut_accepted_records TZ Number "emp-6" "store-1"
                  endOfSplitShift reviewedSplitDay (dec2024 16 10 0)
                  eq_refl eq_refl)).
Defined.

Lemma service_succeeds_only_on_offered_actions_witness :
  exists cs w',
    getCurrentState TZ "emp-1" "store-1" mondayMorning = Returned cs w'
    /\ offered ClockAction.CLOCK_IN cs.
Proof.
  destruct (service_succeeds_only_on_offered_actions TZ Number "emp-1" "store-1"
              ClockAction.CLOCK_IN (clockIn TZ "emp-1" "store-1") mondayMorning
              (CallClockIn TZ Number "emp-1" "store-1"))
    as (cs & w' & E & _ & _ & _ & H).
  exists cs, w'. split; [exact E|]. apply H. vm_compute. reflexivity.
Defined.
